(** * EasyHoliday: the itinerary-to-booking core, embedded and verified

    The development follows [src/booker_agent.py] and the three modules of
    [src/tools/].  Python values are modelled as follows.

    - [int] is [Z]; [//] and [%] are [Z.div] and [Z.modulo] (both floor).
    - [float] is IEEE binary64, through the Standard Library's [SpecFloat].
    - [str] is [string], restricted to ASCII for [lower] and [strip].
    - [datetime.date] is its proleptic ordinal ([date.toordinal()]), with the
      range check of the [datetime] module; a JSON field that is meant to
      hold an ISO date is a [DateText].
    - a JSON object with a fixed set of keys is a record whose fields are
      options ([None]: the key is absent), read with [dict.get]; a field
      that is present holds a value of the type the data model gives it
      (text, integer, date text), so that [int(...)] and [str(...)] are the
      identity on it.
    - the night table built by the allocator is a [gmap string Z].
    - the three JSON files are the three lists of a [Store]; code that reads
      or writes them runs in a state-and-exception monad over the store.
    - [payments.json] ([src/tools/payment_tools.py]), the country metadata
      and the session state of the trip form ([src/app.py]) are passed to
      the functions that read them and returned by those that write them. *)

From stdpp Require Import gmap strings list fin_maps pretty.
From Stdlib Require Import ZArith Ascii SpecFloat.
Open Scope Z_scope.
Set Warnings "-clear-no-such-hyp".

(** ** Exceptions and results *)

Module Py.

(** What the [try] block of [book_itinerary] can catch when it reads the
    preferences. *)
Inductive PrefExc :=
  | KeyError (key : string)
  | ValueError_isoformat (raw : string).

(** [BookerError] is one exception class in the source; the constructors
    are its four [raise] sites. *)
Inductive BookerError :=
  | InvalidPreferences (exc : PrefExc)
  | EmptyItinerary
  | NoFlightsAvailable
  | NoHotelsAvailable (city style : string).

Definition str_exc (exc : PrefExc) : string :=
  match exc with
  | KeyError key => "'" +:+ key +:+ "'"
  | ValueError_isoformat raw => "Invalid isoformat string: '" +:+ raw +:+ "'"
  end.

Definition message (e : BookerError) : string :=
  match e with
  | InvalidPreferences exc => "Invalid user preferences: " +:+ str_exc exc
  | EmptyItinerary => "Chosen itinerary has no cities to visit."
  | NoFlightsAvailable =>
      "No available outbound or return flights for the selected trip."
  | NoHotelsAvailable city style =>
      "No hotels available in " +:+ city +:+ " for style " +:+ style +:+ "."
  end.

(** Exceptions that leave [book_itinerary]: its own class, and the built-in
    ones that nothing catches. *)
Inductive exn :=
  | BookerErr (e : BookerError)
  | AttributeError
  | OverflowError
  | ValueError.

Inductive result (A : Type) :=
  | Ok (a : A)
  | Raise (e : exn).
Arguments Ok {A} a.
Arguments Raise {A} e.

Definition rbind {A B} (r : result A) (k : A → result B) : result B :=
  match r with
  | Ok a => k a
  | Raise e => Raise e
  end.

(** ** [str.lower] and [str.strip] on ASCII text *)

Definition lower_char (c : ascii) : ascii :=
  let n := N_of_ascii c in
  if ((65 <=? n) && (n <=? 90))%N then ascii_of_N (n + 32) else c.

Fixpoint lower (s : string) : string :=
  match s with
  | EmptyString => EmptyString
  | String c rest => String (lower_char c) (lower rest)
  end.

(** The ASCII characters for which [str.isspace] holds. *)
Definition is_space (c : ascii) : bool :=
  let n := N_of_ascii c in
  (((9 <=? n) && (n <=? 13)) || ((28 <=? n) && (n <=? 32)))%N.

Fixpoint lstrip (s : string) : string :=
  match s with
  | EmptyString => EmptyString
  | String c rest => if is_space c then lstrip rest else s
  end.

Fixpoint rstrip (s : string) : string :=
  match s with
  | EmptyString => EmptyString
  | String c rest =>
      match rstrip rest with
      | EmptyString => if is_space c then EmptyString else String c EmptyString
      | rest' => String c rest'
      end
  end.

Definition strip (s : string) : string := rstrip (lstrip s).

(** ** [min(xs, key=...)] and [xs.sort(key=...)] *)

(** The running minimum of [min]: a later element replaces the current one
    only when its key is strictly smaller. *)
Fixpoint min_from {A} (key : A → Z) (best : A) (xs : list A) : A :=
  match xs with
  | [] => best
  | x :: rest =>
      if bool_decide (key x < key best) then min_from key x rest
      else min_from key best rest
  end.

(** [min] raises on an empty list; the callers test for emptiness first. *)
Definition min_by {A} (key : A → Z) (xs : list A) : option A :=
  match xs with
  | [] => None
  | x :: rest => Some (min_from key x rest)
  end.

(** [list.sort] is stable, so its result is the one stable insertion sort
    gives. *)
Fixpoint insert_by {A} (key : A → Z) (x : A) (sorted : list A) : list A :=
  match sorted with
  | [] => [x]
  | y :: rest =>
      if bool_decide (key x ≤ key y) then x :: y :: rest
      else y :: insert_by key x rest
  end.

Fixpoint sort_by {A} (key : A → Z) (xs : list A) : list A :=
  match xs with
  | [] => []
  | x :: rest => insert_by key x (sort_by key rest)
  end.

(** ** [datetime.date] and [timedelta] *)

Definition date := Z.

Definition MINORDINAL : Z := 1.
Definition MAXORDINAL : Z := 3652059.
Definition MAX_DELTA_DAYS : Z := 999999999.

(** [timedelta(days=n)] *)
Definition timedelta (days : Z) : result Z :=
  if bool_decide (Z.abs days ≤ MAX_DELTA_DAYS) then Ok days
  else Raise OverflowError.

(** [d + timedelta(days=n)] *)
Definition date_add (d : date) (days : Z) : result date :=
  rbind (timedelta days) (λ delta,
    if bool_decide (MINORDINAL ≤ d + delta ≤ MAXORDINAL) then Ok (d + delta)
    else Raise OverflowError).

(** The text of a JSON field that should hold a date: either the ISO form
    of the date with ordinal [d], or some other text. *)
Inductive DateText :=
  | IsoDate (d : date)
  | NotIso (raw : string).

Definition fromisoformat (t : DateText) : option date :=
  match t with
  | IsoDate d => Some d
  | NotIso _ => None
  end.

Definition isoformat (d : date) : DateText := IsoDate d.

(** ** [int * float] and [int(float)] in binary64 *)

Definition prec : Z := 53.
Definition emax : Z := 1024.

(** The literals [0.2] and [1.2]: [0x1.999999999999ap-3] and
    [0x1.3333333333333p+0]. *)
Definition float_0_2 : spec_float := S754_finite false 7205759403792794 (-55).
Definition float_1_2 : spec_float := S754_finite false 5404319552844595 (-52).

(** [float(z)]: correctly rounded, [OverflowError] beyond the range. *)
Definition float_of_int (z : Z) : result spec_float :=
  match binary_normalize prec emax z 0 false with
  | S754_infinity _ => Raise OverflowError
  | f => Ok f
  end.

(** [int(f)]: truncation towards zero. *)
Definition int_of_float (f : spec_float) : result Z :=
  match f with
  | S754_zero _ => Ok 0
  | S754_finite s m e =>
      let magnitude :=
        if bool_decide (0 ≤ e) then Z.pos m * 2 ^ e else Z.pos m `div` 2 ^ (- e) in
      Ok (if s then - magnitude else magnitude)
  | S754_infinity _ => Raise OverflowError
  | S754_nan => Raise ValueError
  end.

(** [int(z * c)] for an [int] [z] and a [float] [c]. *)
Definition int_mul_float (z : Z) (c : spec_float) : result Z :=
  rbind (float_of_int z) (λ x, int_of_float (SFmul prec emax x c)).

(** ** [f"{n:04d}"] for a natural number *)

Definition format_04d (n : nat) : string :=
  let digits := pretty n in
  String.concat "" (replicate (4 - String.length digits) "0") +:+ digits.

End Py.

Import Py.

(** ** The JSON data sets and the store *)

Module Data.

(** A record of [flights.json]. *)
Record Flight := {
  fl_id : option string;
  fl_from : option string;
  fl_to : option string;
  fl_date : option DateText;
  fl_base_price_idr : option Z;
  fl_seats_left : option Z;
}.

(** A record of [hotels.json]; the last three fields are the keys that
    [book_itinerary] adds to its copy of the hotel it selects. *)
Record Hotel := {
  ht_id : option string;
  ht_name : option string;
  ht_city : option string;
  ht_country : option string;
  ht_category : option string;
  ht_price_per_night_idr : option Z;
  ht_rooms_left : option Z;
  ht_available_from : option DateText;
  ht_available_to : option DateText;
  ht_nights : option Z;
  ht_stay_start_date : option DateText;
  ht_stay_end_date : option DateText;
}.

(** An entry of ["stays"] in a booking record. *)
Record Stay := {
  st_hotel_id : option string;
  st_hotel_name : option string;
  st_city : option string;
  st_country : option string;
  st_nights : option Z;
  st_stay_start_date : option DateText;
  st_stay_end_date : option DateText;
  st_category : option string;
  st_price_per_night_idr : option Z;
}.

(** A record of [bookings.json]. *)
Record BookingRecord := {
  bk_booking_id : string;
  bk_created_at : string;
  bk_country : option string;
  bk_cities : list string;
  bk_start_date : DateText;
  bk_end_date : DateText;
  bk_flight_ids : list string;
  bk_hotel_ids : list string;
  bk_stays : list Stay;
  bk_flight_details : list Flight;
  bk_total_price_idr : Z;
  bk_payment_transaction_id : option string;
  bk_card_last4 : option string;
}.

(** The contents of [bookings.json], [flights.json] and [hotels.json]; a
    missing or unreadable file is the empty list. *)
Record Store := {
  BOOKINGS_FILE : list BookingRecord;
  FLIGHTS_FILE : list Flight;
  HOTELS_FILE : list Hotel;
}.

(** What the run takes from outside: [uuid.uuid4().hex] and
    [datetime.utcnow().isoformat()]. *)
Record Env := {
  uuid4_hex : string;
  utcnow_isoformat : string;
}.

(** Computations over the store that may raise. *)
Definition M (A : Type) : Type := Store → result A * Store.

Definition ret {A} (a : A) : M A := λ σ, (Ok a, σ).
Definition throw {A} (e : exn) : M A := λ σ, (Raise e, σ).
Definition lift {A} (r : result A) : M A := λ σ, (r, σ).
Definition bind {A B} (m : M A) (k : A → M B) : M B :=
  λ σ, match m σ with
       | (Ok a, σ') => k a σ'
       | (Raise e, σ') => (Raise e, σ')
       end.

Definition set_bookings (l : list BookingRecord) (σ : Store) : Store :=
  {| BOOKINGS_FILE := l; FLIGHTS_FILE := FLIGHTS_FILE σ; HOTELS_FILE := HOTELS_FILE σ |}.
Definition set_flights (l : list Flight) (σ : Store) : Store :=
  {| BOOKINGS_FILE := BOOKINGS_FILE σ; FLIGHTS_FILE := l; HOTELS_FILE := HOTELS_FILE σ |}.
Definition set_hotels (l : list Hotel) (σ : Store) : Store :=
  {| BOOKINGS_FILE := BOOKINGS_FILE σ; FLIGHTS_FILE := FLIGHTS_FILE σ; HOTELS_FILE := l |}.

(** [_read_json(path, default=[])] and [_write_json(path, payload)] on each
    of the three files. *)
Definition read_json {A} (path : Store → list A) : M (list A) := λ σ, (Ok (path σ), σ).
Definition write_json {A} (set_path : list A → Store → Store) (payload : list A)
    : M () := λ σ, (Ok (), set_path payload σ).

End Data.

Import Data.

Notation "'let!' x ':=' m 'in' k" := (bind m (λ x, k))
  (at level 10, x name, m at level 100, k at level 200,
   format "'[v' 'let!'  x  ':='  m  'in' '/' k ']'").
Notation "'let?' x ':=' r 'in' k" := (rbind r (λ x, k))
  (at level 10, x name, r at level 100, k at level 200,
   format "'[v' 'let?'  x  ':='  r  'in' '/' k ']'").

(** ** [src/tools/inventory_tools.py] *)

Module Inventory.

(** [_parse_date(value)]: [None] unless the value is an ISO date. *)
Definition _parse_date (value : option DateText) : option date :=
  match value with
  | Some t => fromisoformat t
  | None => None
  end.

Definition load_flights : M (list Flight) := read_json FLIGHTS_FILE.
Definition load_hotels : M (list Hotel) := read_json HOTELS_FILE.

(** The three conditions that all four comprehensions of
    [find_flights_for_trip] share: route and seats. *)
Definition on_route (src dst : string) (f : Flight) : bool :=
  bool_decide (lower (default "" (fl_from f)) = lower (strip src))
  && bool_decide (lower (default "" (fl_to f)) = lower (strip dst))
  && bool_decide (0 < default 0 (fl_seats_left f)).

Definition on_date (d : date) (f : Flight) : bool :=
  bool_decide (_parse_date (fl_date f) = Some d).

Definition has_date (f : Flight) : bool :=
  match _parse_date (fl_date f) with Some _ => true | None => false end.

(** The sort key of the fallback: [abs((date - wanted).days)]; the filter
    before it keeps only flights whose date parses. *)
Definition day_distance (wanted : date) (f : Flight) : Z :=
  match _parse_date (fl_date f) with
  | Some d => Z.abs (d - wanted)
  | None => 0
  end.

(** One direction of [find_flights_for_trip]: the exact matches, or when
    there is none the five nearest by date. *)
Definition options_for (flights : list Flight) (src dst : string) (wanted : date)
    : list Flight :=
  let exact := filter (λ f, on_route src dst f && on_date wanted f) flights in
  match exact with
  | [] =>
      let candidates := filter (λ f, on_route src dst f && has_date f) flights in
      take 5 (sort_by (day_distance wanted) candidates)
  | _ => exact
  end.

Record FlightOptions := {
  outbound_options : list Flight;
  return_options : list Flight;
}.

Definition find_flights_for_trip (origin first_city last_city : string)
    (start_date return_date : date) : M FlightOptions :=
  let! flights := load_flights in
  ret {| outbound_options := options_for flights origin first_city start_date;
         return_options := options_for flights last_city origin return_date |}.

Definition in_city (city : string) (h : Hotel) : bool :=
  bool_decide (lower (default "" (ht_city h)) = lower (strip city)).

(** The comprehension of [find_hotels_for_city] after its first conjunct. *)
Definition hotel_fits (country style : string) (stay_start stay_end : date)
    (h : Hotel) : bool :=
  bool_decide (lower (default "" (ht_country h)) = lower (strip country))
  && bool_decide (lower (default "" (ht_category h)) = lower (strip style))
  && bool_decide (0 < default 0 (ht_rooms_left h))
  && match _parse_date (ht_available_from h), _parse_date (ht_available_to h) with
     | Some af, Some at_ =>
         bool_decide (af ≤ stay_start ≤ at_) && bool_decide (af ≤ stay_end ≤ at_)
     | _, _ => false
     end.

(** [country] is what [chosen_itinerary.get("destination_country")] gave:
    when the key is absent, [country.strip()] raises as soon as a hotel
    passes the city test, and is never evaluated otherwise. *)
Definition find_hotels_for_city (city : string) (country : option string)
    (style : string) (stay_start stay_end : date) : M (list Hotel) :=
  let! hotels := load_hotels in
  match country with
  | Some c =>
      ret (filter (λ h, in_city city h && hotel_fits c style stay_start stay_end h)
             hotels)
  | None =>
      if existsb (in_city city) hotels then throw AttributeError else ret []
  end.

End Inventory.

(** ** [src/tools/booking_tools.py] *)

Module Booking.

Record PaymentInfo := {
  auto_book_allowed : option bool;
  card_last4 : option string;
}.

Record PaymentResult := {
  pr_status : string;
  transaction_id : string;
  charged_amount_idr : Z;
  pr_card_last4 : option string;
}.

Definition load_bookings : M (list BookingRecord) := read_json BOOKINGS_FILE.

Definition simulate_payment (env : Env) (total_price_idr : Z)
    (payment_info : PaymentInfo) : PaymentResult :=
  {| pr_status := "success";
     transaction_id := "pay_" +:+ uuid4_hex env;
     charged_amount_idr := total_price_idr;
     pr_card_last4 := card_last4 payment_info |}.

(** The body of [_decrement_inventory] on the list read from [path]; the
    record type, [get_id], [get_quantity] and [set_quantity] stand for the
    file and for [quantity_field].  A record without ["id"] has the id [""],
    one without the quantity has the quantity 0. *)
Definition decrement_records {R} (get_id : R → option string)
    (get_quantity : R → option Z) (set_quantity : Z → R → R)
    (ids : list string) (data : list R) : list R :=
  let ids_set : gset string := list_to_set ids in
  (λ record,
     if bool_decide (default "" (get_id record) ∈ ids_set)
     then set_quantity (Z.max 0 (default 0 (get_quantity record) - 1)) record
     else record) <$> data.

Definition set_seats_left (n : Z) (f : Flight) : Flight :=
  {| fl_id := fl_id f; fl_from := fl_from f; fl_to := fl_to f; fl_date := fl_date f;
     fl_base_price_idr := fl_base_price_idr f; fl_seats_left := Some n |}.

Definition set_rooms_left (n : Z) (h : Hotel) : Hotel :=
  {| ht_id := ht_id h; ht_name := ht_name h; ht_city := ht_city h;
     ht_country := ht_country h; ht_category := ht_category h;
     ht_price_per_night_idr := ht_price_per_night_idr h; ht_rooms_left := Some n;
     ht_available_from := ht_available_from h; ht_available_to := ht_available_to h;
     ht_nights := ht_nights h; ht_stay_start_date := ht_stay_start_date h;
     ht_stay_end_date := ht_stay_end_date h |}.

(** [_decrement_inventory(path, ids, quantity_field)]: nothing is read or
    written for an empty [ids]; writing back an unchanged list leaves the
    file as it was, so the [changed] flag needs no counterpart. *)
Definition _decrement_inventory {R} (path : Store → list R)
    (set_path : list R → Store → Store) (get_id : R → option string)
    (get_quantity : R → option Z) (set_quantity : Z → R → R)
    (ids : list string) : M () :=
  match ids with
  | [] => ret ()
  | _ =>
      let! data := read_json path in
      write_json set_path (decrement_records get_id get_quantity set_quantity ids data)
  end.

(** [[x.get("id") for x in xs if x.get("id")]]: the ids that are present
    and not the empty string. *)
Definition truthy_ids {R} (get_id : R → option string) (xs : list R) : list string :=
  omap (λ x, match get_id x with
             | Some i => if bool_decide (i = "") then None else Some i
             | None => None
             end) xs.

Definition stay_of (h : Hotel) : Stay :=
  {| st_hotel_id := ht_id h; st_hotel_name := ht_name h; st_city := ht_city h;
     st_country := ht_country h; st_nights := ht_nights h;
     st_stay_start_date := ht_stay_start_date h;
     st_stay_end_date := ht_stay_end_date h; st_category := ht_category h;
     st_price_per_night_idr := ht_price_per_night_idr h |}.

Definition create_booking (env : Env) (country : option string)
    (cities : list string) (start_date end_date : date)
    (flights : list Flight) (hotels : list Hotel) (total_price_idr : Z)
    (payment_info : PaymentInfo) (payment_result : PaymentResult)
    : M BookingRecord :=
  let! bookings := load_bookings in
  let booking_id := "BK-" +:+ format_04d (length bookings + 1) in
  let created_at := utcnow_isoformat env in
  let flight_ids := truthy_ids fl_id flights in
  let hotel_ids := truthy_ids ht_id hotels in
  let stays := stay_of <$> hotels in
  let record :=
    {| bk_booking_id := booking_id;
       bk_created_at := created_at;
       bk_country := country;
       bk_cities := cities;
       bk_start_date := isoformat start_date;
       bk_end_date := isoformat end_date;
       bk_flight_ids := flight_ids;
       bk_hotel_ids := hotel_ids;
       bk_stays := stays;
       bk_flight_details := flights;
       bk_total_price_idr := total_price_idr;
       bk_payment_transaction_id := Some (transaction_id payment_result);
       bk_card_last4 := card_last4 payment_info |} in
  let! _ := write_json set_bookings (bookings ++ [record]) in
  let! _ := _decrement_inventory FLIGHTS_FILE set_flights fl_id fl_seats_left
              set_seats_left flight_ids in
  let! _ := _decrement_inventory HOTELS_FILE set_hotels ht_id ht_rooms_left
              set_rooms_left hotel_ids in
  ret record.

End Booking.

(** ** [src/booker_agent.py] *)

Module Booker.

Import Inventory Booking.

(** The loop of [_split_nights_across_cities] from index [idx] on. *)
Fixpoint assign_nights (base remainder : Z) (idx : Z) (cities : list string)
    (nights : gmap string Z) : gmap string Z :=
  match cities with
  | [] => nights
  | city :: rest =>
      assign_nights base remainder (idx + 1) rest
        (<[city := base + (if bool_decide (idx < remainder) then 1 else 0)]> nights)
  end.

Definition _split_nights_across_cities (cities : list string) (total_days : Z)
    : gmap string Z :=
  match cities with
  | [] => ∅
  | _ =>
      let base := total_days `div` Z.of_nat (length cities) in
      let remainder := total_days `mod` Z.of_nat (length cities) in
      assign_nights base remainder 0 cities ∅
  end.

Record Itinerary := {
  it_cities : option (list string);
  it_destination_country : option string;
}.

Record Prefs := {
  origin_city : option string;
  travel_style : option string;
  budget_idr : option Z;
  trip_length_days : option Z;
  start_date : option DateText;
}.

Record StayPlanEntry := {
  sp_city : option string;
  sp_country : option string;
  sp_hotel_id : option string;
  sp_hotel_name : option string;
  sp_nights : option Z;
  sp_stay_start_date : option DateText;
  sp_stay_end_date : option DateText;
  sp_category : option string;
}.

Record CostBreakdown := {
  outbound_flight : Z;
  return_flight : Z;
  total_flights : Z;
  accommodation : Z;
  buffer_activities_transport : Z;
  grand_total : Z;
}.

Inductive Status := booked | simulation_only.

(** The dictionary that [book_itinerary] returns; ["booking_record"] is
    present in a [booked] result, ["proposed_flights"] and
    ["proposed_hotels"] in a [simulation_only] one. *)
Record Resolution := {
  status : Status;
  total_price_idr : Z;
  budget_warning : bool;
  booking_record : option BookingRecord;
  proposed_flights : option (list Flight);
  proposed_hotels : option (list Hotel);
  stay_plan : list StayPlanEntry;
  cost_breakdown : CostBreakdown;
}.

Definition subscript {A} (key : string) (field : option A) : result A :=
  match field with
  | Some v => Ok v
  | None => Raise (BookerErr (InvalidPreferences (KeyError key)))
  end.

(** The [try] block: the five reads in source order, every [KeyError] and
    the [ValueError] of [date.fromisoformat] turned into a [BookerError]. *)
Definition read_prefs (user_prefs : Prefs) : result (string * string * Z * Z * date) :=
  let? origin := subscript "origin_city" (origin_city user_prefs) in
  let? style := subscript "travel_style" (travel_style user_prefs) in
  let? budget := subscript "budget_idr" (budget_idr user_prefs) in
  let? days := subscript "trip_length_days" (trip_length_days user_prefs) in
  let? text := subscript "start_date" (start_date user_prefs) in
  match text with
  | IsoDate d => Ok (origin, style, budget, days, d)
  | NotIso raw => Raise (BookerErr (InvalidPreferences (ValueError_isoformat raw)))
  end.

(** [min(options, key=...)]; the built-in raises [ValueError] on an empty
    sequence. *)
Definition py_min {A} (key : A → Z) (xs : list A) : result A :=
  match min_by key xs with
  | Some x => Ok x
  | None => Raise ValueError
  end.

Definition flight_price (f : Flight) : Z := default 0 (fl_base_price_idr f).
Definition hotel_price (h : Hotel) : Z := default 0 (ht_price_per_night_idr h).

Definition fallback_style (travel_style : string) : option string :=
  if bool_decide (travel_style = "luxury") then Some "mid-range"
  else if bool_decide (travel_style = "mid-range") then Some "backpacker"
  else None.

Definition is_empty {A} (xs : list A) : bool :=
  match xs with [] => true | _ => false end.

(** Lines 79 to 95: the hotel of one stayed city. *)
Definition choose_hotel (city : string) (country : option string)
    (travel_style : string) (stay_start stay_end : date) : M Hotel :=
  let! candidates := find_hotels_for_city city country travel_style stay_start stay_end in
  let! candidates :=
    if is_empty candidates then
      match fallback_style travel_style with
      | Some style => find_hotels_for_city city country style stay_start stay_end
      | None => ret candidates
      end
    else ret candidates in
  if is_empty candidates then
    throw (BookerErr (NoHotelsAvailable city travel_style))
  else lift (py_min hotel_price candidates).

Definition hotel_copy (hotel : Hotel) (nights : Z) (stay_start stay_end : date) : Hotel :=
  {| ht_id := ht_id hotel; ht_name := ht_name hotel; ht_city := ht_city hotel;
     ht_country := ht_country hotel; ht_category := ht_category hotel;
     ht_price_per_night_idr := ht_price_per_night_idr hotel;
     ht_rooms_left := ht_rooms_left hotel;
     ht_available_from := ht_available_from hotel;
     ht_available_to := ht_available_to hotel;
     ht_nights := Some nights;
     ht_stay_start_date := Some (isoformat stay_start);
     ht_stay_end_date := Some (isoformat stay_end) |}.

(** The [for city in cities] loop, with its two loop-carried variables. *)
Fixpoint book_cities (country : option string) (travel_style : string)
    (start_date : date) (nights_per_city : gmap string Z) (cities : list string)
    (day_offset : Z) (chosen_hotels : list Hotel) : M (list Hotel) :=
  match cities with
  | [] => ret chosen_hotels
  | city :: rest =>
      let nights := default 0 (nights_per_city !! city) in
      if bool_decide (nights ≤ 0) then
        book_cities country travel_style start_date nights_per_city rest
          day_offset chosen_hotels
      else
        let! stay_start := lift (date_add start_date day_offset) in
        let! stay_end := lift (date_add stay_start (nights - 1)) in
        let! hotel := choose_hotel city country travel_style stay_start stay_end in
        book_cities country travel_style start_date nights_per_city rest
          (day_offset + nights)
          (chosen_hotels ++ [hotel_copy hotel nights stay_start stay_end])
  end.

Definition stay_plan_entry (h : Hotel) : StayPlanEntry :=
  {| sp_city := ht_city h; sp_country := ht_country h; sp_hotel_id := ht_id h;
     sp_hotel_name := ht_name h; sp_nights := ht_nights h;
     sp_stay_start_date := ht_stay_start_date h;
     sp_stay_end_date := ht_stay_end_date h; sp_category := ht_category h |}.

Definition accommodation_cost (chosen_hotels : list Hotel) : Z :=
  foldr Z.add 0 ((λ h, hotel_price h * default 0 (ht_nights h)) <$> chosen_hotels).

Definition book_itinerary (env : Env) (chosen_itinerary : Itinerary)
    (user_prefs : Prefs) (payment_info : option PaymentInfo) (today : date)
    : M Resolution :=
  let! prefs := lift (read_prefs user_prefs) in
  let '(origin_city, travel_style, budget_idr, trip_length_days, start_date) := prefs in
  let! end_date := lift (date_add start_date (trip_length_days - 1)) in
  let cities := default [] (it_cities chosen_itinerary) in
  match cities with
  | [] => throw (BookerErr EmptyItinerary)
  | first_city :: _ =>
      let last_city := default first_city (last cities) in
      let! flights_result :=
        find_flights_for_trip origin_city first_city last_city start_date end_date in
      let outbound_options := outbound_options flights_result in
      let return_options := return_options flights_result in
      if is_empty outbound_options || is_empty return_options then
        throw (BookerErr NoFlightsAvailable)
      else
        let! outbound := lift (py_min flight_price outbound_options) in
        let! returning := lift (py_min flight_price return_options) in
        let chosen_flights := [outbound; returning] in
        let nights_per_city := _split_nights_across_cities cities trip_length_days in
        let country := it_destination_country chosen_itinerary in
        let! chosen_hotels :=
          book_cities country travel_style start_date nights_per_city cities 0 [] in
        let outbound_cost := flight_price outbound in
        let return_cost := flight_price returning in
        let total_flights := outbound_cost + return_cost in
        let total_accommodation := accommodation_cost chosen_hotels in
        let base_cost := total_flights + total_accommodation in
        let! extra := lift (int_mul_float base_cost float_0_2) in
        let total_price_idr := base_cost + extra in
        let! threshold := lift (int_mul_float budget_idr float_1_2) in
        let budget_warning := bool_decide (total_price_idr > threshold) in
        let stay_plan := stay_plan_entry <$> chosen_hotels in
        let cost_breakdown :=
          {| outbound_flight := outbound_cost;
             return_flight := return_cost;
             total_flights := total_flights;
             accommodation := total_accommodation;
             buffer_activities_transport := extra;
             grand_total := total_price_idr |} in
        let simulation :=
          {| status := simulation_only;
             total_price_idr := total_price_idr;
             budget_warning := budget_warning;
             booking_record := None;
             proposed_flights := Some chosen_flights;
             proposed_hotels := Some chosen_hotels;
             stay_plan := stay_plan;
             cost_breakdown := cost_breakdown |} in
        match payment_info with
        | Some info =>
            if bool_decide (auto_book_allowed info = Some true) then
              let payment_result := simulate_payment env total_price_idr info in
              let! record :=
                create_booking env country cities start_date end_date chosen_flights
                  chosen_hotels total_price_idr info payment_result in
              ret {| status := booked;
                     total_price_idr := total_price_idr;
                     budget_warning := budget_warning;
                     booking_record := Some record;
                     proposed_flights := None;
                     proposed_hotels := None;
                     stay_plan := stay_plan;
                     cost_breakdown := cost_breakdown |}
            else ret simulation
        | None => ret simulation
        end
  end.

End Booker.

Import Inventory Booking Booker.

(** ** [src/tools/payment_tools.py] *)

Module Payment.

(** The object that [save_payment] writes to [payments.json]; a field is
    [None] when the key is absent. *)
Record PaymentRecord := {
  has_payment : option bool;
  pm_card_last4 : option string;
  card_brand : option string;
  token_id : option string;
  pm_auto_book_allowed : option bool;
}.

(** What reading [payments.json] can meet: no JSON at all (the file is
    missing or malformed, and [_read_json] returns its default), a JSON
    value that is not an object, or an object. *)
Inductive PaymentsFile :=
  | Unreadable
  | NotObject
  | Object (data : PaymentRecord).

(** [ch.isdigit()] on ASCII text. *)
Definition is_digit (c : ascii) : bool :=
  let n := N_of_ascii c in ((48 <=? n) && (n <=? 57))%N.

(** ["".join(ch for ch in s if ch.isdigit())] *)
Fixpoint digits_of (s : string) : string :=
  match s with
  | EmptyString => EmptyString
  | String c rest => if is_digit c then String c (digits_of rest) else digits_of rest
  end.

(** [s[n:]] *)
Fixpoint drop_chars (n : nat) (s : string) : string :=
  match n, s with
  | O, _ => s
  | S n', String _ rest => drop_chars n' rest
  | S _, EmptyString => EmptyString
  end.

(** [s[-n:]] for [n > 0] *)
Definition last_chars (n : nat) (s : string) : string :=
  drop_chars (String.length s - n) s.

(** [s.startswith(prefix)] *)
Definition startswith (s prefix : string) : bool := String.prefix prefix s.

(** [save_payment] returns the record and leaves it in the file; whatever
    the file held before is overwritten. *)
Definition save_payment (env : Env) (card_number expiry cvv : string)
    (auto_book_allowed : bool) (file : PaymentsFile) : PaymentRecord * PaymentsFile :=
  let digits_only := digits_of card_number in
  let card_last4 :=
    if bool_decide (digits_only ≠ "") then last_chars 4 digits_only else "0000" in
  let card_brand :=
    if startswith digits_only "4" then "Visa"
    else if existsb (startswith digits_only) ["51"; "52"; "53"; "54"; "55"]
    then "Mastercard"
    else if startswith digits_only "34" || startswith digits_only "37" then "Amex"
    else "MockCard" in
  let payment_record :=
    {| has_payment := Some true;
       pm_card_last4 := Some card_last4;
       card_brand := Some card_brand;
       token_id := Some ("tok_demo_" +:+ uuid4_hex env);
       pm_auto_book_allowed := Some auto_book_allowed |} in
  (payment_record, Object payment_record).

(** [_read_json(PAYMENTS_FILE, default={})]: [None] stands for a value that
    is not an object. *)
Definition _read_json (file : PaymentsFile) : option PaymentRecord :=
  match file with
  | Unreadable =>
      Some {| has_payment := None; pm_card_last4 := None; card_brand := None;
              token_id := None; pm_auto_book_allowed := None |}
  | NotObject => None
  | Object data => Some data
  end.

Definition get_payment_info (file : PaymentsFile) : option PaymentRecord :=
  match _read_json file with
  | Some data => if bool_decide (has_payment data = Some true) then Some data else None
  | None => None
  end.

(** The two keys of the stored object that [book_itinerary] and
    [create_booking] read when the object is passed as [payment_info]. *)
Definition as_payment_info (data : PaymentRecord) : PaymentInfo :=
  {| auto_book_allowed := pm_auto_book_allowed data;
     card_last4 := pm_card_last4 data |}.

End Payment.

(** ** [src/app.py]: the trip-length callbacks *)

Module App.

(** The three keys of [st.session_state] that the callbacks of the trip
    form read and write. *)
Record SessionState := {
  start_date_input : option date;
  trip_length_days_input : option Z;
  end_date_input : option date;
}.

Definition set_days (v : Z) (s : SessionState) : SessionState :=
  {| start_date_input := start_date_input s; trip_length_days_input := Some v;
     end_date_input := end_date_input s |}.

Definition set_end (d : date) (s : SessionState) : SessionState :=
  {| start_date_input := start_date_input s;
     trip_length_days_input := trip_length_days_input s;
     end_date_input := Some d |}.

Definition _clamp_days (val : Z) : Z := Z.max 2 (Z.min 14 val).

(** Each callback gives the state it leaves behind, also when the date
    arithmetic raises; [today] is [date.today()]. *)
Definition _on_days_change (today : date) (s : SessionState)
    : result () * SessionState :=
  let days_val := _clamp_days (default 5 (trip_length_days_input s)) in
  let s := set_days days_val s in
  let start_d := default today (start_date_input s) in
  match date_add start_d (days_val - 1) with
  | Ok end_d => (Ok (), set_end end_d s)
  | Raise e => (Raise e, s)
  end.

Definition _on_start_change (today : date) (s : SessionState)
    : result () * SessionState :=
  let days_val := _clamp_days (default 5 (trip_length_days_input s)) in
  let start_d := default today (start_date_input s) in
  match date_add start_d (days_val - 1) with
  | Ok end_d => (Ok (), set_end end_d s)
  | Raise e => (Raise e, s)
  end.

Definition _on_end_change (today : date) (s : SessionState)
    : result () * SessionState :=
  let start_d := default today (start_date_input s) in
  let end_d := default start_d (end_date_input s) in
  let new_days := _clamp_days ((end_d - start_d) + 1) in
  (Ok (), set_days new_days s).

End App.

(** ** [src/app.py]: amounts on screen *)

Module Display.

(** The digits of [f"{n:,}"], taken from the last one: a comma after every
    third digit that has a digit after it. *)
Fixpoint group_thousands (reversed : list ascii) : list ascii :=
  match reversed with
  | a :: b :: c :: ((_ :: _) as rest) =>
      a :: b :: c :: ","%char :: group_thousands rest
  | _ => reversed
  end.

(** [f"{n:,}"] for an [int] (one short enough for the interpreter to write
    in decimal: CPython refuses beyond 4300 digits by default). *)
Definition format_thousands (n : Z) : string :=
  let digits := String.list_ascii_of_string (pretty (Z.abs_N n)) in
  let grouped := String.string_of_list_ascii (rev (group_thousands (rev digits))) in
  if bool_decide (n < 0) then "-" +:+ grouped else grouped.

(** [s.replace(old, new)] for single characters. *)
Fixpoint replace_char (old new : ascii) (s : string) : string :=
  match s with
  | EmptyString => EmptyString
  | String c rest =>
      String (if bool_decide (c = old) then new else c) (replace_char old new rest)
  end.

(** [format_idr(value)] for [None] and for an [int], on which [int(value)]
    is the identity and the [except] branch is not taken. *)
Definition format_idr (value : option Z) : string :=
  match value with
  | None => "-"
  | Some v => replace_char "," "." ("IDR " +:+ format_thousands v)
  end.

End Display.

(** ** [src/tools/inventory_tools.py]: the country metadata *)

Module Metadata.

(** An entry of [countries.json], with the two keys the code reads. *)
Record CityEntry := {
  ce_country : option string;
  ce_city : option string;
}.

(** [get_cities_for_country(country)]; [metadata] is what
    [load_countries_metadata()] returns. *)
Definition get_cities_for_country (metadata : list CityEntry) (country : string)
    : list CityEntry :=
  let normalized := lower (strip country) in
  filter (λ entry, lower (strip (default "" (ce_country entry))) = normalized) metadata.

End Metadata.

(** ** Vocabulary of the statements *)

(** [sum(nights.values())] *)
Definition sum_values (m : gmap string Z) : Z := map_fold (λ _ v acc, v + acc) 0 m.

(** The nights the allocator gives to the city at position [i] of [n]. *)
Definition share (total_days : Z) (n : nat) (i : nat) : Z :=
  let base := total_days `div` Z.of_nat n in
  let remainder := total_days `mod` Z.of_nat n in
  base + (if bool_decide (Z.of_nat i < remainder) then 1 else 0).

(** The stay windows of a plan follow one another from [day] on: every
    entry has a positive number of nights, starts on the day after the
    previous one ends and lasts exactly its nights. *)
Fixpoint contiguous_from (day : date) (plan : list StayPlanEntry) : Prop :=
  match plan with
  | [] => True
  | e :: rest =>
      ∃ n, 0 < n ∧ sp_nights e = Some n
           ∧ sp_stay_start_date e = Some (isoformat day)
           ∧ sp_stay_end_date e = Some (isoformat (day + n - 1))
           ∧ contiguous_from (day + n) rest
  end.

Definition planned_nights (plan : list StayPlanEntry) : Z :=
  foldr Z.add 0 ((λ e, default 0 (sp_nights e)) <$> plan).

(** [g k + g (k+1) + ... + g (k+len-1)] *)
Fixpoint sum_from (g : nat → Z) (k len : nat) : Z :=
  match len with
  | O => 0
  | S len' => g k + sum_from g (S k) len'
  end.

(** [int(record.get("seats_left", 0))] and [int(record.get("rooms_left", 0))] *)
Definition seats (f : Flight) : Z := default 0 (fl_seats_left f).
Definition rooms (h : Hotel) : Z := default 0 (ht_rooms_left h).

(** The decimal digit [d], and the four decimal digits of [n <= 9999]. *)
Definition digit (d : N) : ascii := ascii_of_N (48 + d).
Definition four_digits (n : nat) : string :=
  let x := N.of_nat n in
  String (digit (x `div` 1000)) (String (digit ((x `div` 100) `mod` 10))
    (String (digit ((x `div` 10) `mod` 10)) (String (digit (x `mod` 10)) EmptyString))).

(** A required preference is missing, or the start date is not an ISO
    date. *)
Definition prefs_invalid (prefs : Prefs) : Prop :=
  origin_city prefs = None ∨ travel_style prefs = None ∨ budget_idr prefs = None
  ∨ trip_length_days prefs = None ∨ start_date prefs = None
  ∨ ∃ raw, start_date prefs = Some (NotIso raw).

(** No hotel of the catalog matches the stay in the requested style, nor in
    the style one tier down when there is one. *)
Definition no_hotel_match (σ : Store) (city : string) (country : option string)
    (style : string) (stay_start stay_end : date) : Prop :=
  find_hotels_for_city city country style stay_start stay_end σ = (Ok [], σ)
  ∧ ∀ fallback, fallback_style style = Some fallback →
      find_hotels_for_city city country fallback stay_start stay_end σ = (Ok [], σ).

(** The two lists that [find_flights_for_trip] filters out of the catalog
    for one direction. *)
Definition exact_matches (flights : list Flight) (src dst : string) (wanted : date)
    : list Flight :=
  filter (λ f, on_route src dst f && on_date wanted f) flights.

Definition dated_on_route (flights : list Flight) (src dst : string) : list Flight :=
  filter (λ f, on_route src dst f && has_date f) flights.

(** [chosen] is a candidate of least key, and every candidate that comes
    before it in [order] has a strictly greater key. *)
Definition cheapest_in_order {A} (key : A → Z) (order candidates : list A)
    (chosen : A) : Prop :=
  ∃ i, order !! i = Some chosen ∧ chosen ∈ candidates
    ∧ (∀ x, x ∈ candidates → key chosen ≤ key x)
    ∧ (∀ j x, (j < i)%nat → order !! j = Some x → x ∈ candidates →
         key chosen < key x).

(** The keys never decrease along the list. *)
Definition ascending {A} (key : A → Z) (l : list A) : Prop :=
  ∀ i j x y, l !! i = Some x → l !! j = Some y → (i ≤ j)%nat → key x ≤ key y.

(** How [chosen] stands among the options of one direction: the first of
    the cheapest in the order of the options; when some flight matches the
    wanted date the options are those matches and their order is the
    catalog's; otherwise the options come nearest date first, so that of
    two equally cheap options the nearer is chosen. *)
Definition flight_choice (flights : list Flight) (src dst : string) (wanted : date)
    (chosen : Flight) : Prop :=
  let options := options_for flights src dst wanted in
  let exact := exact_matches flights src dst wanted in
  cheapest_in_order flight_price options options chosen
  ∧ (exact ≠ [] →
     options = exact
     ∧ cheapest_in_order flight_price flights options chosen
     ∧ ∀ a b, exact = [a; b] ∨ exact = [b; a] →
         flight_price a = 500000 → flight_price b = 700000 → chosen = a)
  ∧ (exact = [] →
     ∀ x, x ∈ options → flight_price x = flight_price chosen →
       day_distance wanted chosen ≤ day_distance wanted x).

(** [options] are the (at most) five records of [pool] nearest to the
    wanted date: they come nearest first, nothing left out is nearer than
    anything kept, and records at the same distance stay in the order of
    [pool]. *)
Definition nearest_five (wanted : date) (pool options : list Flight) : Prop :=
  let distance := day_distance wanted in
  length options = (5 `min` length pool)%nat
  ∧ ascending distance options
  ∧ ∃ others,
      options ++ others ≡ₚ pool
      ∧ (∀ x y, x ∈ options → y ∈ others → distance x ≤ distance y)
      ∧ ∀ k, filter (λ f, distance f = k) (options ++ others)
             = filter (λ f, distance f = k) pool.

(** The hotels of the catalog that [find_hotels_for_city] returns for a
    stay in one style tier, when the itinerary names its country. *)
Definition hotel_matches (σ : Store) (city country tier : string)
    (stay_start stay_end : date) : list Hotel :=
  filter (λ h, in_city city h && hotel_fits country tier stay_start stay_end h)
    (HOTELS_FILE σ).

(** [floor(x * num / den)] in exact arithmetic: [floor(x * 0.2)] is
    [floor_times x 2 10] and [floor(x * 1.2)] is [floor_times x 12 10]. *)
Definition floor_times (x num den : Z) : Z := (x * num) `div` den.

(** The stays of a result, with their hotels' prices: proposed in a
    preview, recorded in a booking; and what they cost. *)
Definition chosen_stays (res : Resolution) : list Stay :=
  match proposed_hotels res, booking_record res with
  | Some hotels, _ => stay_of <$> hotels
  | None, Some record => bk_stays record
  | None, None => []
  end.

Definition stays_cost (stays : list Stay) : Z :=
  foldr Z.add 0
    ((λ st, default 0 (st_price_per_night_idr st) * default 0 (st_nights st)) <$> stays).

(** The flights of a result: proposed in a preview, recorded in a booking. *)
Definition chosen_flights (res : Resolution) : list Flight :=
  match proposed_flights res, booking_record res with
  | Some flights, _ => flights
  | None, Some record => bk_flight_details record
  | None, None => []
  end.

(** The stays that the loop of [book_itinerary] plans from [day_offset] on:
    for every city with a positive number of nights, in the order of the
    itinerary, the city, the offset of its first night and its nights. *)
Fixpoint schedule (nights_per_city : gmap string Z) (cities : list string)
    (day_offset : Z) : list (string * Z * Z) :=
  match cities with
  | [] => []
  | city :: rest =>
      let nights := default 0 (nights_per_city !! city) in
      if bool_decide (nights ≤ 0) then schedule nights_per_city rest day_offset
      else (city, day_offset, nights)
           :: schedule nights_per_city rest (day_offset + nights)
  end.

(** The hotel's availability window reads as two dates and covers the stay. *)
Definition available_for (h : Hotel) (stay_start stay_end : date) : Prop :=
  ∃ available_from available_to,
    ht_available_from h = Some (IsoDate available_from)
    ∧ ht_available_to h = Some (IsoDate available_to)
    ∧ available_from ≤ stay_start ∧ stay_end ≤ available_to.

(** [x.get("id")] is truthy: present and not the empty string. *)
Definition has_id (id : option string) : bool :=
  match id with
  | Some i => bool_decide (i ≠ "")
  | None => false
  end.

(** The value of a string of decimal digits, read from the left on top of
    [acc]. *)
Fixpoint read_digits (acc : N) (s : string) : N :=
  match s with
  | EmptyString => acc
  | String c rest => read_digits (10 * acc + (N_of_ascii c - 48)) rest
  end.

(** The ledger as [create_booking] builds it from an empty file: the record
    at position [i] carries the number [i + 1]. *)
Definition ledger_numbered (σ : Store) : Prop :=
  ∀ i r, BOOKINGS_FILE σ !! i = Some r →
         bk_booking_id r = "BK-" +:+ format_04d (i + 1).

(** The last three decimal digits of [x]. *)
Definition three_digits (x : N) : string :=
  String (digit ((x `div` 100) `mod` 10))
    (String (digit ((x `div` 10) `mod` 10)) (String (digit (x `mod` 10)) EmptyString)).

(** ** A small world for the examples

    Two priced flights from Jakarta to Tokyo on the start date, one flight
    back from Osaka on the end date, no luxury hotel, and a traveller who
    asks for luxury. *)

Module Sample.

Definition flight (id src dst : string) (day : date) (price seats : Z) : Flight :=
  {| fl_id := Some id; fl_from := Some src; fl_to := Some dst;
     fl_date := Some (IsoDate day); fl_base_price_idr := Some price;
     fl_seats_left := Some seats |}.

Definition hotel (id city country category : string) (price rooms : Z)
    (available_from available_to : date) : Hotel :=
  {| ht_id := Some id; ht_name := Some id; ht_city := Some city;
     ht_country := Some country; ht_category := Some category;
     ht_price_per_night_idr := Some price; ht_rooms_left := Some rooms;
     ht_available_from := Some (IsoDate available_from);
     ht_available_to := Some (IsoDate available_to);
     ht_nights := None; ht_stay_start_date := None; ht_stay_end_date := None |}.

(** 2026-01-10 as an ordinal. *)
Definition day0 : date := 739626.

Definition store : Store :=
  {| BOOKINGS_FILE := [];
     FLIGHTS_FILE :=
       [ flight "FL-1" "Jakarta" "Tokyo" day0 700000 3;
         flight "FL-2" "Jakarta" "Tokyo" day0 500000 2;
         flight "FL-3" "Osaka" "Jakarta" (day0 + 4) 600000 1 ];
     HOTELS_FILE :=
       [ hotel "HT-1" "Tokyo" "Japan" "mid-range" 300000 2 (day0 - 30) (day0 + 30);
         hotel "HT-2" "Osaka" "Japan" "mid-range" 200000 1 (day0 - 30) (day0 + 30);
         hotel "HT-3" "Osaka" "Japan" "backpacker" 90000 5 (day0 - 30) (day0 + 30) ] |}.

Definition prefs : Prefs :=
  {| origin_city := Some "Jakarta"; travel_style := Some "luxury";
     budget_idr := Some 5000000; trip_length_days := Some 5;
     start_date := Some (IsoDate day0) |}.

Definition itinerary : Itinerary :=
  {| it_cities := Some ["Tokyo"; "Osaka"]; it_destination_country := Some "Japan" |}.

Definition env : Env := {| uuid4_hex := "0f"; utcnow_isoformat := "2026-01-02T03:04:05" |}.

Definition payment : PaymentInfo :=
  {| auto_book_allowed := Some true; card_last4 := Some "1111" |}.

End Sample.

(** ** Catalogs on which the nearest-date fallback decides

    The traveller of [Sample] again; no flight from Jakarta to Tokyo leaves
    on the start date, two leave one and three days later. *)

Module Fallback.

Import Sample.

Definition hotels : list Hotel := HOTELS_FILE Sample.store.
Definition back : Flight := flight "FL-9" "Osaka" "Jakarta" (day0 + 4) 600000 1.

(** Same price, the later flight first in the catalog. *)
Definition far_tie : Flight := flight "FL-A" "Jakarta" "Tokyo" (day0 + 3) 500000 4.
Definition near_tie : Flight := flight "FL-B" "Jakarta" "Tokyo" (day0 + 1) 500000 4.
Definition tie_store : Store :=
  {| BOOKINGS_FILE := []; FLIGHTS_FILE := [far_tie; near_tie; back];
     HOTELS_FILE := hotels |}.

(** The later flight is the cheaper one. *)
Definition near_dear : Flight := flight "FL-N" "Jakarta" "Tokyo" (day0 + 1) 700000 4.
Definition far_cheap : Flight := flight "FL-F" "Jakarta" "Tokyo" (day0 + 3) 500000 4.
Definition price_store : Store :=
  {| BOOKINGS_FILE := []; FLIGHTS_FILE := [near_dear; far_cheap; back];
     HOTELS_FILE := hotels |}.

(** The later flight has no price, the earlier one costs nothing. *)
Definition far_unpriced : Flight :=
  {| fl_id := Some "FL-U"; fl_from := Some "Jakarta"; fl_to := Some "Tokyo";
     fl_date := Some (IsoDate (day0 + 3)); fl_base_price_idr := None;
     fl_seats_left := Some 4 |}.
Definition near_free : Flight := flight "FL-Z" "Jakarta" "Tokyo" (day0 + 1) 0 4.
Definition unpriced_store : Store :=
  {| BOOKINGS_FILE := []; FLIGHTS_FILE := [far_unpriced; near_free; back];
     HOTELS_FILE := hotels |}.

End Fallback.

(** ** A catalog on which the nearest-date fallback decides the return

    The traveller of [Sample] again; the flight out leaves on the start
    date, no flight from Osaka to Jakarta leaves on the end date, one leaves
    a day later and one three days earlier. *)

Module FallbackReturn.

Import Sample.

Definition out : Flight := flight "FL-O" "Jakarta" "Tokyo" day0 700000 3.
Definition near_dear : Flight := flight "FL-RN" "Osaka" "Jakarta" (day0 + 5) 700000 4.
Definition far_cheap : Flight := flight "FL-RF" "Osaka" "Jakarta" (day0 + 1) 500000 4.
Definition store : Store :=
  {| BOOKINGS_FILE := []; FLIGHTS_FILE := [out; near_dear; far_cheap];
     HOTELS_FILE := HOTELS_FILE Sample.store |}.

End FallbackReturn.

(** ** A catalog with a very large fare

    The sample catalog with the outbound fare raised so that flights and
    hotels of the sample trip add up to 45035996273704965. *)

Module Large.

Import Sample.

Definition store : Store :=
  {| BOOKINGS_FILE := [];
     FLIGHTS_FILE :=
       [ flight "FL-1" "Jakarta" "Tokyo" day0 45035996271804965 3;
         flight "FL-3" "Osaka" "Jakarta" (day0 + 4) 600000 1 ];
     HOTELS_FILE := HOTELS_FILE Sample.store |}.

End Large.

(** ** A catalog and a budget beyond [2 ^ 53]

    The sample catalog with the outbound fare raised so that the grand
    total comes to 10808639105689191, and a traveller whose budget is
    9007199254740993. *)

Module LargeBudget.

Import Sample.

Definition store : Store :=
  {| BOOKINGS_FILE := [];
     FLIGHTS_FILE :=
       [ flight "FL-1" "Jakarta" "Tokyo" day0 9007199252840993 3;
         flight "FL-3" "Osaka" "Jakarta" (day0 + 4) 600000 1 ];
     HOTELS_FILE := HOTELS_FILE Sample.store |}.

Definition prefs : Prefs :=
  {| origin_city := Some "Jakarta"; travel_style := Some "luxury";
     budget_idr := Some 9007199254740993; trip_length_days := Some 5;
     start_date := Some (IsoDate day0) |}.

End LargeBudget.

(** ** An itinerary that comes back to its first city

    The traveller of [Sample] flies to Tokyo, goes on to Osaka and returns
    to Tokyo for the flight home. *)

Module Revisit.

Import Sample.

Definition store : Store :=
  {| BOOKINGS_FILE := [];
     FLIGHTS_FILE :=
       [ flight "FL-1" "Jakarta" "Tokyo" day0 700000 3;
         flight "FL-4" "Tokyo" "Jakarta" (day0 + 4) 650000 2 ];
     HOTELS_FILE := HOTELS_FILE Sample.store |}.

Definition itinerary : Itinerary :=
  {| it_cities := Some ["Tokyo"; "Osaka"; "Tokyo"];
     it_destination_country := Some "Japan" |}.

End Revisit.

(** ** An itinerary without its country *)

Module Nameless.

Definition itinerary : Itinerary :=
  {| it_cities := Some ["Tokyo"; "Osaka"]; it_destination_country := None |}.

(** The traveller of [Sample], for a trip of no days. *)
Definition prefs : Prefs :=
  {| origin_city := Some "Jakarta"; travel_style := Some "luxury";
     budget_idr := Some 5000000; trip_length_days := Some 0;
     start_date := Some (IsoDate Sample.day0) |}.

End Nameless.

(** * The night allocator *)

Section Allocator.

Variables base remainder : Z.

Lemma assign_nights_other (cities : list string) idx (m : gmap string Z) city :
  city ∉ cities →
  assign_nights base remainder idx cities m !! city = m !! city.
Proof.
  revert idx m. induction cities as [|c rest IH]; intros idx m Hnot; [done|].
  apply not_elem_of_cons in Hnot as [Hne Hrest]. simpl.
  rewrite IH by done. by rewrite lookup_insert_ne.
Qed.

Lemma assign_nights_lookup (cities : list string) idx (m : gmap string Z) i city :
  NoDup cities → cities !! i = Some city →
  assign_nights base remainder idx cities m !! city
  = Some (base + (if bool_decide (idx + Z.of_nat i < remainder) then 1 else 0)).
Proof.
  revert idx m i. induction cities as [|c rest IH]; intros idx m i Hnd Hi; [done|].
  apply NoDup_cons in Hnd as [Hfresh Hnd]. destruct i as [|i]; simpl in *.
  - injection Hi as ->. rewrite assign_nights_other by done.
    rewrite lookup_insert_eq. by rewrite Z.add_0_r.
  - rewrite (IH _ _ i) by done.
    by replace (idx + 1 + Z.of_nat i) with (idx + Z.of_nat (S i)) by lia.
Qed.

Lemma assign_nights_dom (cities : list string) idx (m : gmap string Z) :
  dom (assign_nights base remainder idx cities m) = list_to_set cities ∪ dom m.
Proof.
  revert idx m. induction cities as [|c rest IH]; intros idx m; simpl.
  - set_solver.
  - rewrite IH, dom_insert_L. set_solver.
Qed.

Lemma sum_values_insert (m : gmap string Z) k v :
  m !! k = None → sum_values (<[k := v]> m) = v + sum_values m.
Proof.
  intros Hk. unfold sum_values. rewrite map_fold_insert_L; [done| |done].
  intros; lia.
Qed.

Lemma assign_nights_sum (cities : list string) idx (m : gmap string Z) :
  NoDup cities → (∀ c, c ∈ cities → m !! c = None) →
  sum_values (assign_nights base remainder idx cities m)
  = sum_values m + Z.of_nat (length cities) * base
    + Z.max 0 (Z.min (remainder - idx) (Z.of_nat (length cities))).
Proof.
  revert idx m. induction cities as [|c rest IH]; intros idx m Hnd Hfresh; simpl.
  - lia.
  - apply NoDup_cons in Hnd as [Hc Hnd]. rewrite IH; [|done|].
    + rewrite sum_values_insert by (apply Hfresh; left).
      case_bool_decide; lia.
    + intros c' Hc'. assert (c ≠ c') by (intros Heq; subst c'; exact (Hc Hc')).
      rewrite lookup_insert_ne by done.
      apply Hfresh. by right.
Qed.

End Allocator.

(** C1. For a non-empty list of distinct cities and [total_days >= 1], the
    allocator's table has exactly the input cities as keys, the city at
    position [i] gets [total_days div N + 1] nights when
    [i < total_days mod N] and [total_days div N] nights otherwise, and the
    values add up to [total_days]. *)
Theorem split_nights_even_shares (cities : list string) (total_days : Z) :
  NoDup cities → cities ≠ [] → 1 ≤ total_days →
  let nights := _split_nights_across_cities cities total_days in
  dom nights = list_to_set cities
  ∧ (∀ i city, cities !! i = Some city →
       nights !! city = Some (share total_days (length cities) i))
  ∧ sum_values nights = total_days.
Proof.
  intros Hnd Hne Hdays nights. subst nights.
  unfold _split_nights_across_cities. destruct cities as [|c0 rest]; [done|].
  set (cities := c0 :: rest) in *.
  assert (Hn : 0 < Z.of_nat (length cities)) by (simpl; lia).
  split; [|split].
  - rewrite assign_nights_dom. set_solver.
  - intros i city Hi. rewrite (assign_nights_lookup _ _ _ _ _ i) by done.
    unfold share. by rewrite Z.add_0_l.
  - rewrite assign_nights_sum; [|done|by intros].
    pose proof (Z.mod_pos_bound total_days _ Hn).
    pose proof (Z.div_mod total_days (Z.of_nat (length cities))).
    unfold sum_values at 1. rewrite map_fold_empty. lia.
Qed.

(** The allocator on three cities and five days. *)
Lemma split_nights_even_shares_witness :
  let nights := _split_nights_across_cities ["Tokyo"; "Kyoto"; "Osaka"] 5 in
  dom nights = list_to_set ["Tokyo"; "Kyoto"; "Osaka"]
  ∧ (∀ i city, ["Tokyo"; "Kyoto"; "Osaka"] !! i = Some city →
       nights !! city = Some (share 5 3 i))
  ∧ sum_values nights = 5.
Proof.
  apply (split_nights_even_shares ["Tokyo"; "Kyoto"; "Osaka"] 5).
  - compute_done.
  - done.
  - lia.
Defined.

(** * Running the monad *)

Lemma find_flights_for_trip_run origin first_city last_city start_date return_date σ :
  find_flights_for_trip origin first_city last_city start_date return_date σ
  = (Ok {| outbound_options := options_for (FLIGHTS_FILE σ) origin first_city start_date;
           return_options := options_for (FLIGHTS_FILE σ) last_city origin return_date |},
     σ).
Proof. reflexivity. Qed.

Lemma find_hotels_for_city_some city c style stay_start stay_end σ :
  find_hotels_for_city city (Some c) style stay_start stay_end σ
  = (Ok (filter (λ h, in_city city h && hotel_fits c style stay_start stay_end h)
           (HOTELS_FILE σ)), σ).
Proof. reflexivity. Qed.

Lemma find_hotels_for_city_state city country style stay_start stay_end σ r σ' :
  find_hotels_for_city city country style stay_start stay_end σ = (r, σ') → σ' = σ.
Proof.
  unfold find_hotels_for_city, bind, load_hotels, read_json, ret, throw.
  destruct country; [|destruct (existsb _ _)]; by intros [= _ <-].
Qed.

Lemma choose_hotel_state city country style stay_start stay_end σ r σ' :
  choose_hotel city country style stay_start stay_end σ = (r, σ') → σ' = σ.
Proof.
  unfold choose_hotel, bind.
  destruct (find_hotels_for_city _ _ _ _ _ σ) as [[cands|e] σ1] eqn:H1;
    apply find_hotels_for_city_state in H1 as ->; [|by intros [= _ <-]].
  destruct (is_empty cands); [destruct (fallback_style style) as [fb|]|]; simpl.
  - destruct (find_hotels_for_city _ _ fb _ _ σ) as [[cands2|e] σ2] eqn:H2;
      apply find_hotels_for_city_state in H2 as ->; [|by intros [= _ <-]].
    unfold throw, lift. destruct (is_empty cands2); by intros [= _ <-].
  - unfold ret, throw, lift. destruct (is_empty cands); by intros [= _ <-].
  - unfold ret, throw, lift. destruct (is_empty cands); by intros [= _ <-].
Qed.

Lemma book_cities_state country style start npc cities off acc σ r σ' :
  book_cities country style start npc cities off acc σ = (r, σ') → σ' = σ.
Proof.
  revert off acc. induction cities as [|city rest IH]; intros off acc; simpl.
  - by intros [= _ <-].
  - case_bool_decide; [apply IH|]. unfold bind, lift.
    destruct (date_add start off) as [s|e]; [|by intros [= _ <-]].
    destruct (date_add s _) as [e'|e]; [|by intros [= _ <-]].
    destruct (choose_hotel _ _ _ _ _ σ) as [[h|e] σ1] eqn:Hh;
      apply choose_hotel_state in Hh as ->; [apply IH|by intros [= _ <-]].
Qed.

Lemma date_add_ok d n d' : date_add d n = Ok d' → d' = d + n.
Proof.
  unfold date_add, timedelta. case_bool_decide; simpl; [|done].
  case_bool_decide; [|done]. by intros [= <-].
Qed.

Lemma py_min_ok {A} (key : A → Z) xs x : py_min key xs = Ok x → min_by key xs = Some x.
Proof. unfold py_min. destruct (min_by key xs); [by intros [= ->]|done]. Qed.

(** Everything a successful run of [book_itinerary] went through. *)
Lemma book_itinerary_ok env it prefs pay today σ res σ' :
  book_itinerary env it prefs pay today σ = (Ok res, σ') →
  ∃ origin style budget days start end_ first rest outbound returning hotels
    extra threshold,
    let cities := first :: rest in
    let country := it_destination_country it in
    let out_opts := options_for (FLIGHTS_FILE σ) origin first start in
    let ret_opts :=
      options_for (FLIGHTS_FILE σ) (default first (last cities)) origin end_ in
    let base_cost :=
      flight_price outbound + flight_price returning + accommodation_cost hotels in
    read_prefs prefs = Ok (origin, style, budget, days, start)
    ∧ date_add start (days - 1) = Ok end_
    ∧ default [] (it_cities it) = cities
    ∧ min_by flight_price out_opts = Some outbound
    ∧ min_by flight_price ret_opts = Some returning
    ∧ book_cities country style start (_split_nights_across_cities cities days)
        cities 0 [] σ = (Ok hotels, σ)
    ∧ int_mul_float base_cost float_0_2 = Ok extra
    ∧ int_mul_float budget float_1_2 = Ok threshold
    ∧ total_price_idr res = base_cost + extra
    ∧ budget_warning res = bool_decide (base_cost + extra > threshold)
    ∧ stay_plan res = stay_plan_entry <$> hotels
    ∧ cost_breakdown res
      = {| outbound_flight := flight_price outbound;
           return_flight := flight_price returning;
           total_flights := flight_price outbound + flight_price returning;
           accommodation := accommodation_cost hotels;
           buffer_activities_transport := extra;
           grand_total := base_cost + extra |}
    ∧ ((status res = simulation_only ∧ booking_record res = None
        ∧ proposed_flights res = Some [outbound; returning]
        ∧ proposed_hotels res = Some hotels ∧ σ' = σ
        ∧ ∀ info, pay = Some info → auto_book_allowed info ≠ Some true)
       ∨ (∃ info record, pay = Some info ∧ auto_book_allowed info = Some true
          ∧ status res = booked ∧ booking_record res = Some record
          ∧ proposed_flights res = None ∧ proposed_hotels res = None
          ∧ create_booking env country cities start end_ [outbound; returning]
              hotels (base_cost + extra) info
              (simulate_payment env (base_cost + extra) info) σ
            = (Ok record, σ'))).
Proof.
  unfold book_itinerary, bind at 1, lift at 1.
  destruct (read_prefs prefs) as [[[[[origin style] budget] days] start]|e] eqn:Hp;
    [|done].
  unfold bind at 1, lift at 1.
  destruct (date_add start (days - 1)) as [end_|e] eqn:Hend; [|done].
  destruct (default [] (it_cities it)) as [|first rest] eqn:Hc; [done|].
  unfold bind at 1. rewrite find_flights_for_trip_run.
  cbn [outbound_options return_options].
  destruct (is_empty (options_for _ origin first start) || is_empty _); [done|].
  unfold bind at 1, lift at 1.
  destruct (py_min flight_price (options_for _ origin first start))
    as [outbound|e] eqn:Ho; [|done].
  unfold bind at 1, lift at 1.
  destruct (py_min flight_price (options_for _ _ origin end_))
    as [returning|e] eqn:Hr; [|done].
  unfold bind at 1.
  destruct (book_cities _ _ _ _ _ _ _ σ) as [[hotels|e] σ1] eqn:Hh; [|done].
  pose proof (book_cities_state _ _ _ _ _ _ _ _ _ _ Hh) as ->.
  unfold bind at 1, lift at 1.
  destruct (int_mul_float _ float_0_2) as [extra|e] eqn:He; [|done].
  unfold bind at 1, lift at 1.
  destruct (int_mul_float budget float_1_2) as [threshold|e] eqn:Ht; [|done].
  intros Hrun.
  exists origin, style, budget, days, start, end_, first, rest, outbound, returning,
    hotels, extra, threshold.
  apply py_min_ok in Ho, Hr.
  do 8 (split; [done|]).
  destruct pay as [info|]; [case_bool_decide as Hauto|].
  - unfold bind, ret in Hrun.
    destruct (create_booking _ _ _ _ _ _ _ _ _ _ σ) as [[record|e] σ2] eqn:Hb;
      [|done].
    injection Hrun as <- <-. do 4 (split; [done|]).
    right. by exists info, record.
  - injection Hrun as <- <-. do 4 (split; [done|]).
    left. do 5 (split; [done|]). by intros ? [= <-].
  - injection Hrun as <- <-. do 4 (split; [done|]).
    left. by do 5 (split; [done|]).
Qed.

(** * Running [create_booking] *)

Lemma decrement_records_nil {R} (get_id : R → option string) get_quantity
    set_quantity (data : list R) :
  decrement_records get_id get_quantity set_quantity [] data = data.
Proof.
  unfold decrement_records. induction data as [|r data IH]; [done|].
  rewrite fmap_cons, IH. rewrite bool_decide_eq_false_2; [done|]. set_solver.
Qed.

Lemma decrement_flights_run ids σ :
  _decrement_inventory FLIGHTS_FILE set_flights fl_id fl_seats_left set_seats_left
    ids σ
  = (Ok (), set_flights
              (decrement_records fl_id fl_seats_left set_seats_left ids
                 (FLIGHTS_FILE σ)) σ).
Proof.
  destruct ids; [|done]. rewrite decrement_records_nil. by destruct σ.
Qed.

Lemma decrement_hotels_run ids σ :
  _decrement_inventory HOTELS_FILE set_hotels ht_id ht_rooms_left set_rooms_left
    ids σ
  = (Ok (), set_hotels
              (decrement_records ht_id ht_rooms_left set_rooms_left ids
                 (HOTELS_FILE σ)) σ).
Proof.
  destruct ids; [|done]. rewrite decrement_records_nil. by destruct σ.
Qed.

(** [create_booking] never raises; its record and the store it leaves. *)
Lemma create_booking_run env country cities start end_ flights hotels total info
    payment σ :
  let record :=
    {| bk_booking_id := "BK-" +:+ format_04d (length (BOOKINGS_FILE σ) + 1);
       bk_created_at := utcnow_isoformat env;
       bk_country := country;
       bk_cities := cities;
       bk_start_date := isoformat start;
       bk_end_date := isoformat end_;
       bk_flight_ids := truthy_ids fl_id flights;
       bk_hotel_ids := truthy_ids ht_id hotels;
       bk_stays := stay_of <$> hotels;
       bk_flight_details := flights;
       bk_total_price_idr := total;
       bk_payment_transaction_id := Some (transaction_id payment);
       bk_card_last4 := card_last4 info |} in
  create_booking env country cities start end_ flights hotels total info payment σ
  = (Ok record,
     {| BOOKINGS_FILE := BOOKINGS_FILE σ ++ [record];
        FLIGHTS_FILE :=
          decrement_records fl_id fl_seats_left set_seats_left
            (truthy_ids fl_id flights) (FLIGHTS_FILE σ);
        HOTELS_FILE :=
          decrement_records ht_id ht_rooms_left set_rooms_left
            (truthy_ids ht_id hotels) (HOTELS_FILE σ) |}).
Proof.
  intros record. unfold create_booking.
  unfold bind at 1, load_bookings, read_json at 1.
  unfold bind at 1, write_json at 1.
  unfold bind at 1. rewrite decrement_flights_run.
  unfold bind at 1. rewrite decrement_hotels_run. reflexivity.
Qed.

(** * The stay windows *)

Ltac same_day := apply (f_equal (λ x, Some (isoformat x))); simpl; lia.

Lemma planned_nights_cons e plan :
  planned_nights (e :: plan) = default 0 (sp_nights e) + planned_nights plan.
Proof. reflexivity. Qed.

Lemma contiguous_from_last day plan e :
  contiguous_from day plan → last plan = Some e →
  sp_stay_end_date e = Some (isoformat (day + planned_nights plan - 1)).
Proof.
  revert day. induction plan as [|e0 plan IH]; intros day Hc Hl; [done|].
  destruct Hc as (n & Hn & Hnights & _ & Hend & Hrest).
  rewrite planned_nights_cons, Hnights. destruct plan as [|e1 plan].
  - injection Hl as <-. rewrite Hend. unfold planned_nights. same_day.
  - rewrite (IH (day + n) Hrest Hl). same_day.
Qed.

(** The loop, for a night table that gives the city at position [j] of the
    remaining cities [f (k + j)] nights. *)
Lemma book_cities_plan country style start npc (f : nat → Z) cities k off acc σ
    hotels σ' :
  (∀ j c, cities !! j = Some c → npc !! c = Some (f (k + j)%nat)) →
  book_cities country style start npc cities off acc σ = (Ok hotels, σ') →
  ∃ new, hotels = acc ++ new
    ∧ contiguous_from (start + off) (stay_plan_entry <$> new)
    ∧ planned_nights (stay_plan_entry <$> new)
      = sum_from (λ j, Z.max 0 (f j)) k (length cities)
    ∧ length new = length (filter (λ j, 0 < f j) (seq k (length cities))).
Proof.
  revert k off acc. induction cities as [|city rest IH]; intros k off acc Hf; simpl.
  - intros [= <- _]. exists []. by rewrite app_nil_r.
  - pose proof (Hf 0%nat city eq_refl) as Hcity. rewrite Nat.add_0_r in Hcity.
    rewrite Hcity. simpl.
    assert (Hf' : ∀ j c, rest !! j = Some c → npc !! c = Some (f (S k + j)%nat)).
    { intros j c Hj. rewrite (Hf (S j) c Hj). f_equal. f_equal. lia. }
    rewrite filter_cons. case_bool_decide as Hn.
    + intros Hrun. destruct (IH (S k) off acc Hf' Hrun) as (new & -> & Hc & Hs & Hl).
      exists new. rewrite decide_False by lia. rewrite Hs.
      repeat split; [done| lia | done].
    + unfold bind at 1, lift at 1.
      destruct (date_add start off) as [s|e] eqn:Hs; [|done].
      unfold bind at 1, lift at 1.
      destruct (date_add s _) as [e'|e] eqn:He; [|done].
      unfold bind at 1.
      destruct (choose_hotel _ _ _ _ _ σ) as [[h|e] σ1] eqn:Hh; [|done].
      apply choose_hotel_state in Hh as ->.
      apply date_add_ok in Hs as ->. apply date_add_ok in He as ->.
      intros Hrun.
      destruct (IH (S k) _ _ Hf' Hrun) as (new & -> & Hc & Hsum & Hl).
      exists (hotel_copy h (f k) (start + off) (start + off + (f k - 1)) :: new).
      rewrite decide_True by lia. split; [by rewrite <- app_assoc|].
      split; [|split].
      * simpl. exists (f k). repeat split; [lia|same_day|].
        by replace (start + off + f k) with (start + (off + f k)) by lia.
      * rewrite fmap_cons, planned_nights_cons, Hsum. simpl. lia.
      * simpl. by rewrite Hl.
Qed.

Lemma share_sum_from (base remainder : Z) (k len : nat) :
  sum_from (λ j, base + (if bool_decide (Z.of_nat j < remainder) then 1 else 0))
    k len
  = Z.of_nat len * base + Z.max 0 (Z.min (remainder - Z.of_nat k) (Z.of_nat len)).
Proof.
  revert k. induction len as [|len IH]; intros k; simpl; [lia|].
  rewrite IH. case_bool_decide; lia.
Qed.


Lemma sum_from_ext (g h : nat → Z) k len :
  (∀ j, (k ≤ j < k + len)%nat → g j = h j) → sum_from g k len = sum_from h k len.
Proof.
  revert k. induction len as [|len IH]; intros k Hgh; simpl; [done|].
  rewrite (Hgh k) by lia. rewrite IH; [done|]. intros j Hj. apply Hgh. lia.
Qed.

Lemma share_nonneg total_days n i : 0 ≤ total_days → (0 < n)%nat → 0 ≤ share total_days n i.
Proof.
  intros Hd Hn. unfold share.
  assert (0 ≤ total_days `div` Z.of_nat n) by (apply Z.div_pos; lia).
  case_bool_decide; lia.
Qed.

Lemma share_total total_days n :
  0 ≤ total_days → (0 < n)%nat →
  sum_from (λ j, Z.max 0 (share total_days n j)) 0 n = total_days.
Proof.
  intros Hd Hn.
  rewrite (sum_from_ext _ (share total_days n)).
  - unfold share. rewrite share_sum_from.
    pose proof (Z.mod_pos_bound total_days (Z.of_nat n)).
    pose proof (Z.div_mod total_days (Z.of_nat n)). lia.
  - intros j _. pose proof (share_nonneg total_days n j Hd Hn). lia.
Qed.

Lemma split_nights_lookup (cities : list string) total_days i city :
  NoDup cities → cities !! i = Some city →
  _split_nights_across_cities cities total_days !! city
  = Some (share total_days (length cities) i).
Proof.
  intros Hnd Hi. unfold _split_nights_across_cities.
  destruct cities as [|c0 rest]; [done|].
  rewrite (assign_nights_lookup _ _ _ _ _ i) by done. by rewrite Z.add_0_l.
Qed.

Lemma read_prefs_ok prefs origin style budget days start :
  read_prefs prefs = Ok (origin, style, budget, days, start) →
  origin_city prefs = Some origin ∧ travel_style prefs = Some style
  ∧ budget_idr prefs = Some budget ∧ trip_length_days prefs = Some days
  ∧ start_date prefs = Some (IsoDate start).
Proof.
  unfold read_prefs.
  destruct (origin_city prefs), (travel_style prefs), (budget_idr prefs),
    (trip_length_days prefs), (start_date prefs) as [[]|]; simpl; try done.
  by intros [= -> -> -> -> ->].
Qed.



(** * The ledger: inventory decrement *)

Lemma decrement_records_lookup {R} (get_id : R → option string) get_quantity
    set_quantity ids (data : list R) i :
  decrement_records get_id get_quantity set_quantity ids data !! i
  = (λ r, if bool_decide (default "" (get_id r) ∈ ids)
          then set_quantity (Z.max 0 (default 0 (get_quantity r) - 1)) r
          else r) <$> data !! i.
Proof.
  unfold decrement_records. rewrite list_lookup_fmap.
  destruct (data !! i) as [r|]; [simpl|done]. f_equal.
  apply (f_equal (λ b : bool, if b then _ else _)).
  apply bool_decide_ext. by rewrite elem_of_list_to_set.
Qed.

Lemma decrement_records_length {R} (get_id : R → option string) get_quantity
    set_quantity ids (data : list R) :
  length (decrement_records get_id get_quantity set_quantity ids data) = length data.
Proof. unfold decrement_records. by rewrite length_fmap. Qed.

(** C7. A commit never fails.  It keeps both inventories in place and in
    order; a flight (hotel) record whose id is one of the booked ids gets
    [max 0 (seats_left - 1)] ([max 0 (rooms_left - 1)]), which is one less
    whenever something was left and is never negative; every other record,
    and every other field, is untouched, so a booked id that is in no record
    changes nothing.  A second commit of the same selection takes one more
    from each, with the same floor.  Read back from the files, the count of
    a booked record is [max 0 (count - 1)] after the first commit and
    [max 0 (count - 2)] after the second, and its other fields read as
    before. *)
Theorem commit_decrements_inventory env country cities start end_ flights hotels
    total info payment σ :
  ∃ record σ1 record2 σ2,
    create_booking env country cities start end_ flights hotels total info payment σ
    = (Ok record, σ1)
    ∧ create_booking env country cities start end_ flights hotels total info payment σ1
      = (Ok record2, σ2)
    ∧ bk_flight_ids record = truthy_ids fl_id flights
    ∧ bk_hotel_ids record = truthy_ids ht_id hotels
    ∧ length (FLIGHTS_FILE σ1) = length (FLIGHTS_FILE σ)
    ∧ length (HOTELS_FILE σ1) = length (HOTELS_FILE σ)
    ∧ (∀ i f, FLIGHTS_FILE σ !! i = Some f →
         if bool_decide (default "" (fl_id f) ∈ bk_flight_ids record) then
           FLIGHTS_FILE σ1 !! i = Some (set_seats_left (Z.max 0 (seats f - 1)) f)
           ∧ FLIGHTS_FILE σ2 !! i
             = Some (set_seats_left (Z.max 0 (Z.max 0 (seats f - 1) - 1)) f)
           ∧ (1 ≤ seats f → Z.max 0 (seats f - 1) = seats f - 1)
           ∧ 0 ≤ Z.max 0 (seats f - 1)
         else FLIGHTS_FILE σ1 !! i = Some f ∧ FLIGHTS_FILE σ2 !! i = Some f)
    ∧ (∀ i h, HOTELS_FILE σ !! i = Some h →
         if bool_decide (default "" (ht_id h) ∈ bk_hotel_ids record) then
           HOTELS_FILE σ1 !! i = Some (set_rooms_left (Z.max 0 (rooms h - 1)) h)
           ∧ HOTELS_FILE σ2 !! i
             = Some (set_rooms_left (Z.max 0 (Z.max 0 (rooms h - 1) - 1)) h)
           ∧ (1 ≤ rooms h → Z.max 0 (rooms h - 1) = rooms h - 1)
           ∧ 0 ≤ Z.max 0 (rooms h - 1)
         else HOTELS_FILE σ1 !! i = Some h ∧ HOTELS_FILE σ2 !! i = Some h)
    ∧ ((∀ f, f ∈ FLIGHTS_FILE σ → default "" (fl_id f) ∉ bk_flight_ids record) →
       FLIGHTS_FILE σ1 = FLIGHTS_FILE σ)
    ∧ ((∀ h, h ∈ HOTELS_FILE σ → default "" (ht_id h) ∉ bk_hotel_ids record) →
       HOTELS_FILE σ1 = HOTELS_FILE σ)
    ∧ (∀ i f, FLIGHTS_FILE σ !! i = Some f →
         ∃ f1 f2,
           FLIGHTS_FILE σ1 !! i = Some f1 ∧ FLIGHTS_FILE σ2 !! i = Some f2
           ∧ (fl_id f1, fl_from f1, fl_to f1, fl_date f1, fl_base_price_idr f1)
             = (fl_id f, fl_from f, fl_to f, fl_date f, fl_base_price_idr f)
           ∧ (fl_id f2, fl_from f2, fl_to f2, fl_date f2, fl_base_price_idr f2)
             = (fl_id f, fl_from f, fl_to f, fl_date f, fl_base_price_idr f)
           ∧ if bool_decide (default "" (fl_id f) ∈ bk_flight_ids record) then
               fl_seats_left f1 = Some (Z.max 0 (seats f - 1))
               ∧ seats f1 = Z.max 0 (seats f - 1)
               ∧ seats f2 = Z.max 0 (seats f - 2)
               ∧ (1 ≤ seats f → seats f1 = seats f - 1)
               ∧ (2 ≤ seats f → seats f2 = seats f - 2)
               ∧ 0 ≤ seats f1 ∧ 0 ≤ seats f2
             else fl_seats_left f1 = fl_seats_left f
                  ∧ fl_seats_left f2 = fl_seats_left f)
    ∧ (∀ i h, HOTELS_FILE σ !! i = Some h →
         ∃ h1 h2,
           HOTELS_FILE σ1 !! i = Some h1 ∧ HOTELS_FILE σ2 !! i = Some h2
           ∧ (ht_id h1, ht_name h1, ht_city h1, ht_country h1, ht_category h1,
              ht_price_per_night_idr h1, ht_available_from h1, ht_available_to h1,
              ht_nights h1, ht_stay_start_date h1, ht_stay_end_date h1)
             = (ht_id h, ht_name h, ht_city h, ht_country h, ht_category h,
                ht_price_per_night_idr h, ht_available_from h, ht_available_to h,
                ht_nights h, ht_stay_start_date h, ht_stay_end_date h)
           ∧ (ht_id h2, ht_name h2, ht_city h2, ht_country h2, ht_category h2,
              ht_price_per_night_idr h2, ht_available_from h2, ht_available_to h2,
              ht_nights h2, ht_stay_start_date h2, ht_stay_end_date h2)
             = (ht_id h, ht_name h, ht_city h, ht_country h, ht_category h,
                ht_price_per_night_idr h, ht_available_from h, ht_available_to h,
                ht_nights h, ht_stay_start_date h, ht_stay_end_date h)
           ∧ if bool_decide (default "" (ht_id h) ∈ bk_hotel_ids record) then
               ht_rooms_left h1 = Some (Z.max 0 (rooms h - 1))
               ∧ rooms h1 = Z.max 0 (rooms h - 1)
               ∧ rooms h2 = Z.max 0 (rooms h - 2)
               ∧ (1 ≤ rooms h → rooms h1 = rooms h - 1)
               ∧ (2 ≤ rooms h → rooms h2 = rooms h - 2)
               ∧ 0 ≤ rooms h1 ∧ 0 ≤ rooms h2
             else ht_rooms_left h1 = ht_rooms_left h
                  ∧ ht_rooms_left h2 = ht_rooms_left h).
Proof.
  eexists _, _, _, _. split; [apply create_booking_run|].
  split; [apply create_booking_run|]. cbn [bk_flight_ids bk_hotel_ids FLIGHTS_FILE HOTELS_FILE].
  rewrite !decrement_records_length. do 4 (split; [done|]).
  split_and!.
  - intros i f Hf. rewrite !decrement_records_lookup, Hf. simpl.
    case_bool_decide as Hin; simpl.
    + rewrite bool_decide_eq_true_2 by done. split_and!; [done|done|lia|lia].
    + by rewrite bool_decide_eq_false_2 by done.
  - intros i h Hh. rewrite !decrement_records_lookup, Hh. simpl.
    case_bool_decide as Hin; simpl.
    + rewrite bool_decide_eq_true_2 by done. split_and!; [done|done|lia|lia].
    + by rewrite bool_decide_eq_false_2 by done.
  - intros Hnone. apply list_eq. intros i. rewrite decrement_records_lookup.
    destruct (FLIGHTS_FILE σ !! i) as [f|] eqn:Hf; [simpl|done].
    rewrite bool_decide_eq_false_2; [done|].
    apply Hnone. by eapply list_elem_of_lookup_2.
  - intros Hnone. apply list_eq. intros i. rewrite decrement_records_lookup.
    destruct (HOTELS_FILE σ !! i) as [h|] eqn:Hh; [simpl|done].
    rewrite bool_decide_eq_false_2; [done|].
    apply Hnone. by eapply list_elem_of_lookup_2.
  - intros i f Hf. rewrite !decrement_records_lookup, Hf. simpl.
    case_bool_decide as Hin; simpl.
    + rewrite bool_decide_eq_true_2 by done. eexists _, _.
      split; [done|]. split; [done|]. unfold seats. simpl.
      split_and!; try done; lia.
    + rewrite bool_decide_eq_false_2 by done. by eexists _, _.
  - intros i h Hh. rewrite !decrement_records_lookup, Hh. simpl.
    case_bool_decide as Hin; simpl.
    + rewrite bool_decide_eq_true_2 by done. eexists _, _.
      split; [done|]. split; [done|]. unfold rooms. simpl.
      split_and!; try done; lia.
    + rewrite bool_decide_eq_false_2 by done. by eexists _, _.
Qed.

(** * The ledger: the persisted record *)

Lemma pretty_N_char_digit d : (d < 10)%N → pretty_N_char d = digit d.
Proof.
  intros Hd.
  assert (d = 0 ∨ d = 1 ∨ d = 2 ∨ d = 3 ∨ d = 4 ∨ d = 5 ∨ d = 6 ∨ d = 7 ∨ d = 8
          ∨ d = 9)%N as Hcases by lia.
  repeat (destruct Hcases as [->|Hcases]; [reflexivity|]). by subst d.
Qed.

Lemma format_04d_four_digits n : Z.of_nat n ≤ 9999 → format_04d n = four_digits n.
Proof.
  intros Hn. unfold format_04d, four_digits, pretty, pretty_nat, pretty, pretty_N.
  set (x := N.of_nat n). assert (Hx : (x ≤ 9999)%N) by lia.
  assert (Hd0 : (x `mod` 10 < 10)%N) by (apply N.mod_lt; lia).
  assert (Hd1 : ((x `div` 10) `mod` 10 < 10)%N) by (apply N.mod_lt; lia).
  assert (Hd2 : ((x `div` 100) `mod` 10 < 10)%N) by (apply N.mod_lt; lia).
  assert (H100 : ((x `div` 10) `div` 10 = x `div` 100)%N)
    by (by rewrite N.Div0.div_div).
  assert (H1000 : ((x `div` 100) `div` 10 = x `div` 1000)%N)
    by (by rewrite N.Div0.div_div).
  assert (H10000 : ((x `div` 1000) `div` 10 = 0)%N).
  { rewrite N.Div0.div_div. apply N.div_small. lia. }
  assert (Hd3 : (x `div` 1000 < 10)%N)
    by (apply N.Div0.div_lt_upper_bound; lia).
  assert (Hd3' : ((x `div` 1000) `mod` 10 = x `div` 1000)%N)
    by (by apply N.mod_small).
  destruct (decide (x = 0)%N) as [Hz|Hnz].
  { rewrite Hz. reflexivity. }
  rewrite pretty_N_go_step by (by apply N.neq_0_lt_0).
  destruct (decide (x `div` 10 = 0)%N) as [Hs1|Hs1].
  { rewrite Hs1, pretty_N_go_0.
    assert (x `div` 100 = 0 ∧ x `div` 1000 = 0)%N as [Hq2 Hq3].
    { rewrite <- H1000, <- H100, Hs1. done. }
    rewrite Hq2, Hq3. by rewrite pretty_N_char_digit. }
  rewrite pretty_N_go_step, H100 by (by apply N.neq_0_lt_0).
  destruct (decide (x `div` 100 = 0)%N) as [Hs2|Hs2].
  { rewrite Hs2, pretty_N_go_0.
    assert (x `div` 1000 = 0)%N as Hq3 by (by rewrite <- H1000, Hs2).
    rewrite Hq3. by rewrite !pretty_N_char_digit. }
  rewrite pretty_N_go_step, H1000 by (by apply N.neq_0_lt_0).
  destruct (decide (x `div` 1000 = 0)%N) as [Hs3|Hs3].
  { rewrite Hs3, pretty_N_go_0. by rewrite !pretty_N_char_digit. }
  rewrite pretty_N_go_step, H10000, pretty_N_go_0, Hd3' by (by apply N.neq_0_lt_0).
  by rewrite !pretty_N_char_digit.
Qed.

(** C8. A commit never fails and appends exactly one record to the ledger.
    The record carries the cities, the two dates (as ISO text, which reads
    back to the same dates) and the total price it was given, and its id is
    ["BK-"] followed by [count + 1] in the format [04d], where [count] is the
    number of records persisted before: four decimal digits, padded with
    zeros, as long as [count + 1] has at most four digits. *)
Theorem booking_record_round_trip env country cities start end_ flights hotels
    total info payment σ :
  ∃ record σ',
    create_booking env country cities start end_ flights hotels total info payment σ
    = (Ok record, σ')
    ∧ BOOKINGS_FILE σ' = BOOKINGS_FILE σ ++ [record]
    ∧ bk_cities record = cities
    ∧ bk_start_date record = isoformat start
    ∧ bk_end_date record = isoformat end_
    ∧ fromisoformat (bk_start_date record) = Some start
    ∧ fromisoformat (bk_end_date record) = Some end_
    ∧ bk_total_price_idr record = total
    ∧ bk_booking_id record = "BK-" +:+ format_04d (length (BOOKINGS_FILE σ) + 1)
    ∧ (Z.of_nat (length (BOOKINGS_FILE σ)) < 9999 →
       bk_booking_id record = "BK-" +:+ four_digits (length (BOOKINGS_FILE σ) + 1)).
Proof.
  eexists _, _. split; [apply create_booking_run|].
  cbn [BOOKINGS_FILE bk_cities bk_start_date bk_end_date bk_total_price_idr
       bk_booking_id].
  split_and!; try done.
  intros Hcount. by rewrite format_04d_four_digits by lia.
Qed.

(** * Failed resolutions *)

Lemma is_empty_true {A} (xs : list A) : is_empty xs = true ↔ xs = [].
Proof. by destruct xs. Qed.

Lemma py_min_no_booker_error {A} (key : A → Z) xs b :
  py_min key xs ≠ Raise (BookerErr b).
Proof. unfold py_min. by destruct (min_by key xs). Qed.

Lemma find_hotels_for_city_booker_error city country style s e σ b σ' :
  find_hotels_for_city city country style s e σ ≠ (Raise (BookerErr b), σ').
Proof.
  unfold find_hotels_for_city, bind, load_hotels, read_json, ret, throw.
  destruct country; [done|]. by destruct (existsb _ _).
Qed.

Lemma date_add_raise d n e : date_add d n = Raise e → e = OverflowError.
Proof.
  unfold date_add, timedelta. case_bool_decide; simpl; [|by intros [= <-]].
  case_bool_decide; [done|by intros [= <-]].
Qed.

Lemma choose_hotel_booker_error city country style s e σ b σ' :
  choose_hotel city country style s e σ = (Raise (BookerErr b), σ') →
  b = NoHotelsAvailable city style ∧ no_hotel_match σ city country style s e.
Proof.
  unfold choose_hotel, no_hotel_match, bind at 1.
  destruct (find_hotels_for_city city country style s e σ) as [[cands|x] σ1] eqn:H1.
  2: { intros [= -> ->]. by apply find_hotels_for_city_booker_error in H1. }
  pose proof (find_hotels_for_city_state _ _ _ _ _ _ _ _ H1) as ->.
  destruct cands as [|h cands]; simpl is_empty; cbv iota.
  - destruct (fallback_style style) as [fb|] eqn:Hfb.
    + unfold bind.
      destruct (find_hotels_for_city city country fb s e σ) as [[cands2|x] σ2] eqn:H2.
      2: { intros [= -> ->]. by apply find_hotels_for_city_booker_error in H2. }
      pose proof (find_hotels_for_city_state _ _ _ _ _ _ _ _ H2) as ->.
      destruct cands2 as [|h2 cands2]; simpl is_empty; cbv iota.
      * unfold throw. intros [= <- <-]. split_and!; try done. all: by intros ? [= <-].
      * unfold lift, py_min. simpl. intros ?; simplify_eq.
    + unfold bind, ret. simpl. unfold throw. intros [= <- <-]. by split_and!.
  - unfold bind, ret. simpl. unfold lift, py_min. simpl. intros ?; simplify_eq.
Qed.

Lemma book_cities_booker_error country style start npc cities off acc σ b σ' :
  book_cities country style start npc cities off acc σ = (Raise (BookerErr b), σ') →
  ∃ city stay_start stay_end,
    city ∈ cities ∧ b = NoHotelsAvailable city style
    ∧ no_hotel_match σ city country style stay_start stay_end.
Proof.
  revert off acc. induction cities as [|city rest IH]; intros off acc; simpl; [done|].
  case_bool_decide.
  - intros Hrun. destruct (IH _ _ Hrun) as (c & s & e & Hin & Hb & Hno).
    exists c, s, e. split; [by right|done].
  - unfold bind at 1, lift at 1.
    destruct (date_add start off) as [s|x] eqn:Hs;
      [|by apply date_add_raise in Hs as ->].
    unfold bind at 1, lift at 1.
    destruct (date_add s _) as [e|x] eqn:He;
      [|by apply date_add_raise in He as ->].
    unfold bind at 1.
    destruct (choose_hotel _ _ _ _ _ σ) as [[h|x] σ1] eqn:Hh.
    + apply choose_hotel_state in Hh as ->. intros Hrun.
      destruct (IH _ _ Hrun) as (c & s' & e' & Hin & Hb & Hno).
      exists c, s', e'. split; [by right|done].
    + intros [= -> ->]. apply choose_hotel_booker_error in Hh as [-> Hno].
      exists city, s, e. split; [by left|done].
Qed.

Lemma read_prefs_invalid prefs :
  prefs_invalid prefs ↔
  ∃ exc, read_prefs prefs = Raise (BookerErr (InvalidPreferences exc)).
Proof.
  unfold prefs_invalid, read_prefs. split.
  - intros Hbad.
    destruct (origin_city prefs), (travel_style prefs), (budget_idr prefs),
      (trip_length_days prefs), (start_date prefs) as [[]|]; simpl;
      try (by eexists).
    destruct Hbad as [?|[?|[?|[?|[?|[? ?]]]]]]; simplify_eq.
  - intros [exc Hexc].
    destruct (origin_city prefs), (travel_style prefs), (budget_idr prefs),
      (trip_length_days prefs), (start_date prefs) as [[]|]; simpl in Hexc;
      try discriminate; eauto 10.
Qed.

Lemma read_prefs_raises prefs e :
  read_prefs prefs = Raise e → ∃ exc, e = BookerErr (InvalidPreferences exc).
Proof.
  unfold read_prefs.
  destruct (origin_city prefs), (travel_style prefs), (budget_idr prefs),
    (trip_length_days prefs), (start_date prefs) as [[]|]; simpl;
    intros [= <-]; by eexists.
Qed.

Lemma int_mul_float_no_booker_error z c b : int_mul_float z c ≠ Raise (BookerErr b).
Proof.
  unfold int_mul_float, float_of_int, rbind.
  destruct (binary_normalize prec emax z 0 false); try done;
    by match goal with |- int_of_float ?f ≠ _ => destruct f end.
Qed.

(** Where a failed run of [book_itinerary] stopped. *)
Lemma book_itinerary_raise env it prefs pay today σ e σ' :
  book_itinerary env it prefs pay today σ = (Raise e, σ') →
  σ' = σ
  ∧ (read_prefs prefs = Raise e
     ∨ ∃ origin style budget days start,
         read_prefs prefs = Ok (origin, style, budget, days, start)
         ∧ (date_add start (days - 1) = Raise e
            ∨ ∃ end_, date_add start (days - 1) = Ok end_
                ∧ match default [] (it_cities it) with
                  | [] => e = BookerErr EmptyItinerary
                  | first :: rest =>
                      let cities := first :: rest in
                      let out := options_for (FLIGHTS_FILE σ) origin first start in
                      let back :=
                        options_for (FLIGHTS_FILE σ) (default first (last cities))
                          origin end_ in
                      ((out = [] ∨ back = []) ∧ e = BookerErr NoFlightsAvailable)
                      ∨ (out ≠ [] ∧ back ≠ []
                         ∧ (book_cities (it_destination_country it) style start
                              (_split_nights_across_cities cities days) cities 0 [] σ
                            = (Raise e, σ)
                            ∨ ∃ hotels,
                                book_cities (it_destination_country it) style start
                                  (_split_nights_across_cities cities days) cities
                                  0 [] σ = (Ok hotels, σ)
                                ∧ ∀ b, e ≠ BookerErr b))
                  end)).
Proof.
  unfold book_itinerary, bind at 1, lift at 1.
  destruct (read_prefs prefs) as [[[[[origin style] budget] days] start]|x] eqn:Hp.
  2: { intros [= -> ->]. split; [done|by left]. }
  unfold bind at 1, lift at 1.
  destruct (date_add start (days - 1)) as [end_|x] eqn:Hend.
  2: { intros [= -> ->]. split; [done|]. right.
       exists origin, style, budget, days, start. split; [done|by left]. }
  destruct (default [] (it_cities it)) as [|first rest] eqn:Hc.
  { intros [= <- <-]. split; [done|]. right.
    exists origin, style, budget, days, start. split; [done|]. right.
    by exists end_. }
  unfold bind at 1. rewrite find_flights_for_trip_run.
  cbn [outbound_options return_options].
  set (out := options_for _ origin first start).
  set (back := options_for _ _ origin end_).
  intros Hrun.
  assert (Hgoal :
    σ' = σ
    ∧ (((out = [] ∨ back = []) ∧ e = BookerErr NoFlightsAvailable)
       ∨ (out ≠ [] ∧ back ≠ []
          ∧ (book_cities (it_destination_country it) style start
               (_split_nights_across_cities (first :: rest) days) (first :: rest)
               0 [] σ = (Raise e, σ)
             ∨ ∃ hotels,
                 book_cities (it_destination_country it) style start
                   (_split_nights_across_cities (first :: rest) days)
                   (first :: rest) 0 [] σ = (Ok hotels, σ)
                 ∧ ∀ b, e ≠ BookerErr b)))).
  2: { destruct Hgoal as [-> Hgoal]. split; [done|]. right.
       exists origin, style, budget, days, start. split; [done|]. right.
       by exists end_. }
  destruct out as [|o1 out'] eqn:Hout.
  { injection Hrun as <- <-. split; [done|]. left. split; [by left|done]. }
  destruct back as [|b1 back'] eqn:Hback.
  { injection Hrun as <- <-. split; [done|]. left. split; [by right|done]. }
  cbn [is_empty orb] in Hrun. revert Hrun.
  unfold bind at 1, lift at 1, py_min at 1. cbn [min_by].
  unfold bind at 1, lift at 1, py_min at 1. cbn [min_by].
  unfold bind at 1.
  destruct (book_cities _ _ _ _ _ _ _ σ) as [[hotels|x] σ1] eqn:Hh.
  2: { pose proof (book_cities_state _ _ _ _ _ _ _ _ _ _ Hh) as ->.
       intros [= -> ->]. split; [done|]. right. split_and!; [done..|by left]. }
  pose proof (book_cities_state _ _ _ _ _ _ _ _ _ _ Hh) as ->.
  unfold bind at 1, lift at 1.
  destruct (int_mul_float _ float_0_2) as [extra|x] eqn:He.
  2: { intros [= -> ->]. split; [done|]. right. split_and!; [done..|]. right.
       exists hotels. split; [done|].
       intros b ->. by apply int_mul_float_no_booker_error in He. }
  unfold bind at 1, lift at 1.
  destruct (int_mul_float budget float_1_2) as [threshold|x] eqn:Ht.
  2: { intros [= -> ->]. split; [done|]. right. split_and!; [done..|]. right.
       exists hotels. split; [done|].
       intros b ->. by apply int_mul_float_no_booker_error in Ht. }
  destruct pay as [info|]; [case_bool_decide|]; try done.
  unfold bind. by rewrite create_booking_run.
Qed.

(** C9. A failed resolution carries no result (a [Raise] has none) and
    leaves the ledger and both inventories as they were.  Missing or
    malformed preferences raise [InvalidPreferences]; with valid preferences
    an itinerary without cities raises [EmptyItinerary]; with cities, an
    empty outbound or return candidate list raises [NoFlightsAvailable]; with
    flights, a [BookerError] of the hotel loop is the error of the call.
    Conversely every [BookerError] of the call is one of the four, and
    [NoHotelsAvailable] names a city of the itinerary and the requested
    style, for a stay that has no match even one tier down. *)
Theorem failed_resolution_is_clean env it prefs pay today σ :
  (∀ e σ', book_itinerary env it prefs pay today σ = (Raise e, σ') → σ' = σ)
  ∧ (prefs_invalid prefs →
     ∃ exc, book_itinerary env it prefs pay today σ
            = (Raise (BookerErr (InvalidPreferences exc)), σ))
  ∧ (∀ origin style budget days start end_,
       read_prefs prefs = Ok (origin, style, budget, days, start) →
       date_add start (days - 1) = Ok end_ →
       match default [] (it_cities it) with
       | [] =>
           book_itinerary env it prefs pay today σ
           = (Raise (BookerErr EmptyItinerary), σ)
       | first :: rest =>
           let cities := first :: rest in
           let out := options_for (FLIGHTS_FILE σ) origin first start in
           let back :=
             options_for (FLIGHTS_FILE σ) (default first (last cities)) origin end_ in
           (out = [] ∨ back = [] →
            book_itinerary env it prefs pay today σ
            = (Raise (BookerErr NoFlightsAvailable), σ))
           ∧ (out ≠ [] → back ≠ [] → ∀ b σ1,
              book_cities (it_destination_country it) style start
                (_split_nights_across_cities cities days) cities 0 [] σ
              = (Raise (BookerErr b), σ1) →
              book_itinerary env it prefs pay today σ = (Raise (BookerErr b), σ))
       end)
  ∧ (∀ b σ', book_itinerary env it prefs pay today σ = (Raise (BookerErr b), σ') →
       match b with
       | InvalidPreferences _ => prefs_invalid prefs
       | EmptyItinerary => default [] (it_cities it) = []
       | NoFlightsAvailable =>
           ∃ origin style budget days start end_ first rest,
             read_prefs prefs = Ok (origin, style, budget, days, start)
             ∧ date_add start (days - 1) = Ok end_
             ∧ default [] (it_cities it) = first :: rest
             ∧ (options_for (FLIGHTS_FILE σ) origin first start = []
                ∨ options_for (FLIGHTS_FILE σ)
                    (default first (last (first :: rest))) origin end_ = [])
       | NoHotelsAvailable city style =>
           travel_style prefs = Some style
           ∧ city ∈ default [] (it_cities it)
           ∧ ∃ stay_start stay_end,
               no_hotel_match σ city (it_destination_country it) style
                 stay_start stay_end
       end).
Proof.
  split_and!.
  - intros e σ' Hrun. by apply book_itinerary_raise in Hrun as [-> _].
  - intros [exc Hexc]%read_prefs_invalid. exists exc.
    unfold book_itinerary, bind, lift. by rewrite Hexc.
  - intros origin style budget days start end_ Hp Hend.
    assert (Hrun : ∃ r σ', book_itinerary env it prefs pay today σ = (r, σ'))
      by (destruct (book_itinerary _ _ _ _ _ σ); by eexists _, _).
    destruct Hrun as ([res|e] & σ' & Hrun).
    + (* a successful run found cities, flights and hotels *)
      destruct (book_itinerary_ok _ _ _ _ _ _ _ _ Hrun)
        as (o & s & bu & d & st & en & first & rest & outbound & returning
            & hotels & extra & threshold & Hp' & Hend' & Hc & Hout & Hback & Hloop
            & _).
      rewrite Hp in Hp'. injection Hp' as <- <- <- <- <-.
      rewrite Hend in Hend'. injection Hend' as <-. rewrite Hc. cbv zeta. split.
      * intros [Hnone|Hnone]; [by rewrite Hnone in Hout|by rewrite Hnone in Hback].
      * intros _ _ b σ1 Hraise. by rewrite Hloop in Hraise.
    + apply book_itinerary_raise in Hrun as Hcause. destruct Hcause as [-> Hcause].
      destruct Hcause as [Hp'|(o & s & bu & d & st & Hp' & Hcause)];
        [by rewrite Hp in Hp'|].
      rewrite Hp in Hp'. injection Hp' as <- <- <- <- <-.
      destruct Hcause as [Hend'|(en & Hend' & Hcause)]; [by rewrite Hend in Hend'|].
      rewrite Hend in Hend'. injection Hend' as <-.
      destruct (default [] (it_cities it)) as [|first rest]; [by subst e|].
      cbv zeta in *. split.
      * intros Hnone. destruct Hcause as [[_ ->]|(Hout & Hback & _)]; [done|].
        by destruct Hnone.
      * intros Hout Hback b σ1 Hraise.
        destruct Hcause as [[[Hnone|Hnone] _]|(_ & _ & Hloop)]; [done..|].
        destruct Hloop as [Hloop|(hotels & Hloop & _)];
          rewrite Hloop in Hraise; [|done].
        by injection Hraise as -> _.
  - intros b σ' Hrun. apply book_itinerary_raise in Hrun as [-> Hcause].
    destruct Hcause as [Hp|(origin & style & budget & days & start & Hp & Hcause)].
    { destruct (read_prefs_raises _ _ Hp) as [exc [= ->]].
      apply read_prefs_invalid. by exists exc. }
    destruct Hcause as [Hend|(end_ & Hend & Hcause)].
    { by apply date_add_raise in Hend. }
    destruct (default [] (it_cities it)) as [|first rest] eqn:Hc.
    { by injection Hcause as ->. }
    destruct Hcause as [[Hnone [= ->]]|(Hout & Hback & [Hloop|(? & _ & Hnot)])].
    + by exists origin, style, budget, days, start, end_, first, rest.
    + apply book_cities_booker_error in Hloop
        as (city & stay_start & stay_end & Hin & -> & Hno).
      apply read_prefs_ok in Hp as (_ & Hstyle & _).
      split_and!; [done..|]. by exists stay_start, stay_end.
    + by destruct (Hnot b).
Qed.

(** * Selection: [min] and [sort] *)

Section Selection.

Context {A : Type} (key : A → Z).

Lemma min_from_filter (P : A → Prop) `{!∀ x, Decision (P x)} best l m :
  min_from key best (filter P l) = m →
  (m = best ∧ ∀ x, x ∈ l → P x → key best ≤ key x)
  ∨ (∃ i, l !! i = Some m ∧ P m ∧ key m < key best
       ∧ (∀ x, x ∈ l → P x → key m ≤ key x)
       ∧ (∀ j x, (j < i)%nat → l !! j = Some x → P x → key m < key x)).
Proof.
  revert best. induction l as [|y l IH]; intros best; simpl.
  { intros <-. left. split; [done|]. by intros x ?%elem_of_nil. }
  rewrite filter_cons. destruct (decide (P y)) as [Hy|Hy]; simpl.
  - case_bool_decide as Hlt; intros Hm; apply IH in Hm.
    + right. destruct Hm as [[-> Hall]|(i & Hi & HP & Hlt' & Hall & Hbefore)].
      * exists 0%nat. split_and!; [done..| |intros; lia].
        intros x [->|Hx]%elem_of_cons ?; [lia|by apply Hall].
      * exists (S i). split_and!; [done|done|lia| |].
        -- intros x [->|Hx]%elem_of_cons ?; [lia|by apply Hall].
        -- intros [|j] x Hj Hx HPx; [injection Hx as <-; lia|].
           apply (Hbefore j); [lia|done..].
    + destruct Hm as [[-> Hall]|(i & Hi & HP & Hlt' & Hall & Hbefore)].
      * left. split; [done|].
        intros x [->|Hx]%elem_of_cons ?; [lia|by apply Hall].
      * right. exists (S i). split_and!; [done..| |].
        -- intros x [->|Hx]%elem_of_cons ?; [lia|by apply Hall].
        -- intros [|j] x Hj Hx HPx; [injection Hx as <-; lia|].
           apply (Hbefore j); [lia|done..].
  - intros Hm. apply IH in Hm.
    destruct Hm as [[-> Hall]|(i & Hi & HP & Hlt' & Hall & Hbefore)].
    + left. split; [done|].
      intros x [->|Hx]%elem_of_cons ?; [done|by apply Hall].
    + right. exists (S i). split_and!; [done..| |].
      * intros x [->|Hx]%elem_of_cons ?; [done|by apply Hall].
      * intros [|j] x Hj Hx HPx; [by injection Hx as <-|].
        apply (Hbefore j); [lia|done..].
Qed.

(** The choice of [min] among the records of [l] that satisfy [P]: the
    first, in the order of [l], of those with the least key. *)
Lemma min_by_filter (P : A → Prop) `{!∀ x, Decision (P x)} l m :
  min_by key (filter P l) = Some m →
  ∃ i, l !! i = Some m ∧ P m
    ∧ (∀ x, x ∈ l → P x → key m ≤ key x)
    ∧ (∀ j x, (j < i)%nat → l !! j = Some x → P x → key m < key x).
Proof.
  induction l as [|y l IH]; [done|]. rewrite filter_cons.
  destruct (decide (P y)) as [Hy|Hy].
  - simpl. intros [= Hm]. apply min_from_filter in Hm.
    destruct Hm as [[-> Hall]|(i & Hi & HP & Hlt' & Hall & Hbefore)].
    + exists 0%nat. split_and!; [done..| |intros; lia].
      intros x [->|Hx]%elem_of_cons ?; [lia|by apply Hall].
    + exists (S i). split_and!; [done..| |].
      * intros x [->|Hx]%elem_of_cons ?; [lia|by apply Hall].
      * intros [|j] x Hj Hx HPx; [injection Hx as <-; lia|].
        apply (Hbefore j); [lia|done..].
  - intros (i & Hi & HP & Hall & Hbefore)%IH. exists (S i).
    split_and!; [done..| |].
    + intros x [->|Hx]%elem_of_cons ?; [done|by apply Hall].
    + intros [|j] x Hj Hx HPx; [by injection Hx as <-|].
      apply (Hbefore j); [lia|done..].
Qed.

Lemma filter_all (l : list A) : filter (λ _, True) l = l.
Proof. induction l as [|x l IH]; [done|]. by rewrite filter_cons_True, IH. Qed.

Lemma min_by_first l m :
  min_by key l = Some m →
  ∃ i, l !! i = Some m
    ∧ (∀ x, x ∈ l → key m ≤ key x)
    ∧ (∀ j x, (j < i)%nat → l !! j = Some x → key m < key x).
Proof.
  rewrite <- (filter_all l) at 1. intros (i & Hi & _ & Hall & Hbefore)%min_by_filter.
  exists i. split_and!; [done|by intros; apply Hall|by intros; eapply Hbefore].
Qed.

Lemma min_by_is_Some l : l ≠ [] → is_Some (min_by key l).
Proof. destruct l; [done|]. by eexists. Qed.

(** A position with these two properties is where [min] stops. *)
Lemma min_by_unique l i m :
  l !! i = Some m →
  (∀ x, x ∈ l → key m ≤ key x) →
  (∀ j x, (j < i)%nat → l !! j = Some x → key m < key x) →
  min_by key l = Some m.
Proof.
  intros Hi Hall Hbefore.
  destruct (min_by_is_Some l) as [m' Hm']; [by intros ->|].
  rewrite Hm'. f_equal.
  destruct (min_by_first _ _ Hm') as (i' & Hi' & Hall' & Hbefore').
  destruct (decide (i' = i)) as [->|Hne]; [congruence|].
  destruct (decide (i' < i)%nat).
  - pose proof (Hbefore i' m' ltac:(done) Hi').
    pose proof (Hall' m (list_elem_of_lookup_2 _ _ _ Hi)). lia.
  - pose proof (Hbefore' i m ltac:(lia) Hi).
    pose proof (Hall m' (list_elem_of_lookup_2 _ _ _ Hi')). lia.
Qed.

End Selection.

Section Sorting.

Context {A : Type} (key : A → Z).

Lemma insert_by_perm x l : insert_by key x l ≡ₚ x :: l.
Proof.
  induction l as [|y l IH]; simpl; [done|].
  case_bool_decide; [done|]. rewrite IH. apply Permutation_swap.
Qed.

Lemma sort_by_perm l : sort_by key l ≡ₚ l.
Proof.
  induction l as [|x l IH]; simpl; [done|]. by rewrite insert_by_perm, IH.
Qed.

Lemma ascending_cons x l :
  ascending key (x :: l) ↔ (∀ y, y ∈ l → key x ≤ key y) ∧ ascending key l.
Proof.
  split.
  - intros Hasc. split.
    + intros y [j Hj]%list_elem_of_lookup_1.
      apply (Hasc 0%nat (S j)); [done|done|lia].
    + intros i j a b Hi Hj Hij. apply (Hasc (S i) (S j)); [done|done|lia].
  - intros [Hx Hasc] [|i] [|j] a b Hi Hj Hij; simpl in *; simplify_eq; try lia.
    + apply Hx. by eapply list_elem_of_lookup_2.
    + apply (Hasc i j); [done|done|lia].
Qed.

Lemma insert_by_ascending x l : ascending key l → ascending key (insert_by key x l).
Proof.
  induction l as [|y l IH]; simpl; intros Hasc.
  - apply ascending_cons. split; [by intros ? ?%elem_of_nil|done].
  - case_bool_decide as Hle.
    + apply ascending_cons. split; [|done].
      apply ascending_cons in Hasc as [Hy _].
      intros z [->|Hz]%elem_of_cons; [done|]. specialize (Hy z Hz). lia.
    + apply ascending_cons in Hasc as [Hy Hasc]. apply ascending_cons.
      split; [|by apply IH].
      intros z Hz. rewrite insert_by_perm in Hz.
      apply elem_of_cons in Hz as [->|Hz]; [lia|by apply Hy].
Qed.

Lemma sort_by_ascending l : ascending key (sort_by key l).
Proof.
  induction l as [|x l IH]; simpl; [by intros [|?] ? ? ? ?|].
  by apply insert_by_ascending.
Qed.

Lemma insert_by_stable k x l :
  filter (λ y, key y = k) (insert_by key x l) = filter (λ y, key y = k) (x :: l).
Proof.
  induction l as [|y l IH]; simpl; [done|].
  case_bool_decide as Hle; [done|].
  rewrite (filter_cons _ y), IH, !filter_cons.
  repeat case_decide; try done; lia.
Qed.

(** The sort is stable: records at the same distance keep their order. *)
Lemma sort_by_stable k l :
  filter (λ y, key y = k) (sort_by key l) = filter (λ y, key y = k) l.
Proof.
  induction l as [|x l IH]; simpl; [done|].
  by rewrite insert_by_stable, !filter_cons, IH.
Qed.

End Sorting.

(** * Flight selection *)

Lemma options_for_exact flights src dst wanted :
  exact_matches flights src dst wanted ≠ [] →
  options_for flights src dst wanted = exact_matches flights src dst wanted.
Proof.
  unfold options_for. fold (exact_matches flights src dst wanted).
  by destruct (exact_matches flights src dst wanted).
Qed.

Lemma options_for_fallback flights src dst wanted :
  exact_matches flights src dst wanted = [] →
  options_for flights src dst wanted
  = take 5 (sort_by (day_distance wanted) (dated_on_route flights src dst)).
Proof.
  unfold options_for. fold (exact_matches flights src dst wanted).
  by intros ->.
Qed.

Lemma ascending_take {A} (key : A → Z) n l : ascending key l → ascending key (take n l).
Proof.
  intros Hasc i j x y Hi Hj Hij.
  apply lookup_take_Some in Hi as [Hi _]. apply lookup_take_Some in Hj as [Hj _].
  by apply (Hasc i j).
Qed.

Lemma cheapest_in_own_order {A} (key : A → Z) l m :
  min_by key l = Some m ↔ cheapest_in_order key l l m.
Proof.
  split.
  - intros (i & Hi & Hall & Hbefore)%min_by_first. exists i.
    split_and!; [done|by eapply list_elem_of_lookup_2|done|].
    intros j x Hj Hx _. by eapply Hbefore.
  - intros (i & Hi & _ & Hall & Hbefore). apply (min_by_unique key l i); [done..|].
    intros j x Hj Hx. apply (Hbefore j); [done..|by eapply list_elem_of_lookup_2].
Qed.

(** The two flights of a successful run. *)
Lemma book_itinerary_flights env it prefs pay today σ res σ' origin start days
    first rest :
  book_itinerary env it prefs pay today σ = (Ok res, σ') →
  origin_city prefs = Some origin →
  start_date prefs = Some (IsoDate start) →
  trip_length_days prefs = Some days →
  it_cities it = Some (first :: rest) →
  ∃ outbound returning,
    chosen_flights res = [outbound; returning]
    ∧ min_by flight_price (options_for (FLIGHTS_FILE σ) origin first start)
      = Some outbound
    ∧ min_by flight_price
        (options_for (FLIGHTS_FILE σ) (default first (last (first :: rest)))
           origin (start + days - 1))
      = Some returning
    ∧ outbound_flight (cost_breakdown res) = flight_price outbound
    ∧ return_flight (cost_breakdown res) = flight_price returning
    ∧ total_flights (cost_breakdown res)
      = flight_price outbound + flight_price returning.
Proof.
  intros Hrun Horigin Hstart Hdays Hcities.
  apply book_itinerary_ok in Hrun
    as (origin' & style & budget & days' & start' & end_ & first' & rest' & outbound
        & returning & hotels & extra & threshold & Hp & Hend & Hc & Hout & Hback & _
        & _ & _ & _ & _ & _ & Hcost & Hcommit).
  apply read_prefs_ok in Hp as (Ho' & _ & _ & Hd' & Hs').
  rewrite Horigin in Ho'. injection Ho' as <-.
  rewrite Hdays in Hd'. injection Hd' as <-.
  rewrite Hstart in Hs'. injection Hs' as <-.
  rewrite Hcities in Hc. injection Hc as <- <-.
  apply date_add_ok in Hend as ->.
  replace (start + (days - 1)) with (start + days - 1) in Hback by lia.
  exists outbound, returning. rewrite Hcost. split_and!; [|done..].
  unfold chosen_flights.
  destruct Hcommit as [(_ & _ & -> & _)|(info & record & _ & _ & _ & -> & -> & _ & Hcb)];
    [done|].
  rewrite create_booking_run in Hcb. by injection Hcb as <- _.
Qed.

Lemma min_by_flight_choice flights src dst wanted chosen :
  min_by flight_price (options_for flights src dst wanted) = Some chosen →
  flight_choice flights src dst wanted chosen.
Proof.
  intros Hmin. unfold flight_choice. split_and!.
  - by apply cheapest_in_own_order.
  - intros Hexact. rewrite options_for_exact in * by done. split_and!; [done| |].
    + apply min_by_filter in Hmin as (i & Hi & HP & Hall & Hbefore).
      exists i. split_and!; [done| | |].
      * apply list_elem_of_filter. split; [done|by eapply list_elem_of_lookup_2].
      * intros x [HPx Hx]%list_elem_of_filter. by apply Hall.
      * intros j x Hj Hx [HPx _]%list_elem_of_filter. by eapply Hbefore.
    + intros a b [Hab|Hab] Ha Hb; rewrite Hab in Hmin; simpl in Hmin;
        case_bool_decide; simplify_eq; try done; lia.
  - intros Hnone x Hx Hprice.
    apply min_by_first in Hmin as (i & Hi & Hall & Hbefore).
    apply list_elem_of_lookup_1 in Hx as [j Hj].
    destruct (decide (j < i)%nat) as [Hlt|Hge].
    { pose proof (Hbefore j x Hlt Hj). lia. }
    rewrite options_for_fallback in Hi, Hj by done.
    pose proof (ascending_take _ 5 _ (sort_by_ascending (day_distance wanted)
                  (dated_on_route flights src dst))) as Hasc.
    apply (Hasc i j); [done|done|lia].
Qed.

(** C4, as the code has it.  In a successful resolution the outbound and the
    return flight are each the first of the cheapest candidates in the order
    of the candidate list.  With exact-date matches that order is the
    catalog's (so of flights at 500000 and 700000 the first is taken); in
    the nearest-date fallback it is nearest date first, and a tie on price
    goes to the nearer flight. *)
Theorem cheapest_flight_selected env it prefs pay today σ res σ' origin start days
    first rest :
  book_itinerary env it prefs pay today σ = (Ok res, σ') →
  origin_city prefs = Some origin →
  start_date prefs = Some (IsoDate start) →
  trip_length_days prefs = Some days →
  it_cities it = Some (first :: rest) →
  ∃ outbound returning,
    chosen_flights res = [outbound; returning]
    ∧ flight_choice (FLIGHTS_FILE σ) origin first start outbound
    ∧ flight_choice (FLIGHTS_FILE σ) (default first (last (first :: rest))) origin
        (start + days - 1) returning.
Proof.
  intros Hrun Horigin Hstart Hdays Hcities.
  destruct (book_itinerary_flights _ _ _ _ _ _ _ _ _ _ _ _ _ Hrun Horigin Hstart
              Hdays Hcities) as (outbound & returning & Hchosen & Hout & Hback & _).
  exists outbound, returning. split; [done|].
  split; by apply min_by_flight_choice.
Qed.

(** The sample trip: of the flights at 700000 and 500000 on the start date
    the second is taken. *)
Lemma cheapest_flight_selected_witness :
  ∃ res σ',
    book_itinerary Sample.env Sample.itinerary Sample.prefs None 0 Sample.store
    = (Ok res, σ')
    ∧ ∃ outbound returning,
        chosen_flights res = [outbound; returning]
        ∧ fl_id outbound = Some "FL-2"
        ∧ flight_choice (FLIGHTS_FILE Sample.store) "Jakarta" "Tokyo" Sample.day0
            outbound
        ∧ flight_choice (FLIGHTS_FILE Sample.store) "Osaka" "Jakarta"
            (Sample.day0 + 5 - 1) returning.
Proof.
  eexists _, _. split; [vm_compute; reflexivity|].
  match goal with |- context [chosen_flights ?r] =>
    destruct (cheapest_flight_selected Sample.env Sample.itinerary Sample.prefs None 0
                Sample.store r Sample.store "Jakarta" Sample.day0 5 "Tokyo" ["Osaka"])
      as (outbound & returning & Hchosen & Hout & Hback);
      [vm_compute; reflexivity|reflexivity..|]
  end.
  exists outbound, returning. split_and!; [done| |done|done].
  cbv in Hchosen. by injection Hchosen as <- <-.
Defined.

(** C4 as stated fails: with no flight on the start date and two equally
    cheap flights one and three days later, the later one first in the
    catalog, the resolver takes the nearer one, which the catalog lists
    second. *)
Lemma catalog_order_tie_counterexample :
  ∃ res σ' outbound returning,
    book_itinerary Sample.env Sample.itinerary Sample.prefs None 0 Fallback.tie_store
    = (Ok res, σ')
    ∧ chosen_flights res = [outbound; returning]
    ∧ outbound = Fallback.near_tie
    ∧ ¬ cheapest_in_order flight_price (FLIGHTS_FILE Fallback.tie_store)
          (options_for (FLIGHTS_FILE Fallback.tie_store) "Jakarta" "Tokyo" Sample.day0)
          outbound.
Proof.
  eexists _, _, _, _. split; [vm_compute; reflexivity|].
  split; [reflexivity|]. split; [reflexivity|].
  intros (i & Hi & _ & _ & Hbefore).
  destruct i as [|[|[|i]]]; try discriminate Hi.
  specialize (Hbefore 0%nat Fallback.far_tie ltac:(lia) eq_refl).
  assert (Hin : Fallback.far_tie
                ∈ options_for (FLIGHTS_FILE Fallback.tie_store) "Jakarta" "Tokyo"
                    Sample.day0).
  { apply list_elem_of_lookup. by exists 1%nat. }
  specialize (Hbefore Hin). vm_compute in Hbefore. discriminate.
Qed.

(** * The nearest-date fallback *)

Lemma options_for_nearest_five flights src dst wanted :
  exact_matches flights src dst wanted = [] →
  nearest_five wanted (dated_on_route flights src dst)
    (options_for flights src dst wanted).
Proof.
  intros Hnone. rewrite options_for_fallback by done.
  set (pool := dated_on_route flights src dst).
  set (sorted := sort_by (day_distance wanted) pool).
  pose proof (sort_by_ascending (day_distance wanted) pool) as Hasc.
  fold sorted in Hasc. unfold nearest_five. split_and!.
  - rewrite length_take. unfold sorted.
    by rewrite (Permutation_length (sort_by_perm (day_distance wanted) pool)).
  - by apply ascending_take.
  - exists (drop 5 sorted). rewrite take_drop. split_and!.
    + apply sort_by_perm.
    + intros x y [i Hi]%list_elem_of_lookup_1 [j Hj]%list_elem_of_lookup_1.
      apply lookup_take_Some in Hi as [Hi Hi5]. rewrite lookup_drop in Hj.
      apply (Hasc i (5 + j)%nat); [done|done|lia].
    + intros k. apply sort_by_stable.
Qed.

(** The fallback of one direction: what the options are and which of them
    [min] takes. *)
Lemma fallback_choice flights src dst wanted chosen :
  exact_matches flights src dst wanted = [] →
  min_by flight_price (options_for flights src dst wanted) = Some chosen →
  let pool := dated_on_route flights src dst in
  let options := options_for flights src dst wanted in
  nearest_five wanted pool options
  ∧ cheapest_in_order flight_price options options chosen
  ∧ ∀ near far,
      pool = [near; far] ∨ pool = [far; near] →
      day_distance wanted near = 1 → day_distance wanted far = 3 →
      options = [near; far]
      ∧ chosen
        = if bool_decide (flight_price far < flight_price near) then far else near.
Proof.
  intros Hnone Hmin pool options.
  split; [by apply options_for_nearest_five|].
  split; [by apply cheapest_in_own_order|].
  intros near far Hpool Hnear Hfar. fold options in Hmin.
  assert (Hopts : options = [near; far]).
  { unfold options. rewrite options_for_fallback by done. fold pool.
    destruct Hpool as [-> | ->]; simpl.
    - rewrite bool_decide_eq_true_2 by lia. done.
    - rewrite bool_decide_eq_false_2 by lia. done. }
  split; [done|]. rewrite Hopts in Hmin. simpl in Hmin.
  by injection Hmin as <-.
Qed.

(** C5, as the code has it.  On either route, outbound from the origin to
    the first city for the start date and return from the last city to the
    origin for the end date: when no seat-available flight on the route
    matches the wanted date, the candidates are the five seat-available
    flights on the route nearest to it by absolute day difference, nearest
    first, ties in catalog order; the resolver then takes the cheapest of
    them, not the nearest.  With exactly two candidates, one and three days
    away, it takes the one three days away when that one is strictly
    cheaper, and the one a day away otherwise. *)
Theorem nearest_date_fallback env it prefs pay today σ res σ' origin start days
    first rest :
  book_itinerary env it prefs pay today σ = (Ok res, σ') →
  origin_city prefs = Some origin →
  start_date prefs = Some (IsoDate start) →
  trip_length_days prefs = Some days →
  it_cities it = Some (first :: rest) →
  let last_city := default first (last (first :: rest)) in
  let fallback src dst wanted position :=
    exact_matches (FLIGHTS_FILE σ) src dst wanted = [] →
    let pool := dated_on_route (FLIGHTS_FILE σ) src dst in
    let options := options_for (FLIGHTS_FILE σ) src dst wanted in
    nearest_five wanted pool options
    ∧ ∃ chosen,
        chosen_flights res !! position = Some chosen
        ∧ cheapest_in_order flight_price options options chosen
        ∧ ∀ near far,
            pool = [near; far] ∨ pool = [far; near] →
            day_distance wanted near = 1 → day_distance wanted far = 3 →
            options = [near; far]
            ∧ chosen
              = if bool_decide (flight_price far < flight_price near) then far
                else near in
  fallback origin first start 0%nat
  ∧ fallback last_city origin (start + days - 1) 1%nat.
Proof.
  intros Hrun Horigin Hstart Hdays Hcities last_city fallback.
  destruct (book_itinerary_flights _ _ _ _ _ _ _ _ _ _ _ _ _ Hrun Horigin Hstart
              Hdays Hcities) as (outbound & returning & Hchosen & Hout & Hback & _).
  subst fallback. cbv beta. split.
  - intros Hnone.
    destruct (fallback_choice _ _ _ _ _ Hnone Hout) as (Hfive & Hcheap & Htwo).
    split; [done|]. exists outbound. by rewrite Hchosen.
  - intros Hnone.
    destruct (fallback_choice _ _ _ _ _ Hnone Hback) as (Hfive & Hcheap & Htwo).
    split; [done|]. exists returning. by rewrite Hchosen.
Qed.

(** The catalog of [Fallback.price_store]: no flight out on the start date,
    one a day later at 700000 and one three days later at 500000; and the
    catalog of [FallbackReturn.store]: no flight back on the end date, one a
    day later at 700000 and one three days earlier at 500000. *)
Lemma nearest_date_fallback_witness :
  ∃ res σ' res2 σ2,
    book_itinerary Sample.env Sample.itinerary Sample.prefs None 0
      Fallback.price_store = (Ok res, σ')
    ∧ nearest_five Sample.day0
        (dated_on_route (FLIGHTS_FILE Fallback.price_store) "Jakarta" "Tokyo")
        (options_for (FLIGHTS_FILE Fallback.price_store) "Jakarta" "Tokyo" Sample.day0)
    ∧ chosen_flights res !! 0%nat = Some Fallback.far_cheap
    ∧ book_itinerary Sample.env Sample.itinerary Sample.prefs None 0
        FallbackReturn.store = (Ok res2, σ2)
    ∧ nearest_five (Sample.day0 + 5 - 1)
        (dated_on_route (FLIGHTS_FILE FallbackReturn.store) "Osaka" "Jakarta")
        (options_for (FLIGHTS_FILE FallbackReturn.store) "Osaka" "Jakarta"
           (Sample.day0 + 5 - 1))
    ∧ chosen_flights res2 !! 1%nat = Some FallbackReturn.far_cheap.
Proof.
  eexists _, _, _, _. split; [vm_compute; reflexivity|].
  match goal with |- context [chosen_flights ?r !! 0%nat] =>
    destruct (nearest_date_fallback Sample.env Sample.itinerary Sample.prefs None 0
                Fallback.price_store r Fallback.price_store "Jakarta" Sample.day0 5
                "Tokyo" ["Osaka"])
      as [Hout _]; [vm_compute; reflexivity|reflexivity..|]
  end.
  destruct (Hout eq_refl) as (Hfive & outbound & Hchosen & _ & Htwo).
  split; [exact Hfive|]. split.
  { rewrite Hchosen. f_equal.
    by destruct (Htwo Fallback.near_dear Fallback.far_cheap (or_introl eq_refl)
                   eq_refl eq_refl) as [_ ->]. }
  split; [vm_compute; reflexivity|].
  match goal with |- context [chosen_flights ?r !! 1%nat] =>
    destruct (nearest_date_fallback Sample.env Sample.itinerary Sample.prefs None 0
                FallbackReturn.store r FallbackReturn.store "Jakarta" Sample.day0 5
                "Tokyo" ["Osaka"])
      as [_ Hback]; [vm_compute; reflexivity|reflexivity..|]
  end.
  destruct (Hback eq_refl) as (Hfive2 & returning & Hchosen2 & _ & Htwo2).
  split; [exact Hfive2|]. rewrite Hchosen2. f_equal.
  by destruct (Htwo2 FallbackReturn.near_dear FallbackReturn.far_cheap
                 (or_introl eq_refl) eq_refl eq_refl) as [_ ->].
Defined.

(** C5 as stated fails: with exactly two candidates, one day away at 700000
    and three days away at 500000, the resolver takes the one three days
    away. *)
Lemma nearest_not_selected_counterexample :
  ∃ res σ' outbound returning,
    book_itinerary Sample.env Sample.itinerary Sample.prefs None 0
      Fallback.price_store = (Ok res, σ')
    ∧ chosen_flights res = [outbound; returning]
    ∧ exact_matches (FLIGHTS_FILE Fallback.price_store) "Jakarta" "Tokyo" Sample.day0
      = []
    ∧ options_for (FLIGHTS_FILE Fallback.price_store) "Jakarta" "Tokyo" Sample.day0
      = [Fallback.near_dear; Fallback.far_cheap]
    ∧ day_distance Sample.day0 Fallback.near_dear = 1
    ∧ day_distance Sample.day0 Fallback.far_cheap = 3
    ∧ outbound = Fallback.far_cheap
    ∧ outbound ≠ Fallback.near_dear.
Proof.
  eexists _, _, _, _. split; [vm_compute; reflexivity|].
  split_and!; [reflexivity..|discriminate].
Qed.

(** * Hotel selection *)

Lemma find_hotels_for_city_matches σ city country tier stay_start stay_end :
  find_hotels_for_city city (Some country) tier stay_start stay_end σ
  = (Ok (hotel_matches σ city country tier stay_start stay_end), σ).
Proof. reflexivity. Qed.

Lemma min_by_hotel_matches σ city country tier stay_start stay_end h :
  min_by hotel_price (hotel_matches σ city country tier stay_start stay_end) = Some h →
  cheapest_in_order hotel_price (HOTELS_FILE σ)
    (hotel_matches σ city country tier stay_start stay_end) h.
Proof.
  unfold hotel_matches. intros (i & Hi & HP & Hall & Hbefore)%min_by_filter.
  exists i. split_and!; [done| | |].
  - apply list_elem_of_filter. split; [done|by eapply list_elem_of_lookup_2].
  - intros x [HPx Hx]%list_elem_of_filter. by apply Hall.
  - intros j x Hj Hx [HPx _]%list_elem_of_filter. by eapply Hbefore.
Qed.

Lemma choose_hotel_direct σ city country style stay_start stay_end :
  hotel_matches σ city country style stay_start stay_end ≠ [] →
  ∃ h, choose_hotel city (Some country) style stay_start stay_end σ = (Ok h, σ)
       ∧ min_by hotel_price (hotel_matches σ city country style stay_start stay_end)
         = Some h.
Proof.
  intros Hsome. unfold choose_hotel, bind at 1.
  rewrite find_hotels_for_city_matches.
  destruct (hotel_matches σ city country style stay_start stay_end)
    as [|h0 hs] eqn:Hm; [done|].
  by eexists.
Qed.

Lemma choose_hotel_downgrade σ city country style lower stay_start stay_end :
  hotel_matches σ city country style stay_start stay_end = [] →
  fallback_style style = Some lower →
  choose_hotel city (Some country) style stay_start stay_end σ
  = match min_by hotel_price (hotel_matches σ city country lower stay_start stay_end)
    with
    | Some h => (Ok h, σ)
    | None => (Raise (BookerErr (NoHotelsAvailable city style)), σ)
    end.
Proof.
  intros Hnone Hlower. unfold choose_hotel, bind at 1.
  rewrite find_hotels_for_city_matches, Hnone. cbn [is_empty]. rewrite Hlower.
  unfold bind. rewrite find_hotels_for_city_matches.
  by destruct (hotel_matches σ city country lower stay_start stay_end).
Qed.

Lemma choose_hotel_no_downgrade σ city country style stay_start stay_end :
  hotel_matches σ city country style stay_start stay_end = [] →
  fallback_style style = None →
  choose_hotel city (Some country) style stay_start stay_end σ
  = (Raise (BookerErr (NoHotelsAvailable city style)), σ).
Proof.
  intros Hnone Hlower. unfold choose_hotel, bind at 1.
  rewrite find_hotels_for_city_matches, Hnone. cbn [is_empty]. by rewrite Hlower.
Qed.

(** Every hotel of the plan was chosen by [choose_hotel] for a city of the
    itinerary. *)
Lemma book_cities_choices country style start npc cities off acc σ hotels σ' :
  book_cities country style start npc cities off acc σ = (Ok hotels, σ') →
  ∃ new, hotels = acc ++ new
    ∧ Forall (λ copy, ∃ city h nights stay_start stay_end,
                city ∈ cities
                ∧ choose_hotel city country style stay_start stay_end σ = (Ok h, σ)
                ∧ copy = hotel_copy h nights stay_start stay_end) new.
Proof.
  revert off acc. induction cities as [|city rest IH]; intros off acc; simpl.
  - intros [= <- _]. exists []. by rewrite app_nil_r.
  - case_bool_decide.
    + intros (new & -> & Hall)%IH. exists new. split; [done|].
      eapply Forall_impl; [done|].
      intros copy (c & h & n & s & e & Hc & Hrest). exists c, h, n, s, e.
      split; [by right|done].
    + unfold bind at 1, lift at 1. destruct (date_add start off) as [s|x]; [|done].
      unfold bind at 1, lift at 1. destruct (date_add s _) as [e|x]; [|done].
      unfold bind at 1.
      destruct (choose_hotel _ _ _ _ _ σ) as [[h|x] σ1] eqn:Hh; [|done].
      pose proof (choose_hotel_state _ _ _ _ _ _ _ _ Hh) as ->.
      intros (new & -> & Hall)%IH. eexists (_ :: new).
      split; [by rewrite <- app_assoc|].
      constructor.
      * eexists city, h, _, s, e. split; [by left|done].
      * eapply Forall_impl; [done|].
        intros copy (c & h' & n & s' & e' & Hc & Hrest). exists c, h', n, s', e'.
        split; [by right|done].
Qed.

(** C6. For a stay in [city] the resolver takes the cheapest hotel (first in
    catalog order) that matches the requested tier; when none matches it
    asks once more, one tier down (luxury to mid-range, mid-range to
    backpacker, nothing below backpacker), and takes the cheapest match of
    that tier; when that also gives nothing, or there is no tier below, it
    raises [NoHotelsAvailable], whose message names the city and the
    requested style.  A luxury request that finds no luxury hotel and one
    mid-range hotel takes that hotel.  In a successful resolution every
    entry of the stay plan was chosen this way. *)
Theorem hotel_downgrade_once σ city country style stay_start stay_end :
  let matches tier := hotel_matches σ city country tier stay_start stay_end in
  let run := choose_hotel city (Some country) style stay_start stay_end σ in
  (fallback_style "luxury" = Some "mid-range"
   ∧ fallback_style "mid-range" = Some "backpacker"
   ∧ fallback_style "backpacker" = None)
  ∧ (matches style ≠ [] →
     ∃ h, run = (Ok h, σ)
          ∧ cheapest_in_order hotel_price (HOTELS_FILE σ) (matches style) h)
  ∧ (matches style = [] → ∀ lower, fallback_style style = Some lower →
     matches lower ≠ [] →
     ∃ h, run = (Ok h, σ)
          ∧ cheapest_in_order hotel_price (HOTELS_FILE σ) (matches lower) h)
  ∧ (matches style = [] →
     (∀ lower, fallback_style style = Some lower → matches lower = []) →
     run = (Raise (BookerErr (NoHotelsAvailable city style)), σ)
     ∧ message (NoHotelsAvailable city style)
       = "No hotels available in " +:+ city +:+ " for style " +:+ style +:+ ".")
  ∧ (style = "luxury" → matches "luxury" = [] →
     ∀ h, matches "mid-range" = [h] → run = (Ok h, σ))
  ∧ (∀ env it prefs pay today res σ',
       book_itinerary env it prefs pay today σ = (Ok res, σ') →
       travel_style prefs = Some style →
       Forall (λ entry, ∃ c h nights s e,
                 c ∈ default [] (it_cities it)
                 ∧ choose_hotel c (it_destination_country it) style s e σ = (Ok h, σ)
                 ∧ entry = stay_plan_entry (hotel_copy h nights s e))
         (stay_plan res)).
Proof.
  intros matches run. split_and!; try done.
  - intros Hsome. destruct (choose_hotel_direct _ _ _ _ _ _ Hsome) as (h & Hrun & Hmin).
    exists h. split; [done|]. by apply min_by_hotel_matches.
  - intros Hnone lower Hlower Hsome. subst run.
    rewrite (choose_hotel_downgrade _ _ _ _ lower) by done.
    destruct (min_by_is_Some hotel_price _ Hsome) as [h Hmin]. fold (matches lower).
    rewrite Hmin. exists h. split; [done|]. by apply min_by_hotel_matches.
  - intros Hnone Hlower. subst run.
    destruct (fallback_style style) as [lower|] eqn:Hfb.
    + rewrite (choose_hotel_downgrade _ _ _ _ lower) by done.
      fold (matches lower). by rewrite (Hlower lower eq_refl).
    + by rewrite choose_hotel_no_downgrade.
  - intros -> Hnone h Hone. subst run.
    rewrite (choose_hotel_downgrade _ _ _ _ "mid-range") by done.
    fold (matches "mid-range"). by rewrite Hone.
  - intros env it prefs pay today res σ' Hrun Hstyle.
    apply book_itinerary_ok in Hrun
      as (origin & style' & budget & days & start & end_ & first & rest & outbound
          & returning & hotels & extra & threshold & Hp & _ & Hc & _ & _ & Hloop
          & _ & _ & _ & _ & -> & _).
    apply read_prefs_ok in Hp as (_ & Hs' & _).
    rewrite Hstyle in Hs'. injection Hs' as <-.
    apply book_cities_choices in Hloop as (new & -> & Hall). simpl app.
    rewrite Hc. apply Forall_fmap. eapply Forall_impl; [done|].
    intros copy (c & h & n & s & e & Hin & Hch & ->). by exists c, h, n, s, e.
Qed.

(** The sample catalog has no luxury hotel in Tokyo and one mid-range hotel. *)
Example luxury_request_takes_mid_range :
  hotel_matches Sample.store "Tokyo" "Japan" "luxury" Sample.day0 (Sample.day0 + 2) = []
  ∧ choose_hotel "Tokyo" (Some "Japan") "luxury" Sample.day0 (Sample.day0 + 2)
      Sample.store
    = (Ok (Sample.hotel "HT-1" "Tokyo" "Japan" "mid-range" 300000 2
             (Sample.day0 - 30) (Sample.day0 + 30)), Sample.store).
Proof. split; vm_compute; reflexivity. Qed.

(** * Records without a price *)

(** In a list of non-negative keys, an element of key 0 is weakly the
    least; [min] takes it when every element before it has a positive key,
    and otherwise takes an element before it. *)
Lemma zero_key_choice {A} (key : A → Z) (candidates : list A) i f :
  candidates !! i = Some f → key f = 0 →
  (∀ x, x ∈ candidates → 0 ≤ key x) →
  (∀ x, x ∈ candidates → key f ≤ key x)
  ∧ ((∀ j x, (j < i)%nat → candidates !! j = Some x → 0 < key x) →
     min_by key candidates = Some f)
  ∧ (∀ j x, (j < i)%nat → candidates !! j = Some x → key x ≤ 0 →
     ∃ j' m, (j' < i)%nat ∧ candidates !! j' = Some m
             ∧ min_by key candidates = Some m).
Proof.
  intros Hi Hzero Hpos. split_and!.
  - intros x Hx. rewrite Hzero. by apply Hpos.
  - intros Hbefore. apply (min_by_unique key candidates i); [done| |].
    + intros x Hx. rewrite Hzero. by apply Hpos.
    + intros j x Hj Hx. rewrite Hzero. by eapply Hbefore.
  - intros j x Hj Hx Hle.
    destruct (min_by_is_Some key candidates) as [m Hm].
    { intros ->. by rewrite lookup_nil in Hi. }
    destruct (min_by_first _ _ _ Hm) as (j' & Hj' & Hall & Hbefore).
    exists j', m. split_and!; [|done..].
    destruct (decide (j' < i)%nat) as [|Hge]; [done|].
    assert (j < j')%nat as Hlt by lia.
    pose proof (Hbefore j x Hlt Hx).
    pose proof (Hpos m (list_elem_of_lookup_2 _ _ _ Hj')). lia.
Qed.

Lemma accommodation_cost_cons h hs :
  accommodation_cost (h :: hs)
  = hotel_price h * default 0 (ht_nights h) + accommodation_cost hs.
Proof. reflexivity. Qed.

(** C10, as the code has it.  A flight without ["base_price_idr"] and a
    hotel without ["price_per_night_idr"] have price 0.  Among candidates
    whose prices are not negative such a record is weakly the cheapest: it
    is selected when every candidate before it in the candidate list has a
    positive price, and a candidate before it is selected otherwise.  It
    adds 0 to the flight total and to the accommodation. *)
Theorem missing_price_is_zero_price :
  (∀ f, fl_base_price_idr f = None → flight_price f = 0)
  ∧ (∀ h, ht_price_per_night_idr h = None → hotel_price h = 0)
  ∧ (∀ (candidates : list Flight) i f,
       candidates !! i = Some f → fl_base_price_idr f = None →
       (∀ x, x ∈ candidates → 0 ≤ flight_price x) →
       (∀ x, x ∈ candidates → flight_price f ≤ flight_price x)
       ∧ ((∀ j x, (j < i)%nat → candidates !! j = Some x → 0 < flight_price x) →
          min_by flight_price candidates = Some f)
       ∧ (∀ j x, (j < i)%nat → candidates !! j = Some x → flight_price x ≤ 0 →
          ∃ j' m, (j' < i)%nat ∧ candidates !! j' = Some m
                  ∧ min_by flight_price candidates = Some m))
  ∧ (∀ (candidates : list Hotel) i h,
       candidates !! i = Some h → ht_price_per_night_idr h = None →
       (∀ x, x ∈ candidates → 0 ≤ hotel_price x) →
       (∀ x, x ∈ candidates → hotel_price h ≤ hotel_price x)
       ∧ ((∀ j x, (j < i)%nat → candidates !! j = Some x → 0 < hotel_price x) →
          min_by hotel_price candidates = Some h)
       ∧ (∀ j x, (j < i)%nat → candidates !! j = Some x → hotel_price x ≤ 0 →
          ∃ j' m, (j' < i)%nat ∧ candidates !! j' = Some m
                  ∧ min_by hotel_price candidates = Some m))
  ∧ (∀ h nights stay_start stay_end hs,
       ht_price_per_night_idr h = None →
       accommodation_cost (hotel_copy h nights stay_start stay_end :: hs)
       = accommodation_cost hs)
  ∧ (∀ env it prefs pay today σ res σ' origin start days first rest i f,
       book_itinerary env it prefs pay today σ = (Ok res, σ') →
       origin_city prefs = Some origin →
       start_date prefs = Some (IsoDate start) →
       trip_length_days prefs = Some days →
       it_cities it = Some (first :: rest) →
       let options := options_for (FLIGHTS_FILE σ) origin first start in
       options !! i = Some f → fl_base_price_idr f = None →
       (∀ x, x ∈ options → 0 ≤ flight_price x) →
       (∀ j x, (j < i)%nat → options !! j = Some x → 0 < flight_price x) →
       ∃ returning,
         chosen_flights res = [f; returning]
         ∧ outbound_flight (cost_breakdown res) = 0
         ∧ total_flights (cost_breakdown res) = flight_price returning).
Proof.
  assert (Hflight : ∀ f, fl_base_price_idr f = None → flight_price f = 0)
    by (intros f Hf; unfold flight_price; by rewrite Hf).
  assert (Hhotel : ∀ h, ht_price_per_night_idr h = None → hotel_price h = 0)
    by (intros h Hh; unfold hotel_price; by rewrite Hh).
  split_and!; [done|done| | | |].
  - intros candidates i f Hi Hf Hpos. apply zero_key_choice; auto.
  - intros candidates i h Hi Hh Hpos. apply zero_key_choice; auto.
  - intros h nights stay_start stay_end hs Hh. rewrite accommodation_cost_cons.
    unfold hotel_price. simpl. rewrite Hh. simpl. lia.
  - intros env it prefs pay today σ res σ' origin start days first rest i f Hrun
      Horigin Hstart Hdays Hcities options Hi Hf Hpos Hbefore.
    destruct (book_itinerary_flights _ _ _ _ _ _ _ _ _ _ _ _ _ Hrun Horigin Hstart
                Hdays Hcities)
      as (outbound & returning & Hchosen & Hout & _ & Hcost & _ & Htotal).
    fold options in Hout.
    destruct (zero_key_choice flight_price options i f Hi (Hflight f Hf) Hpos)
      as (_ & Hsel & _).
    rewrite (Hsel Hbefore) in Hout. injection Hout as <-.
    exists returning. rewrite Hchosen, Hcost, Htotal, (Hflight f Hf).
    split_and!; [done|done|lia].
Qed.

(** C10 as stated fails: in the nearest-date fallback the candidate list is
    not in catalog order.  The flight without a price is the first record of
    the catalog, so no candidate comes before it there, and no candidate has
    a negative price; the resolver still takes the free flight that is a day
    nearer. *)
Lemma unpriced_not_selected_counterexample :
  let catalog := FLIGHTS_FILE Fallback.unpriced_store in
  let options := options_for catalog "Jakarta" "Tokyo" Sample.day0 in
  ∃ res σ' outbound returning,
    book_itinerary Sample.env Sample.itinerary Sample.prefs None 0
      Fallback.unpriced_store = (Ok res, σ')
    ∧ chosen_flights res = [outbound; returning]
    ∧ catalog !! 0%nat = Some Fallback.far_unpriced
    ∧ fl_base_price_idr Fallback.far_unpriced = None
    ∧ Fallback.far_unpriced ∈ options
    ∧ (∀ x, x ∈ options → 0 ≤ flight_price x)
    ∧ (∀ j x, (j < 0)%nat → catalog !! j = Some x → x ∈ options → flight_price x ≤ 0 →
       False)
    ∧ outbound = Fallback.near_free
    ∧ outbound ≠ Fallback.far_unpriced.
Proof.
  intros catalog options. eexists _, _, _, _.
  split; [vm_compute; reflexivity|].
  assert (Hopts : options = [Fallback.near_free; Fallback.far_unpriced])
    by (vm_compute; reflexivity).
  split_and!; [reflexivity..| | | |reflexivity|discriminate].
  - rewrite Hopts. set_solver.
  - rewrite Hopts. intros x Hx.
    apply elem_of_cons in Hx as [->|Hx]; [vm_compute; discriminate|].
    apply elem_of_cons in Hx as [->|Hx]; [vm_compute; discriminate|].
    by apply elem_of_nil in Hx.
  - intros; lia.
Qed.

(** * Binary64 arithmetic of the cost computation *)

Lemma digits2_pos_bounds p :
  2 ^ (Z.pos (digits2_pos p) - 1) ≤ Z.pos p < 2 ^ Z.pos (digits2_pos p).
Proof.
  induction p as [p IH|p IH|]; simpl digits2_pos.
  - rewrite Pos2Z.inj_succ.
    replace (Z.succ (Z.pos (digits2_pos p)) - 1) with (Z.succ (Z.pos (digits2_pos p) - 1))
      by lia.
    rewrite !Z.pow_succ_r by lia. lia.
  - rewrite Pos2Z.inj_succ.
    replace (Z.succ (Z.pos (digits2_pos p)) - 1) with (Z.succ (Z.pos (digits2_pos p) - 1))
      by lia.
    rewrite !Z.pow_succ_r by lia. lia.
  - simpl. lia.
Qed.

Lemma digits2_pos_unique p d :
  2 ^ (d - 1) ≤ Z.pos p < 2 ^ d → Z.pos (digits2_pos p) = d.
Proof.
  intros [Hlo Hhi]. pose proof (digits2_pos_bounds p) as [Hlo' Hhi'].
  set (d' := Z.pos (digits2_pos p)) in *.
  assert (0 < d).
  { destruct (decide (0 < d)) as [|Hn]; [done|]. assert (2 ^ d ≤ 1); [|lia].
    destruct (decide (d = 0)) as [->|]; [simpl; lia|].
    rewrite Z.pow_neg_r by lia. lia. }
  destruct (Z.lt_trichotomy d d') as [Hlt|[->|Hgt]]; [|done|].
  - assert (2 ^ d ≤ 2 ^ (d' - 1)) by (apply Z.pow_le_mono_r; lia). lia.
  - assert (2 ^ d' ≤ 2 ^ (d - 1)) by (apply Z.pow_le_mono_r; lia). lia.
Qed.

Lemma iter_xO p d : Z.pos (Pos.iter xO p d) = Z.pos p * 2 ^ Z.pos d.
Proof.
  induction d as [|d IH] using Pos.peano_ind.
  - simpl. lia.
  - rewrite Pos.iter_succ, Pos2Z.inj_succ, Pos2Z.inj_xO, IH.
    rewrite Z.pow_succ_r; lia.
Qed.

Lemma iter_pos_nat {A} (f : A → A) p x : iter_pos f p x = Nat.iter (Pos.to_nat p) f x.
Proof.
  revert x. induction p as [p IH|p IH|]; intros x; simpl iter_pos.
  - rewrite !IH, Pos2Nat.inj_xI.
    replace (S (2 * Pos.to_nat p)) with (Pos.to_nat p + Pos.to_nat p + 1)%nat by lia.
    by rewrite !Nat.iter_add.
  - rewrite !IH, Pos2Nat.inj_xO.
    replace (2 * Pos.to_nat p)%nat with (Pos.to_nat p + Pos.to_nat p)%nat by lia.
    by rewrite Nat.iter_add.
  - done.
Qed.

Lemma shr_1_nonneg m r s :
  0 ≤ m →
  shr_1 {| shr_m := m; shr_r := r; shr_s := s |}
  = {| shr_m := Z.div2 m; shr_r := Z.odd m; shr_s := r || s |}.
Proof. intros Hm. by destruct m as [|[p|p|]|p]. Qed.

(** Shifting [P] right by [n] bits, with the round and sticky bits of
    [shr_1]: what is left of [P] below the kept bits is [r] halves of the
    last place plus [σ], and the sticky bit says whether [σ] is positive. *)
Lemma shr_iter (P : Z) (n : nat) :
  0 ≤ P →
  ∃ m r s σ,
    Nat.iter n shr_1 {| shr_m := P; shr_r := false; shr_s := false |}
    = {| shr_m := m; shr_r := r; shr_s := s |}
    ∧ 0 ≤ m ∧ 0 ≤ σ ∧ 2 * σ < 2 ^ Z.of_nat n
    ∧ 2 * P = 2 * m * 2 ^ Z.of_nat n + (if r then 2 ^ Z.of_nat n else 0) + 2 * σ
    ∧ (s = true ↔ 0 < σ).
Proof.
  intros HP. induction n as [|n IH].
  - exists P, false, false, 0. simpl. split_and!; try done; try lia.
  - destruct IH as (m & r & s & σ & Hiter & Hm & Hσ & Hlt & Heq & Hs).
    rewrite Nat.iter_succ, Hiter, shr_1_nonneg by done.
    rewrite Nat2Z.inj_succ, Z.pow_succ_r by lia.
    set (T := 2 ^ Z.of_nat n) in *.
    assert (0 < T) by (apply Z.pow_pos_nonneg; lia).
    pose proof (Z.div2_odd m) as Hodd.
    assert (Hhalf : r = true → ∃ h, T = 2 * h ∧ 0 < h).
    { intros ->. destruct n as [|n'].
      - subst T. simpl in *. lia.
      - exists (2 ^ Z.of_nat n'). subst T.
        rewrite Nat2Z.inj_succ, Z.pow_succ_r by lia.
        split; [done|]. apply Z.pow_pos_nonneg; lia. }
    destruct r.
    + destruct (Hhalf eq_refl) as (h & Hh & Hhpos).
      exists (Z.div2 m), (Z.odd m), true, (h + σ).
      split_and!; [done| | | | |].
      * apply Z.div2_nonneg. lia.
      * lia.
      * lia.
      * destruct (Z.odd m); simpl in Hodd; lia.
      * split; [lia|done].
    + exists (Z.div2 m), (Z.odd m), s, σ.
      split_and!; [done| | | | |done].
      * apply Z.div2_nonneg. lia.
      * lia.
      * lia.
      * destruct (Z.odd m); simpl in Hodd; lia.
Qed.

Lemma fexp_normal e : -1074 ≤ e - 53 → fexp prec emax e = e - 53.
Proof. intros He. unfold fexp, emin, prec, emax. lia. Qed.

(** Rounding a product mantissa [P] of [n + 53] bits to 53 bits: the result
    is [M] units of [2 ^ (E + n)] with [M] within half a unit of
    [P / 2 ^ n]. *)
Lemma binary_round_aux_nearest (P n : positive) (E : Z) :
  Z.pos (digits2_pos P) = Z.pos n + 53 →
  -1074 ≤ Z.pos n + E → E + Z.pos n + 1 ≤ 971 →
  ∃ M : Z,
    2 ^ 52 ≤ M ≤ 2 ^ 53
    ∧ 2 * M * 2 ^ Z.pos n ≤ 2 * Z.pos P + 2 ^ Z.pos n
    ∧ 2 * Z.pos P ≤ 2 * M * 2 ^ Z.pos n + 2 ^ Z.pos n
    ∧ ∃ m e,
        binary_round_aux prec emax false (Z.pos P) E loc_Exact = S754_finite false m e
        ∧ ((e = E + Z.pos n ∧ Z.pos m = M) ∨ (e = E + Z.pos n + 1 ∧ 2 * Z.pos m = M)).
Proof.
  intros Hd Hlo Hhi.
  pose proof (digits2_pos_bounds P) as [HPlo HPhi]. rewrite Hd in HPlo, HPhi.
  replace (Z.pos n + 53 - 1) with (52 + Z.pos n) in HPlo by lia.
  replace (Z.pos n + 53) with (53 + Z.pos n) in HPhi by lia.
  rewrite Z.pow_add_r in HPlo, HPhi by lia.
  destruct (shr_iter (Z.pos P) (Pos.to_nat n) ltac:(lia))
    as (m & r & s & σ & Hiter & Hm & Hσ & Hlt & Heq & Hs).
  rewrite positive_nat_Z in Hlt, Heq.
  set (T := 2 ^ Z.pos n) in *.
  assert (HT : 0 < T) by (apply Z.pow_pos_nonneg; lia).
  assert (HPm : m * T ≤ Z.pos P < (m + 1) * T) by (destruct r; lia).
  assert (Hmlo : 2 ^ 52 ≤ m).
  { apply Z.lt_succ_r. apply (Z.mul_lt_mono_pos_r T); [done|]. lia. }
  assert (Hmhi : m < 2 ^ 53).
  { apply (Z.mul_lt_mono_pos_r T); [done|]. lia. }
  unfold binary_round_aux, shr_fexp at 1.
  cbn [Zdigits2 shr_record_of_loc]. rewrite Hd.
  rewrite fexp_normal by lia.
  replace (Z.pos n + 53 + E - 53 - E) with (Z.pos n) by lia.
  cbn [shr]. rewrite iter_pos_nat, Hiter. cbn [shr_m].
  set (M := round_nearest_even m
              (loc_of_shr_record {| shr_m := m; shr_r := r; shr_s := s |})).
  assert (HM : (M = m ∨ M = m + 1)
               ∧ 2 * M * T ≤ 2 * Z.pos P + T ∧ 2 * Z.pos P ≤ 2 * M * T + T).
  { subst M. destruct r, s; cbn [loc_of_shr_record round_nearest_even].
    - assert (0 < σ) by (by apply Hs). split; [by right|]. nia.
    - assert (¬ 0 < σ) by (intros ?%Hs; done).
      destruct (Z.even m); (split; [auto|]); nia.
    - assert (0 < σ) by (by apply Hs). split; [by left|]. nia.
    - assert (¬ 0 < σ) by (intros ?%Hs; done). split; [by left|]. nia. }
  destruct HM as (HMm & HMlo & HMhi).
  exists M. split; [lia|]. split; [done|]. split; [done|].
  destruct (decide (M = 2 ^ 53)) as [HMtop|HMtop].
  - (* the rounding carried: one more shift *)
    rewrite HMtop. unfold shr_fexp.
    change (Zdigits2 (2 ^ 53)) with 54.
    rewrite fexp_normal by lia.
    replace (54 + (E + Z.pos n) - 53 - (E + Z.pos n)) with 1 by lia.
    cbn.
    match goal with |- context [Z.leb ?a ?b] =>
      destruct (Z.leb_spec a b) as [_|Hbad]; [|unfold emax, prec in Hbad; lia]
    end.
    eexists _, _. split; [reflexivity|]. right. split; [lia|reflexivity].
  - assert (HMpos : 0 < M) by lia.
    destruct M as [|pM|pM]; [lia| |lia].
    unfold shr_fexp. cbn [Zdigits2 shr_record_of_loc].
    rewrite (digits2_pos_unique pM 53) by (simpl; lia).
    rewrite fexp_normal by lia.
    replace (53 + (E + Z.pos n) - 53 - (E + Z.pos n)) with 0 by lia.
    cbn [shr shr_m].
    match goal with |- context [Z.leb ?a ?b] =>
      destruct (Z.leb_spec a b) as [_|Hbad]; [|unfold emax, prec in Hbad; lia]
    end.
    eexists _, _. split; [reflexivity|]. by left.
Qed.

Lemma binary_round_aux_exact (m : positive) (e : Z) :
  Z.pos (digits2_pos m) = 53 → -1074 ≤ e ≤ 971 →
  binary_round_aux prec emax false (Z.pos m) e loc_Exact = S754_finite false m e.
Proof.
  intros Hd He. unfold binary_round_aux, shr_fexp.
  cbn [Zdigits2 shr_record_of_loc]. rewrite Hd, fexp_normal by lia.
  replace (53 + e - 53 - e) with 0 by lia.
  cbn [shr shr_m loc_of_shr_record round_nearest_even Zdigits2].
  rewrite Hd, fexp_normal by lia.
  replace (53 + e - 53 - e) with 0 by lia. cbn [shr shr_m].
  destruct (Z.leb_spec e (emax - prec)) as [_|Hbad];
    [done|unfold emax, prec in Hbad; lia].
Qed.

(** [float(x)] is exact for a positive [x] of at most 53 bits: the mantissa
    is [x] shifted up to 53 bits. *)
Lemma float_of_int_exact (x : positive) :
  Z.pos x < 2 ^ 53 →
  ∃ (mx : positive) (t : Z),
    0 ≤ t ≤ 52 ∧ Z.pos mx = Z.pos x * 2 ^ t
    ∧ 2 ^ 52 ≤ Z.pos mx < 2 ^ 53
    ∧ float_of_int (Z.pos x) = Ok (S754_finite false mx (- t)).
Proof.
  intros Hx. pose proof (digits2_pos_bounds x) as [Hlo Hhi].
  set (dx := Z.pos (digits2_pos x)) in *.
  assert (Hdx : 1 ≤ dx ≤ 53).
  { split; [subst dx; lia|].
    destruct (decide (dx ≤ 53)) as [|Hbig]; [done|].
    assert (2 ^ 53 ≤ 2 ^ (dx - 1)) by (apply Z.pow_le_mono_r; lia). lia. }
  unfold float_of_int, binary_normalize, binary_round, shl_align.
  fold dx. rewrite fexp_normal by lia.
  destruct (decide (dx = 53)) as [Hfull|Hpart].
  - replace (dx + 0 - 53 - 0) with 0 by lia.
    rewrite binary_round_aux_exact by (fold dx; lia).
    exists x, 0. split_and!; [lia|lia|lia|..].
    + rewrite Hfull in Hlo. simpl in Hlo. lia.
    + lia.
    + done.
  - assert (Hneg : dx + 0 - 53 - 0 = Z.neg (Z.to_pos (53 - dx))).
    { rewrite <- Pos2Z.opp_pos, Z2Pos.id; lia. }
    rewrite Hneg. set (t := 53 - dx).
    assert (Ht : Z.pos (Z.to_pos t) = t) by (apply Z2Pos.id; lia).
    assert (Hmz : Z.pos (Pos.iter xO x (Z.to_pos t)) = Z.pos x * 2 ^ t)
      by (by rewrite iter_xO, Ht).
    assert (Hpow : 2 ^ 53 = 2 ^ dx * 2 ^ t ∧ 2 ^ 52 = 2 ^ (dx - 1) * 2 ^ t).
    { rewrite <- !Z.pow_add_r by lia. split; f_equal; lia. }
    assert (0 < 2 ^ t) by (apply Z.pow_pos_nonneg; lia).
    assert (Hrange : 2 ^ 52 ≤ Z.pos (Pos.iter xO x (Z.to_pos t)) < 2 ^ 53).
    { rewrite Hmz. destruct Hpow as [-> ->]. split.
      - apply Z.mul_le_mono_nonneg_r; lia.
      - apply Z.mul_lt_mono_pos_r; lia. }
    rewrite binary_round_aux_exact.
    + exists (Pos.iter xO x (Z.to_pos t)), t.
      split_and!; [lia|lia|done|lia|lia|].
      do 2 f_equal. lia.
    + apply digits2_pos_unique. simpl. lia.
    + lia.
Qed.

(** [int(x * c)] for [c = mc * 2 ^ -s]: it is [k] as soon as the exact
    product lies between [k] and [k + 1] with a margin of one rounding
    error on either side. *)
Lemma int_mul_float_sandwich (x k : Z) (mc : positive) (s : Z) :
  0 < x → x < 2 ^ 53 → x < 2 ^ s → 1 ≤ s ≤ 900 →
  2 ^ 52 ≤ Z.pos mc < 2 ^ 53 →
  k * 2 ^ s * 2 ^ 54 ≤ x * Z.pos mc * (2 ^ 54 + 1) →
  x * Z.pos mc * (2 ^ 53 + 1) < (k + 1) * 2 ^ s * 2 ^ 53 →
  int_mul_float x (S754_finite false mc (- s)) = Ok k.
Proof.
  intros Hx0 Hx53 Hxs Hs Hmc HL HU.
  destruct x as [|px|px]; [lia| |lia].
  destruct (float_of_int_exact px Hx53) as (mx & t & Ht & Hmx & Hmxr & Hfloat).
  unfold int_mul_float. rewrite Hfloat. cbn [rbind SFmul xorb].
  set (P := (mx * mc)%positive).
  assert (HP : Z.pos P = Z.pos px * Z.pos mc * 2 ^ t)
    by (subst P; rewrite Pos2Z.inj_mul, Hmx; lia).
  assert (HPr : 2 ^ 104 ≤ Z.pos P < 2 ^ 106).
  { subst P. rewrite Pos2Z.inj_mul.
    change (2 ^ 104) with (2 ^ 52 * 2 ^ 52). change (2 ^ 106) with (2 ^ 53 * 2 ^ 53).
    split; [apply Z.mul_le_mono_nonneg; lia|apply Z.mul_lt_mono_nonneg; lia]. }
  pose proof (digits2_pos_bounds P) as [Hdlo Hdhi].
  set (d := Z.pos (digits2_pos P)) in *.
  assert (Hd : 105 ≤ d ≤ 106).
  { split.
    - destruct (decide (105 ≤ d)) as [|Hsmall]; [done|].
      assert (2 ^ d ≤ 2 ^ 104) by (apply Z.pow_le_mono_r; lia). lia.
    - destruct (decide (d ≤ 106)) as [|Hbig]; [done|].
      assert (2 ^ 106 ≤ 2 ^ (d - 1)) by (apply Z.pow_le_mono_r; lia). lia. }
  set (n := Z.to_pos (d - 53)).
  assert (Hn : Z.pos n = d - 53) by (apply Z2Pos.id; lia).
  (* the digits of [x], through [t], bound the final exponent *)
  assert (Hts : d - 53 ≤ t + s).
  { assert (Hxt : Z.pos px * 2 ^ t < 2 ^ s * 2 ^ t)
      by (apply Z.mul_lt_mono_pos_r; [apply Z.pow_pos_nonneg|]; lia).
    rewrite <- Hmx, <- Z.pow_add_r in Hxt by lia.
    destruct (decide (53 ≤ s + t)) as [|Hsmall]; [lia|].
    assert (2 ^ (s + t) ≤ 2 ^ 52) by (apply Z.pow_le_mono_r; lia). lia. }
  destruct (binary_round_aux_nearest P n (- t + - s))
    as (M & HMr & HMlo & HMhi & m & e & Hround & Hme); [fold d; lia|lia|lia|].
  rewrite Hround. cbn [int_of_float].
  set (q := t + s - Z.pos n).
  assert (Hq : 0 ≤ q) by (subst q; lia).
  set (T := 2 ^ Z.pos n) in *. set (Q := 2 ^ q). set (S := 2 ^ s) in *.
  set (U := 2 ^ t) in *.
  assert (HT : 0 < T) by (apply Z.pow_pos_nonneg; lia).
  assert (HQ : 0 < Q) by (apply Z.pow_pos_nonneg; lia).
  assert (HU' : 0 < U) by (apply Z.pow_pos_nonneg; lia).
  assert (HQT : Q * T = S * U).
  { subst Q T S U. rewrite <- !Z.pow_add_r by lia. f_equal. subst q. lia. }
  assert (HPT : 2 ^ 52 * T ≤ Z.pos P < 2 ^ 53 * T).
  { subst T. rewrite <- !Z.pow_add_r by lia.
    replace (52 + Z.pos n) with (d - 1) by lia.
    by replace (53 + Z.pos n) with d by lia. }
  (* the two hypotheses, scaled to the product mantissa *)
  assert (HL' : k * (Q * T) * 2 ^ 54 ≤ Z.pos P * (2 ^ 54 + 1)).
  { rewrite HQT, HP.
    replace (k * (S * U) * 2 ^ 54) with (k * S * 2 ^ 54 * U) by ring.
    replace (Z.pos px * Z.pos mc * U * (2 ^ 54 + 1))
      with (Z.pos px * Z.pos mc * (2 ^ 54 + 1) * U) by ring.
    apply Z.mul_le_mono_nonneg_r; lia. }
  assert (HU'' : Z.pos P * (2 ^ 53 + 1) < (k + 1) * (Q * T) * 2 ^ 53).
  { rewrite HQT, HP.
    replace ((k + 1) * (S * U) * 2 ^ 53) with ((k + 1) * S * 2 ^ 53 * U) by ring.
    replace (Z.pos px * Z.pos mc * U * (2 ^ 53 + 1))
      with (Z.pos px * Z.pos mc * (2 ^ 53 + 1) * U) by ring.
    apply Z.mul_lt_mono_pos_r; lia. }
  assert (HkM : k * Q ≤ M).
  { destruct (decide (k * Q ≤ M)) as [|Hbad]; [done|]. exfalso.
    assert (M * T ≤ (k * Q - 1) * T) by (apply Z.mul_le_mono_nonneg_r; lia).
    lia. }
  assert (HMk : M < (k + 1) * Q).
  { destruct (decide (M < (k + 1) * Q)) as [|Hbad]; [done|]. exfalso.
    assert ((k + 1) * Q * T ≤ M * T) by (apply Z.mul_le_mono_nonneg_r; lia).
    lia. }
  assert (Hk : 0 ≤ k).
  { destruct (decide (0 ≤ k)) as [|Hneg]; [done|]. exfalso.
    assert ((k + 1) * Q ≤ 0 * Q) by (apply Z.mul_le_mono_nonneg_r; lia). lia. }
  f_equal.
  destruct Hme as [[-> HmM]|[-> HmM]].
  - replace (- t + - s + Z.pos n) with (- q) by (subst q; lia).
    case_bool_decide as Hsign.
    + assert (q = 0) as Hq0 by lia. rewrite Hq0. subst Q. rewrite Hq0 in *.
      simpl in *. lia.
    + rewrite Z.opp_involutive, HmM. fold Q.
      assert (k ≤ M `div` Q) by (apply Z.div_le_lower_bound; lia).
      assert (M `div` Q < k + 1) by (apply Z.div_lt_upper_bound; lia). lia.
  - replace (- t + - s + Z.pos n + 1) with (1 - q) by (subst q; lia).
    case_bool_decide as Hsign.
    + destruct (decide (q = 0)) as [Hq0|Hq0].
      * subst Q. rewrite Hq0 in *. simpl in *. lia.
      * assert (q = 1) as Hq1 by lia. subst Q. rewrite Hq1 in *. simpl in *. lia.
    + replace (- (1 - q)) with (q - 1) by lia.
      assert (HQ2 : Q = 2 * 2 ^ (q - 1)).
      { subst Q. rewrite <- Z.pow_succ_r by lia. f_equal. lia. }
      set (Q' := 2 ^ (q - 1)) in *.
      assert (0 < Q') by (apply Z.pow_pos_nonneg; lia).
      assert (k ≤ Z.pos m `div` Q') by (apply Z.div_le_lower_bound; lia).
      assert (Z.pos m `div` Q' < k + 1) by (apply Z.div_lt_upper_bound; lia). lia.
Qed.

(** Below [2 ^ 52] the buffer is the exact fifth, rounded down. *)
Lemma int_mul_float_0_2 x :
  0 ≤ x < 2 ^ 52 → int_mul_float x float_0_2 = Ok (floor_times x 2 10).
Proof.
  intros Hx. unfold floor_times.
  destruct (decide (x = 0)) as [->|Hnz]; [reflexivity|].
  pose proof (Z.div_mod (x * 2) 10 ltac:(lia)) as Hdiv.
  pose proof (Z.mod_pos_bound (x * 2) 10 ltac:(lia)) as Hmod.
  set (k := x * 2 `div` 10) in *. set (r := (x * 2) `mod` 10) in *.
  apply (int_mul_float_sandwich x _ 7205759403792794 55); lia.
Qed.

(** Below [2 ^ 51] the budget threshold is the exact six fifths, rounded
    down. *)
Lemma int_mul_float_1_2 x :
  0 ≤ x < 2 ^ 51 → int_mul_float x float_1_2 = Ok (floor_times x 12 10).
Proof.
  intros Hx. unfold floor_times.
  destruct (decide (x = 0)) as [->|Hnz]; [reflexivity|].
  pose proof (Z.div_mod (x * 12) 10 ltac:(lia)) as Hdiv.
  pose proof (Z.mod_pos_bound (x * 12) 10 ltac:(lia)) as Hmod.
  set (k := x * 12 `div` 10) in *. set (r := (x * 12) `mod` 10) in *.
  apply (int_mul_float_sandwich x _ 5404319552844595 52); lia.
Qed.

(** * The cost breakdown *)

Lemma stays_cost_stay_of hotels :
  stays_cost (stay_of <$> hotels) = accommodation_cost hotels.
Proof.
  unfold stays_cost, accommodation_cost.
  induction hotels as [|h hotels IH]; [done|].
  rewrite !fmap_cons. cbn [foldr]. by rewrite IH.
Qed.

(** C3, as the code has it.  In a successful resolution the flight total is
    the sum of the two base prices, the accommodation is the sum over the
    stays of price per night times nights, and the grand total is flights
    plus accommodation plus buffer.  The buffer is [int(base_cost * 0.2)]
    in binary64 arithmetic, which is [floor(base_cost * 0.2)] when
    [0 <= base_cost < 2^52]; the warning is raised exactly when the grand
    total exceeds [int(budget * 1.2)] in binary64 arithmetic, which is
    [floor(budget * 1.2)] when [0 <= budget < 2^51]: a grand total of
    1,500,000 warns against a budget of 1,000,000 and does not against
    1,300,000. *)
Theorem cost_breakdown_exact env it prefs pay today σ res σ' budget :
  book_itinerary env it prefs pay today σ = (Ok res, σ') →
  budget_idr prefs = Some budget →
  let cb := cost_breakdown res in
  let base_cost := total_flights cb + accommodation cb in
  (∃ outbound returning,
     chosen_flights res = [outbound; returning]
     ∧ total_flights cb = flight_price outbound + flight_price returning)
  ∧ accommodation cb = stays_cost (chosen_stays res)
  ∧ grand_total cb
    = total_flights cb + accommodation cb + buffer_activities_transport cb
  ∧ total_price_idr res = grand_total cb
  ∧ int_mul_float base_cost float_0_2 = Ok (buffer_activities_transport cb)
  ∧ (∃ threshold,
       int_mul_float budget float_1_2 = Ok threshold
       ∧ budget_warning res = bool_decide (grand_total cb > threshold)
       ∧ (budget_warning res = true ↔ grand_total cb > threshold))
  ∧ (0 ≤ base_cost < 2 ^ 52 →
     buffer_activities_transport cb = floor_times base_cost 2 10)
  ∧ (0 ≤ budget < 2 ^ 51 →
     budget_warning res = bool_decide (grand_total cb > floor_times budget 12 10))
  ∧ (budget = 1000000 → grand_total cb = 1500000 → budget_warning res = true)
  ∧ (budget = 1300000 → grand_total cb = 1500000 → budget_warning res = false).
Proof.
  intros Hrun Hbudget cb base_cost.
  apply book_itinerary_ok in Hrun
    as (origin & style & budget' & days & start & end_ & first & rest & outbound
        & returning & hotels & extra & threshold & Hp & _ & _ & _ & _ & _
        & Hextra & Hthreshold & Htotal & Hwarn & _ & Hcost & Hcommit).
  apply read_prefs_ok in Hp as (_ & _ & Hb' & _).
  rewrite Hbudget in Hb'. injection Hb' as <-.
  subst cb base_cost. rewrite Hcost, Htotal, Hwarn.
  cbn [total_flights accommodation grand_total buffer_activities_transport].
  assert (Hsel : chosen_flights res = [outbound; returning]
                 ∧ chosen_stays res = stay_of <$> hotels).
  { unfold chosen_flights, chosen_stays.
    destruct Hcommit
      as [(_ & _ & -> & -> & _)|(info & record & _ & _ & _ & -> & -> & -> & Hcb)];
      [done|].
    rewrite create_booking_run in Hcb. by injection Hcb as <- _. }
  destruct Hsel as [Hflights Hstays].
  assert (Hwarns : ∀ b, 0 ≤ b < 2 ^ 51 → budget = b →
            threshold = floor_times b 12 10).
  { intros b Hb ->. rewrite int_mul_float_1_2 in Hthreshold by done.
    by injection Hthreshold as <-. }
  split_and!.
  - by exists outbound, returning.
  - by rewrite Hstays, stays_cost_stay_of.
  - lia.
  - done.
  - done.
  - exists threshold. split_and!; [done..|].
    by rewrite bool_decide_eq_true.
  - intros Hbase. rewrite int_mul_float_0_2 in Hextra by done.
    by injection Hextra as <-.
  - intros Hb. by rewrite (Hwarns budget Hb eq_refl).
  - intros Hb Hg. rewrite Hg, (Hwarns 1000000) by (done || lia).
    by apply bool_decide_eq_true_2.
  - intros Hb Hg. rewrite Hg, (Hwarns 1300000) by (done || lia).
    by apply bool_decide_eq_false_2.
Qed.

(** The sample trip: flights 1,100,000, hotels 1,300,000, buffer 480,000,
    against a budget of 5,000,000 and its threshold of 6,000,000. *)
Lemma cost_breakdown_exact_witness :
  ∃ res σ',
    book_itinerary Sample.env Sample.itinerary Sample.prefs None 0 Sample.store
    = (Ok res, σ')
    ∧ total_flights (cost_breakdown res) = 1100000
    ∧ accommodation (cost_breakdown res) = stays_cost (chosen_stays res)
    ∧ buffer_activities_transport (cost_breakdown res) = floor_times 2400000 2 10
    ∧ grand_total (cost_breakdown res) = 2880000
    ∧ budget_warning res = bool_decide (2880000 > floor_times 5000000 12 10)
    ∧ ∃ threshold,
        int_mul_float 5000000 float_1_2 = Ok threshold
        ∧ budget_warning res
          = bool_decide (grand_total (cost_breakdown res) > threshold)
        ∧ (budget_warning res = true ↔ grand_total (cost_breakdown res) > threshold).
Proof.
  eexists _, _. split; [vm_compute; reflexivity|].
  match goal with |- context [cost_breakdown ?r] =>
    destruct (cost_breakdown_exact Sample.env Sample.itinerary Sample.prefs None 0
                Sample.store r Sample.store 5000000)
      as (_ & Hacc & _ & _ & _ & Hgeneral & Hbuffer & Hwarn & _);
      [vm_compute; reflexivity|reflexivity|]
  end.
  split_and!; [reflexivity|exact Hacc| |reflexivity| |exact Hgeneral].
  - apply Hbuffer. vm_compute. split; [discriminate|reflexivity].
  - apply Hwarn. vm_compute. split; [discriminate|reflexivity].
Defined.

(** C3 as stated fails for large amounts: with flights and hotels adding up
    to 45035996273704965 the buffer the code computes is one more than
    [floor(base_cost * 0.2)]; and with a budget of 9007199254740993 the
    threshold the code computes is one less than [floor(budget * 1.2)], so
    that a grand total equal to that floor raises the warning. *)
Lemma buffer_not_floor_counterexample :
  (∃ res σ',
     book_itinerary Sample.env Sample.itinerary Sample.prefs None 0 Large.store
     = (Ok res, σ')
     ∧ total_flights (cost_breakdown res) + accommodation (cost_breakdown res)
       = 45035996273704965
     ∧ buffer_activities_transport (cost_breakdown res) = 9007199254740994
     ∧ floor_times 45035996273704965 2 10 = 9007199254740993
     ∧ buffer_activities_transport (cost_breakdown res)
       ≠ floor_times
           (total_flights (cost_breakdown res) + accommodation (cost_breakdown res))
           2 10)
  ∧ (∃ res σ',
       book_itinerary Sample.env Sample.itinerary LargeBudget.prefs None 0
         LargeBudget.store = (Ok res, σ')
       ∧ grand_total (cost_breakdown res) = 10808639105689191
       ∧ int_mul_float 9007199254740993 float_1_2 = Ok 10808639105689190
       ∧ floor_times 9007199254740993 12 10 = 10808639105689191
       ∧ budget_warning res = true
       ∧ budget_warning res
         ≠ bool_decide (grand_total (cost_breakdown res)
                        > floor_times 9007199254740993 12 10)).
Proof.
  split.
  - eexists _, _. split; [vm_compute; reflexivity|].
    split_and!; [reflexivity..|]. vm_compute. discriminate.
  - eexists _, _. split; [vm_compute; reflexivity|].
    split_and!; [reflexivity| vm_compute; reflexivity|reflexivity|reflexivity|].
    vm_compute. discriminate.
Qed.

(** * The sample trip, committed

    The booking takes the id [BK-0001], one seat of [FL-2] and [FL-3] and one
    room of [HT-1] and [HT-2]; [FL-1] and [HT-3] keep what they had. *)
Example sample_commit :
  ∃ res σ' record,
    book_itinerary Sample.env Sample.itinerary Sample.prefs (Some Sample.payment) 0
      Sample.store = (Ok res, σ')
    ∧ status res = booked
    ∧ booking_record res = Some record
    ∧ BOOKINGS_FILE σ' = [record]
    ∧ bk_booking_id record = "BK-0001"
    ∧ bk_cities record = ["Tokyo"; "Osaka"]
    ∧ bk_start_date record = isoformat Sample.day0
    ∧ bk_end_date record = isoformat (Sample.day0 + 4)
    ∧ bk_total_price_idr record = 2880000
    ∧ seats <$> FLIGHTS_FILE σ' = [3; 1; 0]
    ∧ rooms <$> HOTELS_FILE σ' = [1; 0; 5].
Proof.
  eexists _, _, _. split; [vm_compute; reflexivity|].
  split_and!; reflexivity.
Qed.

(** * The allocator on arbitrary lists *)

Lemma last_occurrence (l : list string) x :
  x ∈ l → ∃ i, l !! i = Some x ∧ ∀ j, (i < j)%nat → l !! j ≠ Some x.
Proof.
  induction l as [|y l IH]; intros Hin; [by apply elem_of_nil in Hin|].
  destruct (decide (x ∈ l)) as [Hl|Hl].
  - destruct (IH Hl) as (i & Hi & Hlast). exists (S i). split; [done|].
    intros [|j] Hj; [lia|]. simpl. apply Hlast. lia.
  - apply elem_of_cons in Hin as [->|Hin]; [|done]. exists 0%nat. split; [done|].
    intros [|j] Hj; [lia|]. simpl. intros Hx. apply Hl.
    by eapply list_elem_of_lookup_2.
Qed.

Lemma assign_nights_last base remainder (cities : list string) idx
    (m : gmap string Z) i city :
  cities !! i = Some city → (∀ j, (i < j)%nat → cities !! j ≠ Some city) →
  assign_nights base remainder idx cities m !! city
  = Some (base + (if bool_decide (idx + Z.of_nat i < remainder) then 1 else 0)).
Proof.
  revert idx m i. induction cities as [|c rest IH]; intros idx m i Hi Hlast; [done|].
  destruct i as [|i]; simpl in *.
  - injection Hi as ->. rewrite assign_nights_other.
    + rewrite lookup_insert_eq. by rewrite Z.add_0_r.
    + intros [j Hj]%list_elem_of_lookup_1. by apply (Hlast (S j)); [lia|].
  - rewrite (IH _ _ i); [|done|].
    + by replace (idx + 1 + Z.of_nat i) with (idx + Z.of_nat (S i)) by lia.
    + intros j Hj. apply (Hlast (S j)). lia.
Qed.

Lemma sum_values_insert_le (m : gmap string Z) k v :
  (∀ k' w, m !! k' = Some w → 0 ≤ w) →
  sum_values (<[k := v]> m) ≤ v + sum_values m.
Proof.
  intros Hpos. destruct (m !! k) as [w|] eqn:Hk.
  - rewrite <- (insert_delete_id m k w) at 2 by done.
    rewrite <- insert_delete_eq.
    rewrite !sum_values_insert by apply lookup_delete_eq.
    specialize (Hpos k w Hk). lia.
  - rewrite sum_values_insert by done. lia.
Qed.

Lemma assign_nights_sum_le base remainder (cities : list string) idx
    (m : gmap string Z) :
  0 ≤ base → (∀ k w, m !! k = Some w → 0 ≤ w) →
  sum_values (assign_nights base remainder idx cities m)
  ≤ sum_values m + Z.of_nat (length cities) * base
    + Z.max 0 (Z.min (remainder - idx) (Z.of_nat (length cities))).
Proof.
  intros Hbase. revert idx m.
  induction cities as [|c rest IH]; intros idx m Hpos; simpl; [lia|].
  etrans; [apply IH|].
  - intros k w. destruct (decide (k = c)) as [->|Hne].
    + rewrite lookup_insert_eq. intros [= <-]. case_bool_decide; lia.
    + rewrite lookup_insert_ne by done. apply Hpos.
  - pose proof (sum_values_insert_le m c
                  (base + (if bool_decide (idx < remainder) then 1 else 0)) Hpos).
    case_bool_decide; lia.
Qed.

Lemma split_nights_last (cities : list string) total_days i city :
  cities !! i = Some city → (∀ j, (i < j)%nat → cities !! j ≠ Some city) →
  _split_nights_across_cities cities total_days !! city
  = Some (share total_days (length cities) i).
Proof.
  intros Hi Hl. unfold _split_nights_across_cities.
  destruct cities as [|c0 rest]; [done|].
  rewrite (assign_nights_last _ _ _ _ _ i) by done.
  unfold share. by rewrite Z.add_0_l.
Qed.

Lemma split_nights_dom (cities : list string) total_days :
  dom (_split_nights_across_cities cities total_days) = list_to_set cities.
Proof.
  unfold _split_nights_across_cities. destruct cities as [|c0 rest]; [set_solver|].
  rewrite assign_nights_dom. set_solver.
Qed.

(** Every value of the table is the share of the last position of its
    city. *)
Lemma split_nights_value (cities : list string) total_days city :
  city ∈ cities →
  ∃ i, cities !! i = Some city
       ∧ (∀ j, (i < j)%nat → cities !! j ≠ Some city)
       ∧ _split_nights_across_cities cities total_days !! city
         = Some (share total_days (length cities) i).
Proof.
  intros Hin. destruct (last_occurrence _ _ Hin) as (i & Hi & Hl). exists i.
  split_and!; [done..|]. by apply split_nights_last.
Qed.

Lemma split_nights_sum_le (cities : list string) total_days :
  0 ≤ total_days → sum_values (_split_nights_across_cities cities total_days) ≤ total_days.
Proof.
  intros Hd. unfold _split_nights_across_cities. destruct cities as [|c0 rest]; [done|].
  set (cities := c0 :: rest) in *.
  assert (Hn : 0 < Z.of_nat (length cities)) by (simpl; lia).
  etrans; [apply assign_nights_sum_le|].
  - apply Z.div_pos; lia.
  - by intros k w Hk.
  - pose proof (Z.mod_pos_bound total_days _ Hn).
    pose proof (Z.div_mod total_days (Z.of_nat (length cities))).
    unfold sum_values at 1. rewrite map_fold_empty. lia.
Qed.

(** X1. The allocator on any list of cities, repeated or not: the keys of
    the table are the cities; a city holds the share of the position where
    it occurs last, so an earlier visit of a repeated city loses its own
    share; no other value occurs; for a trip length that is not negative the
    values add up to at most the trip length; the empty list gives the empty
    table. *)
Theorem split_nights_repeated_cities (cities : list string) (total_days : Z) :
  let nights := _split_nights_across_cities cities total_days in
  dom nights = list_to_set cities
  ∧ (∀ i city, cities !! i = Some city →
       (∀ j, (i < j)%nat → cities !! j ≠ Some city) →
       nights !! city = Some (share total_days (length cities) i))
  ∧ (∀ city v, nights !! city = Some v →
       ∃ i, cities !! i = Some city
            ∧ (∀ j, (i < j)%nat → cities !! j ≠ Some city)
            ∧ v = share total_days (length cities) i)
  ∧ (0 ≤ total_days → sum_values nights ≤ total_days)
  ∧ (cities = [] → nights = ∅).
Proof.
  intros nights. subst nights. split_and!.
  - apply split_nights_dom.
  - intros i city. apply split_nights_last.
  - intros city v Hv.
    assert (Hin : city ∈ cities).
    { assert (Hd : city ∈ dom (_split_nights_across_cities cities total_days))
        by (apply elem_of_dom; by eexists).
      rewrite split_nights_dom in Hd. set_solver. }
    destruct (split_nights_value cities total_days city Hin) as (i & Hi & Hl & Hs).
    exists i. split_and!; [done..|]. rewrite Hs in Hv. by injection Hv.
  - apply split_nights_sum_le.
  - by intros ->.
Qed.

(** * The loop as a schedule *)

Lemma book_cities_schedule country style start npc cities off acc σ hotels σ' :
  book_cities country style start npc cities off acc σ = (Ok hotels, σ') →
  ∃ new, hotels = acc ++ new
    ∧ Forall2 (λ copy '(city, o, n),
         ∃ h, choose_hotel city country style (start + o) (start + o + (n - 1)) σ
              = (Ok h, σ)
              ∧ copy = hotel_copy h n (start + o) (start + o + (n - 1)))
        new (schedule npc cities off).
Proof.
  revert off acc. induction cities as [|city rest IH]; intros off acc; simpl.
  - intros [= <- _]. exists []. by rewrite app_nil_r.
  - case_bool_decide; [apply IH|].
    unfold bind at 1, lift at 1.
    destruct (date_add start off) as [s|x] eqn:Hs; [|done].
    unfold bind at 1, lift at 1. destruct (date_add s _) as [e|x] eqn:He; [|done].
    unfold bind at 1.
    destruct (choose_hotel _ _ _ _ _ σ) as [[h|x] σ1] eqn:Hh; [|done].
    pose proof (choose_hotel_state _ _ _ _ _ _ _ _ Hh) as ->.
    apply date_add_ok in Hs as ->. apply date_add_ok in He as ->.
    intros (new & -> & Hall)%IH. eexists (_ :: new).
    split; [by rewrite <- app_assoc|].
    constructor; [by exists h|done].
Qed.

Lemma schedule_city npc cities off city o n :
  (city, o, n) ∈ schedule npc cities off →
  city ∈ cities ∧ npc !! city = Some n ∧ 0 < n ∧ off ≤ o.
Proof.
  revert off. induction cities as [|c rest IH]; intros off; simpl.
  - by intros ?%elem_of_nil.
  - case_bool_decide as Hn.
    + intros (? & ? & ? & ?)%IH. split_and!; [by right|done..].
    + intros [[= -> -> ->]|Hin]%elem_of_cons.
      * split_and!; [by left| |lia|lia].
        destruct (npc !! c) as [v|]; simpl in *; [done|lia].
      * apply IH in Hin as (? & ? & ? & ?). split_and!; [by right|done|done|].
        destruct (npc !! c); simpl in *; lia.
Qed.

(** What a successful [choose_hotel] found. *)
Lemma choose_hotel_ok city country style s e σ h σ' :
  choose_hotel city country style s e σ = (Ok h, σ') →
  ∃ c tier, country = Some c
    ∧ (tier = style
       ∨ (hotel_matches σ city c style s e = [] ∧ fallback_style style = Some tier))
    ∧ min_by hotel_price (hotel_matches σ city c tier s e) = Some h.
Proof.
  destruct country as [c|].
  - intros Hrun. exists c.
    destruct (hotel_matches σ city c style s e) as [|h0 hs] eqn:Hm.
    + destruct (fallback_style style) as [tier|] eqn:Hfb.
      * rewrite (choose_hotel_downgrade _ _ _ _ tier) in Hrun by done.
        destruct (min_by hotel_price (hotel_matches σ city c tier s e)) as [h'|] eqn:Hmin;
          [|done].
        injection Hrun as <- _. exists tier. split; [done|]. split; [by right|done].
      * by rewrite choose_hotel_no_downgrade in Hrun.
    + destruct (choose_hotel_direct σ city c style s e) as (h' & Hrun' & Hmin);
        [by rewrite Hm|].
      rewrite Hrun' in Hrun. injection Hrun as <- _. exists style.
      split; [done|]. split; [by left|done].
  - unfold choose_hotel, bind at 1, find_hotels_for_city at 1, bind at 1, load_hotels,
      read_json.
    destruct (existsb (in_city city) (HOTELS_FILE σ)); [done|].
    unfold ret at 1. cbn [is_empty].
    destruct (fallback_style style) as [tier|]; [|done].
    unfold bind, find_hotels_for_city, bind, load_hotels, read_json.
    by destruct (existsb (in_city city) (HOTELS_FILE σ)).
Qed.

Lemma hotel_matches_elem σ city c tier s e h :
  h ∈ hotel_matches σ city c tier s e →
  h ∈ HOTELS_FILE σ
  ∧ lower (default "" (ht_city h)) = lower (strip city)
  ∧ lower (default "" (ht_country h)) = lower (strip c)
  ∧ lower (default "" (ht_category h)) = lower (strip tier)
  ∧ 0 < rooms h
  ∧ available_for h s e.
Proof.
  unfold hotel_matches. intros [Hfit Hin]%list_elem_of_filter.
  apply andb_True in Hfit as [Hcity Hfit]. unfold hotel_fits in Hfit.
  apply andb_True in Hfit as [Hfit Hwin]. apply andb_True in Hfit as [Hfit Hrooms].
  apply andb_True in Hfit as [Hcountry Hcat].
  apply bool_decide_unpack in Hcity, Hcountry, Hcat, Hrooms.
  split_and!; [done..|].
  unfold available_for, _parse_date in *.
  destruct (ht_available_from h) as [[af|?]|]; try done.
  destruct (ht_available_to h) as [[at_|?]|]; try done. simpl in Hwin.
  apply andb_True in Hwin as [H1 H2]. apply bool_decide_unpack in H1, H2.
  exists af, at_. split_and!; [done|done|lia|lia].
Qed.

(** * Trips of any shape *)

Lemma share_antitone total_days n i j :
  (i ≤ j)%nat → share total_days n j ≤ share total_days n i.
Proof. intros Hij. unfold share. repeat case_bool_decide; lia. Qed.

Lemma share_nonpos total_days n i :
  total_days ≤ 0 → (0 < n)%nat → share total_days n i ≤ 0.
Proof.
  intros Hd Hn. unfold share.
  destruct (decide (total_days = 0)) as [->|Hne].
  - rewrite Z.div_0_l, Z.mod_0_l by lia. case_bool_decide; lia.
  - assert (total_days `div` Z.of_nat n < 0) by (apply Z.div_lt_upper_bound; lia).
    case_bool_decide; lia.
Qed.

Lemma sum_from_le (g h : nat → Z) k len :
  (∀ j, (k ≤ j < k + len)%nat → g j ≤ h j) → sum_from g k len ≤ sum_from h k len.
Proof.
  revert k. induction len as [|len IH]; intros k Hgh; simpl; [done|].
  pose proof (Hgh k ltac:(lia)). pose proof (IH (S k) ltac:(intros; apply Hgh; lia)).
  lia.
Qed.

Lemma contiguous_from_nonneg day plan :
  contiguous_from day plan → 0 ≤ planned_nights plan.
Proof.
  revert day. induction plan as [|e plan IH]; intros day; [done|].
  intros (n & Hn & Hnights & _ & _ & Hrest). rewrite planned_nights_cons, Hnights.
  specialize (IH _ Hrest). simpl. lia.
Qed.

Lemma contiguous_from_positive day plan :
  contiguous_from day plan → plan ≠ [] → 1 ≤ planned_nights plan.
Proof.
  destruct plan as [|e plan]; [done|].
  intros (n & Hn & Hnights & _ & _ & Hrest) _. rewrite planned_nights_cons, Hnights.
  pose proof (contiguous_from_nonneg _ _ Hrest). simpl. lia.
Qed.

(** The hotels of a successful run: the loop's result, shown as stays and
    as the stay plan. *)
Lemma book_itinerary_hotels env it prefs pay today σ res σ' :
  book_itinerary env it prefs pay today σ = (Ok res, σ') →
  ∃ origin style budget days start first rest hotels,
    read_prefs prefs = Ok (origin, style, budget, days, start)
    ∧ default [] (it_cities it) = first :: rest
    ∧ book_cities (it_destination_country it) style start
        (_split_nights_across_cities (first :: rest) days) (first :: rest) 0 [] σ
      = (Ok hotels, σ)
    ∧ chosen_stays res = stay_of <$> hotels
    ∧ stay_plan res = stay_plan_entry <$> hotels
    ∧ accommodation (cost_breakdown res) = accommodation_cost hotels
    ∧ (∀ record, booking_record res = Some record →
         bk_stays record = stay_of <$> hotels
         ∧ bk_hotel_ids record = truthy_ids ht_id hotels
         ∧ bk_start_date record = isoformat start
         ∧ bk_end_date record = isoformat (start + days - 1)).
Proof.
  intros Hrun.
  apply book_itinerary_ok in Hrun
    as (origin & style & budget & days & start & end_ & first & rest & outbound
        & returning & hotels & extra & threshold & Hp & Hend & Hc & _ & _ & Hloop
        & _ & _ & _ & _ & Hplan & Hcost & Hcommit).
  exists origin, style, budget, days, start, first, rest, hotels.
  apply date_add_ok in Hend as ->.
  split_and!; [done..| |done|by rewrite Hcost|].
  - unfold chosen_stays.
    destruct Hcommit as [(_ & _ & _ & -> & _)
                        |(info & record & _ & _ & _ & -> & _ & -> & Hcb)]; [done|].
    rewrite create_booking_run in Hcb. by injection Hcb as <- _.
  - intros record Hrec.
    destruct Hcommit as [(_ & Hnone & _)|(info & record' & _ & _ & _ & Hrec' & _ & _ & Hcb)].
    { by rewrite Hnone in Hrec. }
    rewrite Hrec in Hrec'. injection Hrec' as <-.
    rewrite create_booking_run in Hcb. injection Hcb as <- _. simpl.
    split_and!; [done..|]. f_equal. lia.
Qed.

(** X2. A successful resolution over any itinerary, with cities repeated
    or not, for a trip length that is not negative: the stay windows follow
    one another from the start date, there is at most one per position of
    the itinerary, their nights add up to at most the trip length, and the
    last one ends on or before the end date. *)
Theorem stays_fit_in_trip env it prefs pay today σ res σ' cities days start :
  book_itinerary env it prefs pay today σ = (Ok res, σ') →
  it_cities it = Some cities →
  trip_length_days prefs = Some days →
  start_date prefs = Some (IsoDate start) →
  0 ≤ days →
  contiguous_from start (stay_plan res)
  ∧ planned_nights (stay_plan res) ≤ days
  ∧ (length (stay_plan res) ≤ length cities)%nat
  ∧ (∀ e, last (stay_plan res) = Some e →
       ∃ d, sp_stay_end_date e = Some (isoformat d) ∧ start ≤ d ≤ start + days - 1).
Proof.
  intros Hrun Hcities Hdays Hstart Hpos.
  apply book_itinerary_hotels in Hrun
    as (origin & style & budget & days' & start' & first & rest & hotels & Hp & Hc
        & Hloop & _ & Hplan & _).
  apply read_prefs_ok in Hp as (_ & _ & _ & Hd' & Hs').
  rewrite Hdays in Hd'. injection Hd' as <-.
  rewrite Hstart in Hs'. injection Hs' as <-.
  rewrite Hcities in Hc. simpl in Hc. subst cities.
  set (cities := first :: rest) in *.
  set (npc := _split_nights_across_cities cities days) in *.
  set (f := λ j : nat, default 0 (npc !! default "" (cities !! j))).
  apply (book_cities_plan _ _ _ _ f _ 0%nat) in Hloop as (new & -> & Hchain & Hsum & Hlen).
  2: { intros j c Hj. unfold f. simpl. rewrite Hj. simpl.
       destruct (split_nights_value cities days c) as (i & _ & _ & Hv);
         [by eapply list_elem_of_lookup_2|].
       fold npc in Hv. by rewrite Hv. }
  assert (Hle : sum_from (λ j, Z.max 0 (f j)) 0 (length cities) ≤ days).
  { pose proof (share_total days (length cities) Hpos ltac:(simpl; lia)) as Htotal.
    etrans; [|by apply Z.eq_le_incl]. clear Htotal.
    apply sum_from_le. intros j Hj.
    destruct (lookup_lt_is_Some_2 cities j ltac:(lia)) as [c Hc].
    destruct (split_nights_value cities days c) as (i & Hi & Hl & Hv);
      [by eapply list_elem_of_lookup_2|].
    unfold f. rewrite Hc. simpl. fold npc in Hv. rewrite Hv. simpl.
    assert (j ≤ i)%nat.
    { destruct (decide (j ≤ i)%nat); [done|]. by destruct (Hl j ltac:(lia)). }
    pose proof (share_antitone days (length cities) j i ltac:(done)).
    pose proof (share_nonneg days (length cities) i Hpos ltac:(simpl; lia)).
    change (S (length rest)) with (length cities). lia. }
  rewrite Z.add_0_r in Hchain. rewrite Hplan. simpl app.
  split_and!.
  - done.
  - lia.
  - rewrite length_fmap in *. rewrite Hlen.
    etrans; [apply length_filter|]. by rewrite length_seq.
  - intros e He. rewrite (contiguous_from_last _ _ _ Hchain He).
    eexists. split; [done|].
    assert (1 ≤ planned_nights (stay_plan_entry <$> new)).
    { apply (contiguous_from_positive start); [done|]. by intros Hnil; rewrite Hnil in He. }
    lia.
Qed.

(** Five days over Tokyo, Osaka and Tokyo again, previewed. *)
Lemma stays_fit_in_trip_witness :
  ∃ res σ',
    book_itinerary Sample.env Revisit.itinerary Sample.prefs None 0 Revisit.store
    = (Ok res, σ')
    ∧ contiguous_from Sample.day0 (stay_plan res)
    ∧ planned_nights (stay_plan res) ≤ 5
    ∧ (length (stay_plan res) ≤ 3)%nat
    ∧ (∀ e, last (stay_plan res) = Some e →
         ∃ d, sp_stay_end_date e = Some (isoformat d)
              ∧ Sample.day0 ≤ d ≤ Sample.day0 + 5 - 1).
Proof.
  eexists _, _. split; [vm_compute; reflexivity|].
  match goal with |- context [stay_plan ?r] =>
    apply (stays_fit_in_trip Sample.env Revisit.itinerary Sample.prefs None 0
             Revisit.store r Revisit.store ["Tokyo"; "Osaka"; "Tokyo"] 5 Sample.day0);
      [vm_compute; reflexivity|reflexivity|reflexivity|reflexivity|lia]
  end.
Defined.

(** The table holds one night for Tokyo, the share of its second visit, so
    the plan covers four of the five days. *)
Example revisit_loses_a_night :
  ∃ res,
    book_itinerary Sample.env Revisit.itinerary Sample.prefs None 0 Revisit.store
    = (Ok res, Revisit.store)
    ∧ (λ e, (sp_city e, sp_nights e)) <$> stay_plan res
      = [(Some "Tokyo", Some 1); (Some "Osaka", Some 2); (Some "Tokyo", Some 1)]
    ∧ planned_nights (stay_plan res) = 4.
Proof. eexists. split; [vm_compute; reflexivity|]. split; reflexivity. Qed.

Lemma book_cities_no_nights country style start npc cities off acc σ :
  (∀ c v, npc !! c = Some v → v ≤ 0) →
  book_cities country style start npc cities off acc σ = (Ok acc, σ).
Proof.
  intros Hnp. induction cities as [|city rest IH]; simpl; [done|].
  rewrite bool_decide_eq_true_2; [done|].
  destruct (npc !! city) as [v|] eqn:Hv; simpl; [by eapply Hnp|done].
Qed.

Lemma schedule_ones npc (l1 l2 : list string) off :
  (∀ c, c ∈ l1 → npc !! c = Some 1) →
  (∀ c, c ∈ l2 → default 0 (npc !! c) ≤ 0) →
  schedule npc (l1 ++ l2) off = imap (λ j c, (c, off + Z.of_nat j, 1)) l1.
Proof.
  intros H1 H2. revert off. induction l1 as [|c l1 IH]; intros off; simpl.
  - induction l2 as [|c l2 IH2]; simpl; [done|].
    rewrite bool_decide_eq_true_2 by (apply H2; by left).
    apply IH2. intros c' Hc'. apply H2. by right.
  - rewrite (H1 c) by (by left). simpl.
    rewrite IH by (intros c' Hc'; apply H1; by right).
    rewrite Z.add_0_r. f_equal. apply imap_ext. intros j c' _. simpl.
    do 2 f_equal. lia.
Qed.

(** X4. More cities than days: in a successful resolution over [N]
    distinct cities with [0 <= trip_length_days < N], the plan has exactly
    [trip_length_days] stays, of one night each, on consecutive days from
    the start date, for the first cities of the itinerary in order; the
    cities after them get no stay. *)
Theorem short_trip_one_night_each env it prefs pay today σ res σ' cities days start
    style :
  book_itinerary env it prefs pay today σ = (Ok res, σ') →
  it_cities it = Some cities →
  trip_length_days prefs = Some days →
  start_date prefs = Some (IsoDate start) →
  travel_style prefs = Some style →
  NoDup cities → 0 ≤ days → days < Z.of_nat (length cities) →
  length (stay_plan res) = Z.to_nat days
  ∧ ∀ j e, stay_plan res !! j = Some e →
      ∃ city h,
        cities !! j = Some city
        ∧ choose_hotel city (it_destination_country it) style
            (start + Z.of_nat j) (start + Z.of_nat j) σ = (Ok h, σ)
        ∧ e = stay_plan_entry
                (hotel_copy h 1 (start + Z.of_nat j) (start + Z.of_nat j)).
Proof.
  intros Hrun Hcities Hdays Hstart Hstyle Hnd Hpos Hshort.
  apply book_itinerary_hotels in Hrun
    as (origin & style' & budget & days' & start' & first & rest & hotels & Hp & Hc
        & Hloop & _ & Hplan & _).
  apply read_prefs_ok in Hp as (_ & Hst' & _ & Hd' & Hs').
  rewrite Hdays in Hd'. injection Hd' as <-.
  rewrite Hstart in Hs'. injection Hs' as <-.
  rewrite Hstyle in Hst'. injection Hst' as <-.
  rewrite Hcities in Hc. simpl in Hc. subst cities.
  set (cities := first :: rest) in *.
  apply book_cities_schedule in Hloop as (new & -> & Hall). simpl app in *.
  set (d := Z.to_nat days).
  assert (Hshare : ∀ i, share days (length cities) i
                        = if bool_decide (i < d)%nat then 1 else 0).
  { intros i. unfold share. rewrite Z.div_small, Z.mod_small by lia.
    repeat case_bool_decide; lia. }
  rewrite <- (take_drop d cities) in Hall at 2.
  rewrite (schedule_ones _ _ _ 0) in Hall.
  2: { intros c [i Hi]%list_elem_of_lookup_1.
       apply lookup_take_Some in Hi as [Hi Hlt].
       rewrite (split_nights_lookup _ _ i) by done.
       by rewrite Hshare, bool_decide_eq_true_2. }
  2: { intros c [i Hi]%list_elem_of_lookup_1. rewrite lookup_drop in Hi.
       rewrite (split_nights_lookup _ _ (d + i)) by done.
       rewrite Hshare, bool_decide_eq_false_2 by lia. done. }
  rewrite Hplan, length_fmap. split.
  - apply Forall2_length in Hall. rewrite Hall, length_imap, length_take. lia.
  - intros j e He. rewrite list_lookup_fmap in He.
    destruct (new !! j) as [copy|] eqn:Hcopy; [|done]. injection He as <-.
    destruct (Forall2_lookup_l _ _ _ _ _ Hall Hcopy) as ([[c o] n] & Hsched & h & Hh & ->).
    rewrite list_lookup_imap in Hsched.
    destruct (take d cities !! j) as [c'|] eqn:Hj; [|done].
    injection Hsched as -> <- <-.
    apply lookup_take_Some in Hj as [Hj _].
    exists c, h. split; [done|].
    replace (start + (0 + Z.of_nat j) + (1 - 1)) with (start + Z.of_nat j) in * by lia.
    replace (start + (0 + Z.of_nat j)) with (start + Z.of_nat j) in * by lia.
    done.
Qed.

(** One day over Tokyo and Osaka: a night in Tokyo, none in Osaka. *)
Lemma short_trip_one_night_each_witness :
  let prefs :=
    {| origin_city := Some "Jakarta"; travel_style := Some "luxury";
       budget_idr := Some 5000000; trip_length_days := Some 1;
       start_date := Some (IsoDate Sample.day0) |} in
  ∃ res σ',
    book_itinerary Sample.env Sample.itinerary prefs None 0 Sample.store
    = (Ok res, σ')
    ∧ length (stay_plan res) = Z.to_nat 1
    ∧ ∀ j e, stay_plan res !! j = Some e →
        ∃ city h,
          ["Tokyo"; "Osaka"] !! j = Some city
          ∧ choose_hotel city (it_destination_country Sample.itinerary) "luxury"
              (Sample.day0 + Z.of_nat j) (Sample.day0 + Z.of_nat j) Sample.store
            = (Ok h, Sample.store)
          ∧ e = stay_plan_entry
                  (hotel_copy h 1 (Sample.day0 + Z.of_nat j)
                     (Sample.day0 + Z.of_nat j)).
Proof.
  intros prefs. eexists _, _. split; [vm_compute; reflexivity|].
  match goal with |- context [stay_plan ?r] =>
    apply (short_trip_one_night_each Sample.env Sample.itinerary prefs None 0
             Sample.store r Sample.store ["Tokyo"; "Osaka"] 1 Sample.day0 "luxury");
      [vm_compute; reflexivity|reflexivity|reflexivity|reflexivity|reflexivity
      |compute_done|lia|simpl; lia]
  end.
Defined.

(** * The hotels of a resolution *)

(** X5. Every stay of a successful resolution is at a hotel of the
    catalog: a record in a city of the itinerary and in its country (names
    compared without case), in the requested style or in the style one tier
    down, with a room left, whose availability window covers the stay from
    its first to its last night; no match of that tier is cheaper; the stay
    has at least one night and does not start before the trip. *)
Theorem chosen_hotels_are_available env it prefs pay today σ res σ' style start :
  book_itinerary env it prefs pay today σ = (Ok res, σ') →
  travel_style prefs = Some style →
  start_date prefs = Some (IsoDate start) →
  Forall (λ st, ∃ h city country tier stay_start stay_end nights,
            h ∈ HOTELS_FILE σ
            ∧ st = stay_of (hotel_copy h nights stay_start stay_end)
            ∧ city ∈ default [] (it_cities it)
            ∧ it_destination_country it = Some country
            ∧ lower (default "" (ht_city h)) = lower (strip city)
            ∧ lower (default "" (ht_country h)) = lower (strip country)
            ∧ lower (default "" (ht_category h)) = lower (strip tier)
            ∧ (tier = style ∨ fallback_style style = Some tier)
            ∧ 0 < rooms h
            ∧ available_for h stay_start stay_end
            ∧ 0 < nights ∧ start ≤ stay_start ∧ stay_end = stay_start + nights - 1
            ∧ ∀ h', h' ∈ hotel_matches σ city country tier stay_start stay_end →
                hotel_price h ≤ hotel_price h')
    (chosen_stays res).
Proof.
  intros Hrun Hstyle Hstart.
  apply book_itinerary_hotels in Hrun
    as (origin & style' & budget & days & start' & first & rest & hotels & Hp & Hc
        & Hloop & -> & _).
  apply read_prefs_ok in Hp as (_ & Hst' & _ & _ & Hs').
  rewrite Hstart in Hs'. injection Hs' as <-.
  rewrite Hstyle in Hst'. injection Hst' as <-.
  apply book_cities_schedule in Hloop as (new & -> & Hall). simpl app.
  apply Forall_fmap. apply Forall_forall. intros copy Hcopy.
  apply list_elem_of_lookup_1 in Hcopy as [j Hj].
  destruct (Forall2_lookup_l _ _ _ _ _ Hall Hj) as ([[city o] n] & Hsched & h & Hh & ->).
  apply list_elem_of_lookup_2, schedule_city in Hsched as (Hcity & _ & Hn & Ho).
  apply choose_hotel_ok in Hh as (c & tier & Hcountry & Htier & Hmin).
  apply min_by_first in Hmin as (i & Hi & Hleast & _).
  apply list_elem_of_lookup_2, hotel_matches_elem in Hi
    as (Hin & Hc1 & Hc2 & Hc3 & Hrooms & Hwin).
  simpl. exists h, city, c, tier, (start + o), (start + o + (n - 1)), n.
  rewrite Hc. split_and!; try done; try lia.
  destruct Htier as [->|[_ Hfb]]; [by left|by right].
Qed.

(** The sample trip: Tokyo and Osaka, luxury asked for, mid-range found. *)
Lemma chosen_hotels_are_available_witness :
  ∃ res σ',
    book_itinerary Sample.env Sample.itinerary Sample.prefs None 0 Sample.store
    = (Ok res, σ')
    ∧ Forall (λ st, ∃ h city country tier stay_start stay_end nights,
            h ∈ HOTELS_FILE Sample.store
            ∧ st = stay_of (hotel_copy h nights stay_start stay_end)
            ∧ city ∈ default [] (it_cities Sample.itinerary)
            ∧ it_destination_country Sample.itinerary = Some country
            ∧ lower (default "" (ht_city h)) = lower (strip city)
            ∧ lower (default "" (ht_country h)) = lower (strip country)
            ∧ lower (default "" (ht_category h)) = lower (strip tier)
            ∧ (tier = "luxury" ∨ fallback_style "luxury" = Some tier)
            ∧ 0 < rooms h
            ∧ available_for h stay_start stay_end
            ∧ 0 < nights ∧ Sample.day0 ≤ stay_start
            ∧ stay_end = stay_start + nights - 1
            ∧ ∀ h', h' ∈ hotel_matches Sample.store city country tier stay_start
                           stay_end →
                hotel_price h ≤ hotel_price h')
        (chosen_stays res).
Proof.
  eexists _, _. split; [vm_compute; reflexivity|].
  match goal with |- context [chosen_stays ?r] =>
    apply (chosen_hotels_are_available Sample.env Sample.itinerary Sample.prefs None 0
             Sample.store r Sample.store "luxury" Sample.day0);
      [vm_compute; reflexivity|reflexivity|reflexivity]
  end.
Defined.

(** * The flights of a resolution *)

Lemma options_for_elem flights src dst wanted x :
  x ∈ options_for flights src dst wanted →
  x ∈ flights ∧ on_route src dst x = true ∧ has_date x = true
  ∧ (exact_matches flights src dst wanted ≠ [] → on_date wanted x = true)
  ∧ (exact_matches flights src dst wanted = [] →
     ∀ f, f ∈ flights → on_route src dst f = true → on_date wanted f = false).
Proof.
  intros Hx.
  assert (Hnone : exact_matches flights src dst wanted = [] →
            ∀ f, f ∈ flights → on_route src dst f = true → on_date wanted f = false).
  { intros Hnil f Hf Hroute. destruct (on_date wanted f) eqn:Hdate; [|done].
    assert (Hin : f ∈ exact_matches flights src dst wanted).
    { apply list_elem_of_filter. split; [|done]. by rewrite Hroute, Hdate. }
    rewrite Hnil in Hin. by apply elem_of_nil in Hin. }
  destruct (exact_matches flights src dst wanted) as [|e0 es] eqn:Hexact.
  - rewrite options_for_fallback in Hx by done.
    apply list_elem_of_lookup_1 in Hx as [i Hi].
    apply lookup_take_Some in Hi as [Hi _]. apply list_elem_of_lookup_2 in Hi.
    rewrite sort_by_perm in Hi. unfold dated_on_route in Hi.
    apply list_elem_of_filter in Hi as [HP Hin].
    apply andb_True in HP as [Hroute Hdate].
    apply Is_true_true in Hroute, Hdate. split_and!; [done..|by intros ?|done].
  - rewrite options_for_exact in Hx by (by rewrite Hexact). rewrite Hexact in Hx.
    rewrite <- Hexact in Hx. unfold exact_matches in Hx.
    apply list_elem_of_filter in Hx as [HP Hin].
    apply andb_True in HP as [Hroute Hdate].
    apply Is_true_true in Hroute, Hdate. split_and!; [done..| |done|done].
    unfold has_date. unfold on_date in Hdate.
    apply bool_decide_eq_true_1 in Hdate. by rewrite Hdate.
Qed.

Lemma on_route_spec src dst f :
  on_route src dst f = true →
  lower (default "" (fl_from f)) = lower (strip src)
  ∧ lower (default "" (fl_to f)) = lower (strip dst)
  ∧ 0 < seats f.
Proof.
  unfold on_route. intros H. apply andb_prop in H as [H H3].
  apply andb_prop in H as [H1 H2].
  apply bool_decide_eq_true_1 in H1, H2, H3. done.
Qed.

(** X6. The two flights of a successful resolution are records of the
    catalog with a seat left and a date that reads as a date: the outbound
    one from the origin to the first city, the return one from the last
    city to the origin (names compared without case).  Each leaves on the
    wanted day (start date, end date) unless no flight with a seat left
    leaves on that route on that day. *)
Theorem chosen_flights_are_bookable env it prefs pay today σ res σ' origin start days
    first rest :
  book_itinerary env it prefs pay today σ = (Ok res, σ') →
  origin_city prefs = Some origin →
  start_date prefs = Some (IsoDate start) →
  trip_length_days prefs = Some days →
  it_cities it = Some (first :: rest) →
  let last_city := default first (last (first :: rest)) in
  let bookable src dst wanted f :=
    f ∈ FLIGHTS_FILE σ
    ∧ lower (default "" (fl_from f)) = lower (strip src)
    ∧ lower (default "" (fl_to f)) = lower (strip dst)
    ∧ 0 < seats f
    ∧ (∃ d, fl_date f = Some (IsoDate d)
            ∧ (d ≠ wanted →
               ∀ g, g ∈ FLIGHTS_FILE σ → on_route src dst g = true →
                    fl_date g ≠ Some (IsoDate wanted))) in
  ∃ outbound returning,
    chosen_flights res = [outbound; returning]
    ∧ bookable origin first start outbound
    ∧ bookable last_city origin (start + days - 1) returning.
Proof.
  intros Hrun Horigin Hstart Hdays Hcities last_city bookable.
  destruct (book_itinerary_flights _ _ _ _ _ _ _ _ _ _ _ _ _ Hrun Horigin Hstart
              Hdays Hcities) as (outbound & returning & Hchosen & Hout & Hback & _).
  exists outbound, returning. split; [done|].
  assert (Hbookable : ∀ src dst wanted f,
            min_by flight_price (options_for (FLIGHTS_FILE σ) src dst wanted) = Some f →
            bookable src dst wanted f).
  { intros src dst wanted f (i & Hi & _)%min_by_first.
    apply list_elem_of_lookup_2, options_for_elem in Hi
      as (Hin & Hroute & Hdate & Hexact & Hnone).
    apply on_route_spec in Hroute as Hr. destruct Hr as (Hfrom & Hto & Hseats).
    unfold bookable. split_and!; [done..|].
    unfold has_date, _parse_date in Hdate.
    destruct (fl_date f) as [[d|raw]|] eqn:Hd; try done.
    exists d. split; [done|]. intros Hne g Hg Hgr Hgd.
    destruct (exact_matches (FLIGHTS_FILE σ) src dst wanted) as [|e0 es] eqn:Hx.
    - specialize (Hnone eq_refl g Hg Hgr). unfold on_date in Hnone.
      rewrite Hgd in Hnone. simpl in Hnone.
      by rewrite bool_decide_eq_true_2 in Hnone.
    - specialize (Hexact ltac:(done)). unfold on_date, _parse_date in Hexact.
      rewrite Hd in Hexact. simpl in Hexact.
      apply bool_decide_eq_true_1 in Hexact. congruence. }
  split; by apply Hbookable.
Qed.

(** The sample trip. *)
Lemma chosen_flights_are_bookable_witness :
  ∃ res σ',
    book_itinerary Sample.env Sample.itinerary Sample.prefs None 0 Sample.store
    = (Ok res, σ')
    ∧ let bookable src dst wanted f :=
        f ∈ FLIGHTS_FILE Sample.store
        ∧ lower (default "" (fl_from f)) = lower (strip src)
        ∧ lower (default "" (fl_to f)) = lower (strip dst)
        ∧ 0 < seats f
        ∧ (∃ d, fl_date f = Some (IsoDate d)
                ∧ (d ≠ wanted →
                   ∀ g, g ∈ FLIGHTS_FILE Sample.store → on_route src dst g = true →
                        fl_date g ≠ Some (IsoDate wanted))) in
      ∃ outbound returning,
        chosen_flights res = [outbound; returning]
        ∧ bookable "Jakarta" "Tokyo" Sample.day0 outbound
        ∧ bookable "Osaka" "Jakarta" (Sample.day0 + 5 - 1) returning.
Proof.
  eexists _, _. split; [vm_compute; reflexivity|].
  match goal with |- context [chosen_flights ?r] =>
    apply (chosen_flights_are_bookable Sample.env Sample.itinerary Sample.prefs None 0
             Sample.store r Sample.store "Jakarta" Sample.day0 5 "Tokyo" ["Osaka"]);
      [vm_compute; reflexivity|reflexivity|reflexivity|reflexivity|reflexivity]
  end.
Defined.

(** * The inventory after a booking *)

Lemma truthy_ids_elem {R} (get_id : R → option string) (xs : list R) id :
  id ∈ truthy_ids get_id xs ↔ id ≠ "" ∧ ∃ x, x ∈ xs ∧ get_id x = Some id.
Proof.
  unfold truthy_ids. rewrite list_elem_of_omap. split.
  - intros (x & Hx & Hid). destruct (get_id x) as [i|] eqn:Hi; [|done].
    case_bool_decide; [done|]. injection Hid as ->. split; [done|]. by exists x.
  - intros (Hne & x & Hx & Hid). exists x. split; [done|]. rewrite Hid.
    by rewrite bool_decide_eq_false_2.
Qed.

(** What a record of the catalog becomes when one of the booked records
    [xs] is the record itself. *)
Lemma decrement_records_booked {R} (get_id : R → option string) get_quantity
    set_quantity (xs data : list R) i r (same_id : R) :
  data !! i = Some r → same_id ∈ xs → get_id same_id = get_id r →
  0 < default 0 (get_quantity r) →
  decrement_records get_id get_quantity set_quantity (truthy_ids get_id xs) data !! i
  = Some (if has_id (get_id r)
          then set_quantity (default 0 (get_quantity r) - 1) r else r).
Proof.
  intros Hi Hx Hid Hq. rewrite decrement_records_lookup, Hi. simpl. f_equal.
  destruct (get_id r) as [id|] eqn:Hr; simpl.
  - destruct (decide (id = "")) as [->|Hne].
    + rewrite (bool_decide_eq_false_2 ("" ≠ "")) by (by intros ?).
      rewrite bool_decide_eq_false_2; [done|]. by intros [Hid' _]%truthy_ids_elem.
    + rewrite (bool_decide_eq_true_2 (id ≠ "")) by done.
      rewrite bool_decide_eq_true_2; [f_equal; lia|].
      apply truthy_ids_elem. split; [done|]. by exists same_id.
  - rewrite bool_decide_eq_false_2; [done|]. by intros [Hid' _]%truthy_ids_elem.
Qed.

(** X7. A booked resolution takes exactly one seat of each of its two
    flights and one room of each of its hotels: each is a record of the
    catalog that had at least one left, and in the catalog after the booking
    that record holds one less.  The exception is a record without an id
    (absent, or the empty string): it is booked and keeps its count.  The
    count is read back from the record of the new catalog, whose other
    fields read as before. *)
Theorem booking_takes_one_of_each env it prefs pay today σ res σ' :
  book_itinerary env it prefs pay today σ = (Ok res, σ') →
  status res = booked →
  (∀ f, f ∈ chosen_flights res →
     ∃ i f',
       FLIGHTS_FILE σ !! i = Some f ∧ 0 < seats f
       ∧ FLIGHTS_FILE σ' !! i = Some f'
       ∧ f' = (if has_id (fl_id f) then set_seats_left (seats f - 1) f else f)
       ∧ seats f' = (if has_id (fl_id f) then seats f - 1 else seats f)
       ∧ 0 ≤ seats f'
       ∧ (fl_id f', fl_from f', fl_to f', fl_date f', fl_base_price_idr f')
         = (fl_id f, fl_from f, fl_to f, fl_date f, fl_base_price_idr f))
  ∧ Forall (λ st, ∃ i h h',
              HOTELS_FILE σ !! i = Some h
              ∧ st_hotel_id st = ht_id h
              ∧ st_hotel_name st = ht_name h
              ∧ 0 < rooms h
              ∧ HOTELS_FILE σ' !! i = Some h'
              ∧ h' = (if has_id (ht_id h) then set_rooms_left (rooms h - 1) h else h)
              ∧ rooms h' = (if has_id (ht_id h) then rooms h - 1 else rooms h)
              ∧ 0 ≤ rooms h'
              ∧ (ht_id h', ht_name h', ht_city h', ht_country h', ht_category h',
                 ht_price_per_night_idr h', ht_available_from h', ht_available_to h')
                = (ht_id h, ht_name h, ht_city h, ht_country h, ht_category h,
                   ht_price_per_night_idr h, ht_available_from h, ht_available_to h))
      (chosen_stays res).
Proof.
  intros Hrun Hbooked.
  apply book_itinerary_ok in Hrun
    as (origin & style & budget & days & start & end_ & first & rest & outbound
        & returning & hotels & extra & threshold & _ & _ & _ & Hout & Hback & Hloop
        & _ & _ & _ & _ & _ & _ & Hcommit).
  destruct Hcommit as [(Hsim & _)|(info & record & _ & _ & _ & Hrec & Hpf & Hph & Hcb)];
    [by rewrite Hsim in Hbooked|].
  rewrite create_booking_run in Hcb. injection Hcb as <- <-.
  unfold chosen_flights, chosen_stays. rewrite Hrec, Hpf, Hph.
  cbn [bk_flight_details bk_stays FLIGHTS_FILE HOTELS_FILE]. split.
  - assert (Hfound : ∀ src dst wanted f,
              min_by flight_price (options_for (FLIGHTS_FILE σ) src dst wanted) = Some f →
              ∃ i, FLIGHTS_FILE σ !! i = Some f ∧ 0 < seats f).
    { intros src dst wanted f (j & Hj & _)%min_by_first.
      apply list_elem_of_lookup_2, options_for_elem in Hj as (Hin & Hroute & _).
      apply on_route_spec in Hroute as (_ & _ & Hseats).
      apply list_elem_of_lookup_1 in Hin as [i Hi]. by exists i. }
    intros f Hf.
    assert (∃ i, FLIGHTS_FILE σ !! i = Some f ∧ 0 < seats f) as (i & Hi & Hseats).
    { apply elem_of_cons in Hf as [->|Hf]; [by eapply Hfound|].
      apply elem_of_cons in Hf as [->|Hf]; [by eapply Hfound|].
      by apply elem_of_nil in Hf. }
    exists i. eexists. split; [done|]. split; [done|]. split.
    { by apply (decrement_records_booked fl_id fl_seats_left set_seats_left
                  [outbound; returning] _ i f f). }
    split; [done|].
    destruct (has_id (fl_id f)); unfold seats in *; simpl; split_and!; try done; lia.
  - apply book_cities_schedule in Hloop as (new & -> & Hall). simpl app.
    apply Forall_fmap. apply Forall_forall. intros copy Hcopy.
    apply list_elem_of_lookup_1 in Hcopy as [j Hj].
    destruct (Forall2_lookup_l _ _ _ _ _ Hall Hj) as ([[city o] n] & _ & h & Hh & ->).
    apply choose_hotel_ok in Hh as (c & tier & _ & _ & Hmin).
    apply min_by_first in Hmin as (k & Hk & _).
    apply list_elem_of_lookup_2, hotel_matches_elem in Hk as (Hin & _ & _ & _ & Hrooms & _).
    apply list_elem_of_lookup_1 in Hin as [i Hi]. exists i, h. eexists. simpl.
    do 4 (split; [done|]). split.
    { apply (decrement_records_booked ht_id ht_rooms_left set_rooms_left _ _ i h
               (hotel_copy h n (start + o) (start + o + (n - 1)))); [done| |done|done].
      by eapply list_elem_of_lookup_2. }
    split; [done|].
    destruct (has_id (ht_id h)); unfold rooms in *; simpl; split_and!; try done; lia.
Qed.

(** The sample trip, booked: [FL-2], [FL-3], [HT-1] and [HT-2] hold one
    less. *)
Lemma booking_takes_one_of_each_witness :
  ∃ res σ',
    book_itinerary Sample.env Sample.itinerary Sample.prefs (Some Sample.payment) 0
      Sample.store = (Ok res, σ')
    ∧ seats <$> FLIGHTS_FILE Sample.store = [3; 2; 1]
    ∧ seats <$> FLIGHTS_FILE σ' = [3; 1; 0]
    ∧ rooms <$> HOTELS_FILE Sample.store = [2; 1; 5]
    ∧ rooms <$> HOTELS_FILE σ' = [1; 0; 5]
    ∧ (∀ f, f ∈ chosen_flights res →
         ∃ i f',
           FLIGHTS_FILE Sample.store !! i = Some f ∧ 0 < seats f
           ∧ FLIGHTS_FILE σ' !! i = Some f'
           ∧ f' = (if has_id (fl_id f) then set_seats_left (seats f - 1) f else f)
           ∧ seats f' = (if has_id (fl_id f) then seats f - 1 else seats f)
           ∧ 0 ≤ seats f'
           ∧ (fl_id f', fl_from f', fl_to f', fl_date f', fl_base_price_idr f')
             = (fl_id f, fl_from f, fl_to f, fl_date f, fl_base_price_idr f))
    ∧ Forall (λ st, ∃ i h h',
                HOTELS_FILE Sample.store !! i = Some h
                ∧ st_hotel_id st = ht_id h
                ∧ st_hotel_name st = ht_name h
                ∧ 0 < rooms h
                ∧ HOTELS_FILE σ' !! i = Some h'
                ∧ h' = (if has_id (ht_id h) then set_rooms_left (rooms h - 1) h
                        else h)
                ∧ rooms h' = (if has_id (ht_id h) then rooms h - 1 else rooms h)
                ∧ 0 ≤ rooms h'
                ∧ (ht_id h', ht_name h', ht_city h', ht_country h', ht_category h',
                   ht_price_per_night_idr h', ht_available_from h', ht_available_to h')
                  = (ht_id h, ht_name h, ht_city h, ht_country h, ht_category h,
                     ht_price_per_night_idr h, ht_available_from h,
                     ht_available_to h))
        (chosen_stays res).
Proof.
  eexists _, _. split; [vm_compute; reflexivity|].
  do 4 (split; [vm_compute; reflexivity|]).
  match goal with |- context [chosen_stays ?r] =>
    apply (booking_takes_one_of_each Sample.env Sample.itinerary Sample.prefs
             (Some Sample.payment) 0 Sample.store r);
      [vm_compute; reflexivity|reflexivity]
  end.
Defined.

(** * Preview and booking *)

(** X8. The payment decides only whether the result is committed.  A
    preview (no payment information) never touches the store; a call with
    any payment information fails exactly when the preview fails, with the
    same exception; when they succeed they agree on the flights, the stays,
    the stay plan, the cost breakdown, the total and the budget warning.
    The call books if and only if the payment information carries
    [auto_book_allowed] equal to [True]; otherwise it is the preview. *)
Theorem preview_matches_booking env it prefs pay today σ :
  match book_itinerary env it prefs None today σ,
        book_itinerary env it prefs pay today σ with
  | (Ok pre, σ0), (Ok res, σ') =>
      σ0 = σ
      ∧ status pre = simulation_only
      ∧ chosen_flights res = chosen_flights pre
      ∧ chosen_stays res = chosen_stays pre
      ∧ stay_plan res = stay_plan pre
      ∧ cost_breakdown res = cost_breakdown pre
      ∧ total_price_idr res = total_price_idr pre
      ∧ budget_warning res = budget_warning pre
      ∧ (status res = booked ↔
         ∃ info, pay = Some info ∧ auto_book_allowed info = Some true)
      ∧ (status res = simulation_only → res = pre ∧ σ' = σ)
  | (Raise e0, σ0), (Raise e, σ') => e = e0 ∧ σ0 = σ ∧ σ' = σ
  | _, _ => False
  end.
Proof.
  unfold book_itinerary, bind, lift, throw.
  destruct (read_prefs prefs) as [[[[[origin style] budget] days] start]|x];
    [|done].
  destruct (date_add start (days - 1)) as [end_|x]; [|done].
  destruct (default [] (it_cities it)) as [|first rest]; [done|].
  rewrite find_flights_for_trip_run. cbn [outbound_options return_options].
  destruct (is_empty (options_for _ origin first start) || is_empty _); [done|].
  destruct (py_min flight_price (options_for _ origin first start))
    as [outbound|x]; [|done].
  destruct (py_min flight_price (options_for _ _ origin end_))
    as [returning|x]; [|done].
  destruct (book_cities _ _ _ _ _ _ _ σ) as [[hotels|x] σ1] eqn:Hh.
  2: { by pose proof (book_cities_state _ _ _ _ _ _ _ _ _ _ Hh) as ->. }
  pose proof (book_cities_state _ _ _ _ _ _ _ _ _ _ Hh) as ->.
  destruct (int_mul_float _ float_0_2) as [extra|x]; [|done].
  destruct (int_mul_float budget float_1_2) as [threshold|x]; [|done].
  unfold ret at 1.
  destruct pay as [info|]; [case_bool_decide as Hauto|].
  - rewrite create_booking_run. unfold ret.
    split_and!; try done.
    split; [intros _; by exists info|done].
  - unfold ret. split_and!; try done.
    split; [done|]. intros (info' & [= <-] & Hyes). done.
  - unfold ret. split_and!; try done.
    split; [done|]. by intros (info' & ? & _).
Qed.

(** * The record of a booked resolution *)

Lemma truthy_ids_stays hotels :
  truthy_ids st_hotel_id (stay_of <$> hotels) = truthy_ids ht_id hotels.
Proof.
  unfold truthy_ids. induction hotels as [|h hotels IH]; [done|].
  rewrite fmap_cons. cbn [omap list_omap]. rewrite IH. done.
Qed.

(** X9. The record that a booked resolution persists agrees with the
    result handed to the caller: it is the one record appended to the
    ledger; its total is the result's total price and the grand total of the
    cost breakdown; its cities, country and start date are those of the
    itinerary and the preferences; its card suffix is that of the payment
    information and its transaction id is ["pay_"] and the fresh uuid; its
    two flights cost what the breakdown shows; its stays are the entries of
    the stay plan, one for one, and cost the breakdown's accommodation; its
    id lists are the non-empty ids of its flights and stays. *)
Theorem booked_record_matches_result env it prefs pay today σ res σ' :
  book_itinerary env it prefs pay today σ = (Ok res, σ') →
  status res = booked →
  ∃ record info,
    booking_record res = Some record
    ∧ pay = Some info
    ∧ BOOKINGS_FILE σ' = BOOKINGS_FILE σ ++ [record]
    ∧ bk_total_price_idr record = total_price_idr res
    ∧ bk_total_price_idr record = grand_total (cost_breakdown res)
    ∧ bk_cities record = default [] (it_cities it)
    ∧ bk_country record = it_destination_country it
    ∧ start_date prefs = Some (bk_start_date record)
    ∧ bk_card_last4 record = card_last4 info
    ∧ bk_payment_transaction_id record = Some ("pay_" +:+ uuid4_hex env)
    ∧ bk_created_at record = utcnow_isoformat env
    ∧ flight_price <$> bk_flight_details record
      = [outbound_flight (cost_breakdown res); return_flight (cost_breakdown res)]
    ∧ bk_flight_ids record = truthy_ids fl_id (bk_flight_details record)
    ∧ bk_hotel_ids record = truthy_ids st_hotel_id (bk_stays record)
    ∧ Forall2 (λ st e,
         st_hotel_id st = sp_hotel_id e ∧ st_hotel_name st = sp_hotel_name e
         ∧ st_city st = sp_city e ∧ st_country st = sp_country e
         ∧ st_nights st = sp_nights e ∧ st_category st = sp_category e
         ∧ st_stay_start_date st = sp_stay_start_date e
         ∧ st_stay_end_date st = sp_stay_end_date e)
        (bk_stays record) (stay_plan res)
    ∧ stays_cost (bk_stays record) = accommodation (cost_breakdown res).
Proof.
  intros Hrun Hbooked.
  apply book_itinerary_ok in Hrun
    as (origin & style & budget & days & start & end_ & first & rest & outbound
        & returning & hotels & extra & threshold & Hp & _ & Hc & _ & _ & _
        & _ & _ & Htotal & _ & Hplan & Hcost & Hcommit).
  destruct Hcommit as [(Hsim & _)|(info & record & Hpay & _ & _ & Hrec & _ & _ & Hcb)];
    [by rewrite Hsim in Hbooked|].
  apply read_prefs_ok in Hp as (_ & _ & _ & _ & Hstart).
  rewrite create_booking_run in Hcb. injection Hcb as <- <-.
  eexists _, info. split; [done|]. split; [done|].
  rewrite Htotal, Hcost, Hplan, Hc, Hstart. simpl.
  split_and!; try done.
  - by rewrite truthy_ids_stays.
  - apply Forall2_fmap, Forall_Forall2_diag, Forall_forall. by intros h _.
  - apply stays_cost_stay_of.
Qed.

(** The sample trip, booked. *)
Lemma booked_record_matches_result_witness :
  ∃ res σ',
    book_itinerary Sample.env Sample.itinerary Sample.prefs (Some Sample.payment) 0
      Sample.store = (Ok res, σ')
    ∧ ∃ record info,
        booking_record res = Some record
        ∧ Some Sample.payment = Some info
        ∧ BOOKINGS_FILE σ' = BOOKINGS_FILE Sample.store ++ [record]
        ∧ bk_total_price_idr record = total_price_idr res
        ∧ bk_total_price_idr record = grand_total (cost_breakdown res)
        ∧ bk_cities record = default [] (it_cities Sample.itinerary)
        ∧ bk_country record = it_destination_country Sample.itinerary
        ∧ start_date Sample.prefs = Some (bk_start_date record)
        ∧ bk_card_last4 record = card_last4 info
        ∧ bk_payment_transaction_id record = Some ("pay_" +:+ uuid4_hex Sample.env)
        ∧ bk_created_at record = utcnow_isoformat Sample.env
        ∧ flight_price <$> bk_flight_details record
          = [outbound_flight (cost_breakdown res); return_flight (cost_breakdown res)]
        ∧ bk_flight_ids record = truthy_ids fl_id (bk_flight_details record)
        ∧ bk_hotel_ids record = truthy_ids st_hotel_id (bk_stays record)
        ∧ Forall2 (λ st e,
             st_hotel_id st = sp_hotel_id e ∧ st_hotel_name st = sp_hotel_name e
             ∧ st_city st = sp_city e ∧ st_country st = sp_country e
             ∧ st_nights st = sp_nights e ∧ st_category st = sp_category e
             ∧ st_stay_start_date st = sp_stay_start_date e
             ∧ st_stay_end_date st = sp_stay_end_date e)
            (bk_stays record) (stay_plan res)
        ∧ stays_cost (bk_stays record) = accommodation (cost_breakdown res).
Proof.
  eexists _, _. split; [vm_compute; reflexivity|].
  match goal with |- context [stay_plan ?r] =>
    apply (booked_record_matches_result Sample.env Sample.itinerary Sample.prefs
             (Some Sample.payment) 0 Sample.store r);
      [vm_compute; reflexivity|reflexivity]
  end.
Defined.

(** * Booking ids *)

Lemma concat_empty_cons (x : string) (l : list string) :
  String.concat "" (x :: l) = x +:+ String.concat "" l.
Proof.
  destruct l as [|y l]; [|done]. simpl.
  induction x as [|c x IH]; [done|].
  change (String c x = String c (x +:+ "")). by rewrite <- IH.
Qed.

Lemma read_digits_zeros k s :
  read_digits 0 (String.concat "" (replicate k "0") +:+ s) = read_digits 0 s.
Proof.
  induction k as [|k IH]; [done|].
  rewrite replicate_S, concat_empty_cons.
  change (read_digits 0 (String "0" (String.concat "" (replicate k "0") +:+ s))
          = read_digits 0 s).
  exact IH.
Qed.

Lemma pretty_N_char_value d : (d < 10)%N → (N_of_ascii (pretty_N_char d) - 48 = d)%N.
Proof.
  intros Hd. rewrite pretty_N_char_digit by done. unfold digit.
  rewrite N_ascii_embedding by lia. lia.
Qed.

Lemma read_digits_pretty_N_go x s :
  read_digits 0 (pretty_N_go x s) = read_digits x s.
Proof.
  revert s. induction (N.lt_wf_0 x) as [x _ IH]; intros s.
  destruct (decide (x = 0)%N) as [->|Hx].
  { by rewrite pretty_N_go_0. }
  rewrite pretty_N_go_step by lia.
  rewrite IH by (apply N.div_lt; lia). simpl.
  rewrite pretty_N_char_value by (apply N.mod_lt; lia).
  f_equal. pose proof (N.div_mod x 10). lia.
Qed.

(** Reading back the digits of [f"{n:04d}"] gives [n]. *)
Lemma read_digits_format_04d n : read_digits 0 (format_04d n) = N.of_nat n.
Proof.
  unfold format_04d. rewrite read_digits_zeros.
  unfold pretty, pretty_nat, pretty, pretty_N.
  destruct (decide (N.of_nat n = 0)%N) as [->|Hn]; [done|].
  by rewrite read_digits_pretty_N_go.
Qed.

Lemma format_04d_inj n m : format_04d n = format_04d m → n = m.
Proof.
  intros H. apply (f_equal (read_digits 0)) in H.
  rewrite !read_digits_format_04d in H. lia.
Qed.

(** X10. Booking ids do not repeat.  On a ledger whose records are
    numbered by position, as every ledger grown from an empty file by
    commits is, a commit keeps the numbering, the id of the new record
    differs from every id already in the ledger, and all ids of the new
    ledger are pairwise distinct, beyond 9999 records as well; the digits of
    the new id read back as the new number of records. *)
Theorem booking_ids_stay_unique env country cities start end_ flights hotels total
    info payment σ record σ' :
  create_booking env country cities start end_ flights hotels total info payment σ
  = (Ok record, σ') →
  ledger_numbered σ →
  ledger_numbered σ'
  ∧ (∀ r, r ∈ BOOKINGS_FILE σ → bk_booking_id r ≠ bk_booking_id record)
  ∧ NoDup (bk_booking_id <$> BOOKINGS_FILE σ')
  ∧ ∃ digits, bk_booking_id record = "BK-" +:+ digits
              ∧ read_digits 0 digits = N.of_nat (length (BOOKINGS_FILE σ')).
Proof.
  rewrite create_booking_run. intros [= <- <-] Hnum.
  cbn [BOOKINGS_FILE bk_booking_id].
  set (record := {| bk_booking_id := _ |}).
  assert (Hnum' : ∀ i r, (BOOKINGS_FILE σ ++ [record]) !! i = Some r →
            bk_booking_id r = "BK-" +:+ format_04d (i + 1)).
  { intros i r Hi. apply lookup_app_Some in Hi as [Hi|[Hlen Hi]]; [by apply Hnum|].
    apply list_lookup_singleton_Some in Hi as [Hi <-]. simpl.
    do 2 f_equal. lia. }
  split_and!.
  - exact Hnum'.
  - intros r [i Hi]%list_elem_of_lookup_1 Heq.
    apply lookup_lt_Some in Hi as Hlt. apply Hnum in Hi. rewrite Hi in Heq.
    simpl in Heq. injection Heq as Heq. apply format_04d_inj in Heq. lia.
  - apply NoDup_alt. intros i j id Hi Hj.
    rewrite list_lookup_fmap in Hi, Hj.
    destruct ((BOOKINGS_FILE σ ++ [record]) !! i) as [ri|] eqn:Hri; [|done].
    destruct ((BOOKINGS_FILE σ ++ [record]) !! j) as [rj|] eqn:Hrj; [|done].
    apply Hnum' in Hri, Hrj. simpl in Hi, Hj. injection Hi as <-. injection Hj as Hj.
    rewrite Hri, Hrj in Hj. injection Hj as Hj. apply format_04d_inj in Hj. lia.
  - eexists. split; [reflexivity|]. rewrite read_digits_format_04d, length_app.
    simpl. lia.
Qed.

(** The second commit on the sample catalog. *)
Lemma booking_ids_stay_unique_witness :
  let commit :=
    create_booking Sample.env (Some "Japan") ["Tokyo"; "Osaka"] Sample.day0
      (Sample.day0 + 4) [] [] 0 Sample.payment
      (simulate_payment Sample.env 0 Sample.payment) in
  ∃ σ1 record σ2,
    (commit Sample.store).2 = σ1
    ∧ commit σ1 = (Ok record, σ2)
    ∧ ledger_numbered σ2
    ∧ (∀ r, r ∈ BOOKINGS_FILE σ1 → bk_booking_id r ≠ bk_booking_id record)
    ∧ NoDup (bk_booking_id <$> BOOKINGS_FILE σ2)
    ∧ ∃ digits, bk_booking_id record = "BK-" +:+ digits
                ∧ read_digits 0 digits = N.of_nat (length (BOOKINGS_FILE σ2)).
Proof.
  intros commit. eexists _, _, _. split; [vm_compute; reflexivity|].
  split; [vm_compute; reflexivity|].
  eapply (booking_ids_stay_unique Sample.env (Some "Japan") ["Tokyo"; "Osaka"]
            Sample.day0 (Sample.day0 + 4) [] [] 0 Sample.payment
            (simulate_payment Sample.env 0 Sample.payment)).
  - vm_compute; reflexivity.
  - intros [|[|i]] r Hr; [|done..]. injection Hr as <-. vm_compute. reflexivity.
Defined.

(** * The ids of a decrement *)

Lemma decrement_records_ext {R} (get_id : R → option string) get_quantity
    set_quantity (ids ids' : list string) (data : list R) :
  (∀ id, id ∈ ids ↔ id ∈ ids') →
  decrement_records get_id get_quantity set_quantity ids data
  = decrement_records get_id get_quantity set_quantity ids' data.
Proof.
  intros Hsame. apply list_eq. intros i. rewrite !decrement_records_lookup.
  destruct (data !! i) as [r|]; [simpl|done]. f_equal.
  apply (f_equal (λ b : bool, if b then _ else _)).
  apply bool_decide_ext, Hsame.
Qed.

(** X11. [_decrement_inventory] takes its ids as a set: two lists with the
    same elements, in any order and with any repetitions, leave the same
    file behind.  An id given twice takes one seat (one room), not two. *)
Theorem decrement_inventory_ids_as_set (ids ids' : list string) σ :
  (∀ id, id ∈ ids ↔ id ∈ ids') →
  _decrement_inventory FLIGHTS_FILE set_flights fl_id fl_seats_left set_seats_left
    ids σ
  = _decrement_inventory FLIGHTS_FILE set_flights fl_id fl_seats_left set_seats_left
      ids' σ
  ∧ _decrement_inventory HOTELS_FILE set_hotels ht_id ht_rooms_left set_rooms_left
      ids σ
    = _decrement_inventory HOTELS_FILE set_hotels ht_id ht_rooms_left set_rooms_left
        ids' σ
  ∧ ∀ id, _decrement_inventory FLIGHTS_FILE set_flights fl_id fl_seats_left
            set_seats_left (id :: id :: ids) σ
          = _decrement_inventory FLIGHTS_FILE set_flights fl_id fl_seats_left
              set_seats_left (id :: ids') σ.
Proof.
  intros Hsame. rewrite !decrement_flights_run, !decrement_hotels_run.
  split_and!.
  - by rewrite (decrement_records_ext _ _ _ ids ids').
  - by rewrite (decrement_records_ext _ _ _ ids ids').
  - intros id. rewrite !decrement_flights_run.
    rewrite (decrement_records_ext _ _ _ (id :: id :: ids) (id :: ids')); [done|].
    intros x. rewrite !elem_of_cons, Hsame. tauto.
Qed.

(** The flight of the sample catalog, named twice and once. *)
Lemma decrement_inventory_ids_as_set_witness :
  let dec ids :=
    _decrement_inventory FLIGHTS_FILE set_flights fl_id fl_seats_left set_seats_left
      ids Sample.store in
  dec ["FL-1"; "FL-3"; "FL-1"] = dec ["FL-3"; "FL-1"]
  ∧ seats <$> FLIGHTS_FILE (dec ["FL-1"; "FL-3"; "FL-1"]).2 = [2; 2; 0].
Proof.
  intros dec. split; [|vm_compute; reflexivity].
  apply (decrement_inventory_ids_as_set ["FL-1"; "FL-3"; "FL-1"] ["FL-3"; "FL-1"]
           Sample.store).
  intros id. rewrite !elem_of_cons. tauto.
Defined.

(** * Stored payment details *)

Section PaymentText.

Import Payment.

Lemma digits_of_idem s : digits_of (digits_of s) = digits_of s.
Proof.
  induction s as [|c s IH]; [done|]. simpl.
  destruct (is_digit c) eqn:Hc; [|done]. simpl. by rewrite Hc, IH.
Qed.

Lemma digits_of_length s : (String.length (digits_of s) ≤ String.length s)%nat.
Proof.
  induction s as [|c s IH]; [done|]. simpl. destruct (is_digit c); simpl; lia.
Qed.

(** A string of digits and its tails. *)
Lemma digits_of_drop_chars k s :
  digits_of s = s → digits_of (drop_chars k s) = drop_chars k s.
Proof.
  revert s. induction k as [|k IH]; intros s Hs; [done|].
  destruct s as [|c s]; [done|]. simpl in *. apply IH.
  destruct (is_digit c).
  - by injection Hs.
  - pose proof (digits_of_length s) as Hlen. rewrite Hs in Hlen. simpl in Hlen. lia.
Qed.

Lemma drop_chars_length k s :
  String.length (drop_chars k s) = (String.length s - k)%nat.
Proof.
  revert s. induction k as [|k IH]; intros s; simpl; [lia|].
  destruct s as [|c s]; [done|]. simpl. apply IH.
Qed.

Lemma drop_chars_suffix k s : ∃ front, s = front +:+ drop_chars k s.
Proof.
  revert s. induction k as [|k IH]; intros s; [by exists ""|].
  destruct s as [|c s]; [by exists ""|].
  destruct (IH s) as [front Hfront]. exists (String c front). simpl.
  change (String c s = String c (front +:+ drop_chars k s)). by rewrite <- Hfront.
Qed.

End PaymentText.

(** X12. [save_payment] keeps at most the last four digits of the card
    number.  The stored suffix consists of digits, it is what the digits of
    the card number end with, it has four characters as soon as the number
    has four digits and is ["0000"] when the number has none.  The brand and
    the suffix depend on the digits alone: spaces, dashes and other
    characters in the number, the expiry, the CVV and the previous content
    of the file change nothing. *)
Theorem save_payment_keeps_last_four env card_number expiry cvv auto file :
  let digits := Payment.digits_of card_number in
  let saved := (Payment.save_payment env card_number expiry cvv auto file).1 in
  (∃ last4,
     Payment.pm_card_last4 saved = Some last4
     ∧ Payment.digits_of last4 = last4
     ∧ (String.length last4 ≤ 4)%nat
     ∧ (digits = "" → last4 = "0000")
     ∧ (digits ≠ "" → ∃ front, digits = front +:+ last4)
     ∧ ((4 ≤ String.length digits)%nat → String.length last4 = 4%nat)
     ∧ ((String.length digits ≤ 4)%nat → digits ≠ "" → last4 = digits))
  ∧ (∀ expiry' cvv' file',
       Payment.save_payment env digits expiry' cvv' auto file'
       = Payment.save_payment env card_number expiry cvv auto file)
  ∧ Payment.has_payment saved = Some true
  ∧ Payment.pm_auto_book_allowed saved = Some auto
  ∧ Payment.token_id saved = Some ("tok_demo_" +:+ uuid4_hex env).
Proof.
  intros digits saved. subst saved. unfold Payment.save_payment. simpl.
  fold digits. split_and!; try done.
  - case_bool_decide as Hd.
    + unfold Payment.last_chars. eexists. split; [done|]. split_and!.
      * apply digits_of_drop_chars, digits_of_idem.
      * rewrite drop_chars_length. lia.
      * done.
      * intros _. apply drop_chars_suffix.
      * intros ?. rewrite drop_chars_length. lia.
      * intros Hle _. by replace (String.length digits - 4)%nat with 0%nat by lia.
    + exists "0000". by split_and!.
  - intros expiry' cvv' file'. subst digits. by rewrite digits_of_idem.
Qed.

(** The card number of the source's own example, typed with spaces. *)
Example save_payment_sample :
  (Payment.save_payment Sample.env "4111 1111 1111 1111" "12/29" "123" true
     Payment.Unreadable).1
  = {| Payment.has_payment := Some true;
       Payment.pm_card_last4 := Some "1111";
       Payment.card_brand := Some "Visa";
       Payment.token_id := Some "tok_demo_0f";
       Payment.pm_auto_book_allowed := Some true |}.
Proof. reflexivity. Qed.

(** X13. What is saved is what is read back and what decides the booking.
    [get_payment_info] returns an object only when it carries [has_payment]
    equal to [True], and nothing from a missing or malformed file; after
    [save_payment] it returns the saved object, whatever the file held
    before.  Passed to [book_itinerary], that object makes a successful
    resolution a booking exactly when auto-booking was allowed at saving
    time, and the booking record then carries the saved card suffix; when it
    was not allowed the store is left as it was. *)
Theorem saved_payment_drives_booking env0 card_number expiry cvv auto file :
  let saved := Payment.save_payment env0 card_number expiry cvv auto file in
  Payment.get_payment_info saved.2 = Some saved.1
  ∧ Payment.get_payment_info Payment.Unreadable = None
  ∧ Payment.get_payment_info Payment.NotObject = None
  ∧ (∀ other data, Payment.get_payment_info other = Some data →
       other = Payment.Object data ∧ Payment.has_payment data = Some true)
  ∧ ∀ env it prefs today σ res σ',
      book_itinerary env it prefs (Some (Payment.as_payment_info saved.1)) today σ
      = (Ok res, σ') →
      (status res = booked ↔ auto = true)
      ∧ (auto = false → σ' = σ)
      ∧ ∀ record, booking_record res = Some record →
          bk_card_last4 record = Payment.pm_card_last4 saved.1
          ∧ BOOKINGS_FILE σ' = BOOKINGS_FILE σ ++ [record].
Proof.
  intros saved. split_and!; try done.
  - intros other data. unfold Payment.get_payment_info.
    destruct other as [| |data']; simpl; try done.
    case_bool_decide; [|done]. by intros [= ->].
  - intros env it prefs today σ res σ' Hrun.
    apply book_itinerary_ok in Hrun
      as (origin & style & budget & days & start & end_ & first & rest & outbound
          & returning & hotels & extra & threshold & _ & _ & _ & _ & _ & _
          & _ & _ & _ & _ & _ & _ & Hcommit).
    destruct Hcommit as [(Hsim & Hnone & _ & _ & -> & Hno)
                        |(info & record & [= <-] & Hauto & Hbooked & Hrec & _ & _ & Hcb)].
    + specialize (Hno _ eq_refl). simpl in Hno. rewrite Hsim, Hnone.
      split_and!; [|done|done].
      split; [done|]. intros ->. done.
    + simpl in Hauto. injection Hauto as ->. rewrite Hbooked, Hrec.
      split_and!; [done|done|].
      intros record' [= <-]. rewrite create_booking_run in Hcb.
      by injection Hcb as <- <-.
Qed.

(** * The trip form *)

(** X14. Moving the trip-length slider or the start date re-derives the
    end date: when [_on_days_change] returns, the trip length is within 2
    and 14 (unchanged if it already was), the start date is untouched and
    the end date is [start + days - 1], the day that [book_itinerary] takes
    as the end of a trip of that length; running either callback again
    changes nothing.  The only failure is the [OverflowError] of a start
    date whose end date would lie beyond the last representable day, and it
    leaves the clamped trip length behind. *)
Theorem days_change_derives_end_date today s :
  let start := default today (App.start_date_input s) in
  let days := App._clamp_days (default 5 (App.trip_length_days_input s)) in
  2 ≤ days ≤ 14
  ∧ (∀ old, App.trip_length_days_input s = Some old → 2 ≤ old ≤ 14 → days = old)
  ∧ match App._on_days_change today s with
    | (Ok _, s') =>
        App.trip_length_days_input s' = Some days
        ∧ App.start_date_input s' = App.start_date_input s
        ∧ App.end_date_input s' = Some (start + days - 1)
        ∧ date_add start (days - 1) = Ok (start + days - 1)
        ∧ App._on_days_change today s' = (Ok (), s')
        ∧ App._on_start_change today s' = (Ok (), s')
        ∧ App._on_end_change today s' = (Ok (), s')
    | (Raise e, s') =>
        e = OverflowError
        ∧ (MINORDINAL ≤ start → MAXORDINAL < start + days - 1)
        ∧ s' = App.set_days days s
    end.
Proof.
  intros start days.
  assert (Hrange : 2 ≤ days ≤ 14) by (subst days; unfold App._clamp_days; lia).
  split; [done|]. split.
  { intros old Hold Hin. subst days. rewrite Hold. unfold App._clamp_days. simpl. lia. }
  unfold App._on_days_change. cbn [App.set_days App.start_date_input].
  fold days. fold start.
  destruct (date_add start (days - 1)) as [end_d|e] eqn:Hend.
  - apply date_add_ok in Hend as Heq. subst end_d.
    assert (Hclamp : App._clamp_days days = days) by (unfold App._clamp_days; lia).
    replace (start + (days - 1)) with (start + days - 1) in * by lia.
    split_and!; try done.
    + unfold App._on_days_change. simpl. fold start. rewrite Hclamp, Hend.
      by replace (start + (days - 1)) with (start + days - 1) by lia.
    + unfold App._on_start_change. simpl. fold start. rewrite Hclamp, Hend.
      by replace (start + (days - 1)) with (start + days - 1) by lia.
    + unfold App._on_end_change. simpl. fold start.
      replace (start + days - 1 - start + 1) with days by lia. by rewrite Hclamp.
  - apply date_add_raise in Hend as He. split; [done|]. split; [|done].
    unfold date_add, timedelta in Hend.
    rewrite bool_decide_eq_true_2 in Hend by (unfold MAX_DELTA_DAYS; lia).
    simpl in Hend. case_bool_decide as Hin; [done|].
    unfold MINORDINAL in *. lia.
Qed.

(** X15. Picking an end date sets the trip length to the number of days
    from the start date to the end date, both included, clamped to 2..14;
    the two dates are left as they are.  So the three fields agree
    afterwards, with [end = start + days - 1], exactly when the end date is
    1 to 13 days after the start date; an end date on or before the start
    date gives a trip of 2 days, one 13 days or more after it gives 14, and
    outside that range the end date shown is not the one a booking will
    use. *)
Theorem end_change_clamps_length today s start end_ :
  App.start_date_input s = Some start →
  App.end_date_input s = Some end_ →
  ∃ s' days,
    App._on_end_change today s = (Ok (), s')
    ∧ App.start_date_input s' = Some start
    ∧ App.end_date_input s' = Some end_
    ∧ App.trip_length_days_input s' = Some days
    ∧ 2 ≤ days ≤ 14
    ∧ (1 ≤ end_ - start ≤ 13 ↔ end_ = start + days - 1)
    ∧ (end_ ≤ start → days = 2)
    ∧ (start + 13 ≤ end_ → days = 14)
    ∧ ∀ env it prefs pay now σ res σ' record,
        trip_length_days prefs = Some days →
        start_date prefs = Some (IsoDate start) →
        book_itinerary env it prefs pay now σ = (Ok res, σ') →
        booking_record res = Some record →
        bk_end_date record = isoformat (start + days - 1).
Proof.
  intros Hstart Hend. unfold App._on_end_change. rewrite Hstart, Hend. simpl.
  eexists _, _. split; [done|]. simpl.
  split_and!; try done; unfold App._clamp_days; try lia.
  intros env it prefs pay now σ res σ' record Hdays Hs Hrun Hrec.
  apply book_itinerary_hotels in Hrun
    as (origin & style & budget & days' & start' & first & rest & hotels & Hp & _
        & _ & _ & _ & _ & Hrecord).
  apply read_prefs_ok in Hp as (_ & _ & _ & Hd' & Hs').
  rewrite Hdays in Hd'. injection Hd' as <-.
  rewrite Hs in Hs'. injection Hs' as <-.
  by destruct (Hrecord record Hrec) as (_ & _ & _ & ->).
Qed.

(** An end date picked before the start date. *)
Lemma end_change_clamps_length_witness :
  let s := {| App.start_date_input := Some Sample.day0;
              App.trip_length_days_input := Some 5;
              App.end_date_input := Some (Sample.day0 - 3) |} in
  ∃ s' days,
    App._on_end_change 0 s = (Ok (), s')
    ∧ App.start_date_input s' = Some Sample.day0
    ∧ App.end_date_input s' = Some (Sample.day0 - 3)
    ∧ App.trip_length_days_input s' = Some days
    ∧ 2 ≤ days ≤ 14
    ∧ (1 ≤ Sample.day0 - 3 - Sample.day0 ≤ 13 ↔ Sample.day0 - 3 = Sample.day0 + days - 1)
    ∧ (Sample.day0 - 3 ≤ Sample.day0 → days = 2)
    ∧ (Sample.day0 + 13 ≤ Sample.day0 - 3 → days = 14)
    ∧ ∀ env it prefs pay now σ res σ' record,
        trip_length_days prefs = Some days →
        start_date prefs = Some (IsoDate Sample.day0) →
        book_itinerary env it prefs pay now σ = (Ok res, σ') →
        booking_record res = Some record →
        bk_end_date record = isoformat (Sample.day0 + days - 1).
Proof.
  intros s.
  apply (end_change_clamps_length 0 s Sample.day0 (Sample.day0 - 3)); reflexivity.
Defined.

(** * Amounts on screen *)

Lemma append_cons c (s t : string) : String c s +:+ t = String c (s +:+ t).
Proof. reflexivity. Qed.

Lemma append_assoc (s t u : string) : (s +:+ t) +:+ u = s +:+ t +:+ u.
Proof.
  induction s as [|c s IH]; [done|]. by rewrite !append_cons, IH.
Qed.

Lemma pretty_N_go_app x s : pretty_N_go x s = pretty_N_go x "" +:+ s.
Proof.
  revert s. induction (N.lt_wf_0 x) as [x _ IH]; intros s.
  destruct (decide (x = 0)%N) as [->|Hx].
  { by rewrite !pretty_N_go_0. }
  rewrite !(pretty_N_go_step x) by lia.
  rewrite (IH (x `div` 10)%N) by (apply N.div_lt; lia).
  rewrite (IH (x `div` 10)%N ltac:(apply N.div_lt; lia) (String _ "")).
  by rewrite append_assoc.
Qed.

(** The decimal form of a number of four digits or more: that of its
    thousands, then its last three digits. *)
Lemma pretty_N_thousands (x : N) :
  (1000 ≤ x)%N → pretty x = pretty (x `div` 1000)%N +:+ three_digits x.
Proof.
  intros Hx. unfold pretty, pretty_N.
  assert (H10 : (0 < x `div` 10)%N)
    by (apply N.div_str_pos; lia).
  assert (H100 : (0 < (x `div` 10) `div` 10)%N)
    by (rewrite N.Div0.div_div; apply N.div_str_pos; lia).
  assert (H1000 : (0 < x `div` 1000)%N) by (apply N.div_str_pos; lia).
  rewrite decide_False by lia. rewrite (decide_False (P := (x `div` 1000 = 0)%N)) by lia.
  rewrite (pretty_N_go_step x) by lia.
  rewrite (pretty_N_go_step (x `div` 10)) by done.
  rewrite (pretty_N_go_step ((x `div` 10) `div` 10)) by done.
  rewrite !N.Div0.div_div. change (10 * 10)%N with 100%N. change (100 * 10)%N with 1000%N.
  rewrite pretty_N_go_app. unfold three_digits.
  by rewrite !pretty_N_char_digit by (apply N.mod_lt; lia).
Qed.

Lemma pretty_N_short (x : N) : (x < 1000)%N → (String.length (pretty x) ≤ 3)%nat.
Proof.
  intros Hx. unfold pretty, pretty_N.
  destruct (decide (x = 0)%N) as [Hz|Hnz]; [simpl; lia|].
  rewrite pretty_N_go_step by lia.
  destruct (decide (x `div` 10 = 0)%N) as [H1|H1].
  { rewrite H1, pretty_N_go_0. simpl. lia. }
  rewrite pretty_N_go_step by (by apply N.neq_0_lt_0).
  destruct (decide ((x `div` 10) `div` 10 = 0)%N) as [H2|H2].
  { rewrite H2, pretty_N_go_0. simpl. lia. }
  rewrite pretty_N_go_step by (by apply N.neq_0_lt_0).
  assert (H3 : (((x `div` 10) `div` 10) `div` 10 = 0)%N).
  { rewrite !N.Div0.div_div. apply N.div_small. lia. }
  rewrite H3, pretty_N_go_0. simpl. lia.
Qed.

Lemma pretty_N_nonempty (x : N) : pretty x ≠ "".
Proof.
  unfold pretty, pretty_N. destruct (decide (x = 0)%N) as [Hz|Hnz]; [done|].
  rewrite pretty_N_go_step, pretty_N_go_app by lia.
  by destruct (pretty_N_go (x `div` 10) "").
Qed.

Lemma pretty_N_char_not_comma d : pretty_N_char d ≠ ","%char.
Proof. unfold pretty_N_char. by repeat case_match. Qed.

Section Grouping.

Import Display.

Lemma replace_char_app old new (s t : string) :
  replace_char old new (s +:+ t) = replace_char old new s +:+ replace_char old new t.
Proof.
  induction s as [|c s IH]; [done|]. rewrite append_cons. simpl.
  by rewrite IH, append_cons.
Qed.

Lemma replace_comma_pretty_N_go x s :
  replace_char "," "." (pretty_N_go x s)
  = pretty_N_go x (replace_char "," "." s).
Proof.
  revert s. induction (N.lt_wf_0 x) as [x _ IH]; intros s.
  destruct (decide (x = 0)%N) as [->|Hx].
  { by rewrite !pretty_N_go_0. }
  rewrite !(pretty_N_go_step x) by lia.
  rewrite IH by (apply N.div_lt; lia). simpl.
  by rewrite bool_decide_eq_false_2 by apply pretty_N_char_not_comma.
Qed.

Lemma replace_comma_pretty (x : N) : replace_char "," "." (pretty x) = pretty x.
Proof.
  unfold pretty, pretty_N. destruct (decide (x = 0)%N); [done|].
  by rewrite replace_comma_pretty_N_go.
Qed.

Lemma replace_comma_three_digits (x : N) :
  replace_char "," "." (three_digits x) = three_digits x.
Proof.
  unfold three_digits.
  rewrite <- !pretty_N_char_digit by (apply N.mod_lt; lia). simpl.
  by rewrite !bool_decide_eq_false_2 by apply pretty_N_char_not_comma.
Qed.

Lemma list_ascii_of_append (s t : string) :
  String.list_ascii_of_string (s +:+ t)
  = String.list_ascii_of_string s ++ String.list_ascii_of_string t.
Proof.
  induction s as [|c s IH]; [done|]. rewrite append_cons. simpl. by rewrite IH.
Qed.

Lemma string_of_list_app (l k : list ascii) :
  String.string_of_list_ascii (l ++ k)
  = String.string_of_list_ascii l +:+ String.string_of_list_ascii k.
Proof.
  induction l as [|c l IH]; [done|]. simpl. by rewrite IH, append_cons.
Qed.

Lemma list_ascii_length (s : string) :
  length (String.list_ascii_of_string s) = String.length s.
Proof. induction s as [|c s IH]; [done|]. simpl. by rewrite IH. Qed.

Lemma group_thousands_short (l : list ascii) :
  (length l ≤ 3)%nat → group_thousands l = l.
Proof.
  destruct l as [|a [|b [|c [|d l]]]]; simpl; intros; try done. lia.
Qed.

(** [f"{n:,}"] on a number that is not negative. *)
Lemma format_thousands_small v :
  0 ≤ v < 1000 → format_thousands v = pretty (Z.to_N v).
Proof.
  intros Hv. unfold format_thousands. rewrite bool_decide_eq_false_2 by lia.
  replace (Z.abs_N v) with (Z.to_N v) by lia.
  rewrite group_thousands_short.
  - by rewrite rev_involutive, String.string_of_list_ascii_of_string.
  - rewrite length_rev, list_ascii_length. apply pretty_N_short. lia.
Qed.

Lemma format_thousands_step v :
  1000 ≤ v →
  format_thousands v
  = format_thousands (v `div` 1000) +:+ "," +:+ three_digits (Z.to_N v).
Proof.
  intros Hv. unfold format_thousands.
  assert (0 ≤ v `div` 1000) by (apply Z.div_pos; lia).
  rewrite !bool_decide_eq_false_2 by lia.
  replace (Z.abs_N v) with (Z.to_N v) by lia.
  replace (Z.abs_N (v `div` 1000)) with (Z.to_N (v `div` 1000)) by lia.
  rewrite Z2N.inj_div by lia. change (Z.to_N 1000) with 1000%N.
  rewrite pretty_N_thousands by lia.
  set (front := pretty (Z.to_N v `div` 1000)%N).
  rewrite list_ascii_of_append, rev_app_distr. unfold three_digits at 1.
  cbn [String.list_ascii_of_string rev app].
  destruct (rev (String.list_ascii_of_string front)) as [|c0 r] eqn:Hr.
  { apply (f_equal (@length ascii)) in Hr. rewrite length_rev, list_ascii_length in Hr.
    pose proof (pretty_N_nonempty (Z.to_N v `div` 1000)) as Hne. fold front in Hne.
    by destruct front. }
  cbn [group_thousands]. fold (group_thousands (c0 :: r)).
  cbn [rev]. rewrite <- !app_assoc. cbn [app].
  by rewrite string_of_list_app.
Qed.

End Grouping.

(** X16. [format_idr] writes an amount with a dot between groups of three
    digits: ["-"] for [None]; below one thousand the plain decimal form
    after ["IDR "]; from one thousand on, the text for the thousands, a dot,
    and the last three digits; and for a negative amount the text of its
    absolute value with the sign after ["IDR "]. *)
Theorem format_idr_groups_of_three :
  Display.format_idr None = "-"
  ∧ (∀ v, 0 ≤ v < 1000 → Display.format_idr (Some v) = "IDR " +:+ pretty (Z.to_N v))
  ∧ (∀ v, 1000 ≤ v →
       Display.format_idr (Some v)
       = Display.format_idr (Some (v `div` 1000)) +:+ "." +:+ three_digits (Z.to_N v))
  ∧ (∀ v, v < 0 →
       ∃ amount, Display.format_idr (Some (- v)) = "IDR " +:+ amount
                 ∧ Display.format_idr (Some v) = "IDR -" +:+ amount).
Proof.
  unfold Display.format_idr. split_and!.
  - done.
  - intros v Hv. rewrite format_thousands_small by done.
    rewrite replace_char_app, replace_comma_pretty. done.
  - intros v Hv. rewrite format_thousands_step by done.
    rewrite !replace_char_app, replace_comma_three_digits, <- !append_assoc.
    done.
  - intros v Hv. unfold Display.format_thousands.
    rewrite bool_decide_eq_false_2, bool_decide_eq_true_2 by lia.
    replace (Z.abs_N (- v)) with (Z.abs_N v) by lia.
    eexists. rewrite !replace_char_app. split; [done|].
    rewrite <- append_assoc. done.
Qed.

Example format_idr_sample :
  Display.format_idr (Some 6240000) = "IDR 6.240.000"
  ∧ Display.format_idr (Some (-1500)) = "IDR -1.500"
  ∧ Display.format_idr (Some 999) = "IDR 999".
Proof. split_and!; vm_compute; reflexivity. Qed.

(** * Names: case and surrounding whitespace *)

Lemma is_space_lower_char c : is_space (lower_char c) = is_space c.
Proof. by destruct c as [[] [] [] [] [] [] [] []]. Qed.

Lemma lower_char_idem c : lower_char (lower_char c) = lower_char c.
Proof. by destruct c as [[] [] [] [] [] [] [] []]. Qed.

Lemma lower_idem s : lower (lower s) = lower s.
Proof. induction s as [|c s IH]; [done|]. simpl. by rewrite lower_char_idem, IH. Qed.

Lemma lower_length s : String.length (lower s) = String.length s.
Proof. induction s as [|c s IH]; [done|]. simpl. by rewrite IH. Qed.

Lemma lstrip_lower s : lstrip (lower s) = lower (lstrip s).
Proof.
  induction s as [|c s IH]; [done|]. simpl. rewrite is_space_lower_char.
  by destruct (is_space c).
Qed.

Lemma rstrip_lower s : rstrip (lower s) = lower (rstrip s).
Proof.
  induction s as [|c s IH]; [done|]. simpl. rewrite IH, is_space_lower_char.
  destruct (rstrip s); simpl; [by destruct (is_space c)|done].
Qed.

Lemma strip_lower s : strip (lower s) = lower (strip s).
Proof. unfold strip. by rewrite lstrip_lower, rstrip_lower. Qed.

Lemma lstrip_length s : (String.length (lstrip s) ≤ String.length s)%nat.
Proof.
  induction s as [|c s IH]; [done|]. simpl. destruct (is_space c); simpl; lia.
Qed.

Lemma lstrip_fixed s :
  String.length (lstrip s) = String.length s → lstrip s = s.
Proof.
  destruct s as [|c s]; [done|]. simpl. destruct (is_space c); [|done].
  pose proof (lstrip_length s). simpl. lia.
Qed.

Lemma lstrip_idem s : lstrip (lstrip s) = lstrip s.
Proof.
  induction s as [|c s IH]; [done|]. simpl.
  destruct (is_space c) eqn:Hc; [done|]. simpl. by rewrite Hc.
Qed.

Lemma rstrip_length s : (String.length (rstrip s) ≤ String.length s)%nat.
Proof.
  induction s as [|c s IH]; [done|]. simpl.
  destruct (rstrip s); [destruct (is_space c)|]; simpl in *; lia.
Qed.

Lemma rstrip_fixed s :
  String.length (rstrip s) = String.length s → rstrip s = s.
Proof.
  induction s as [|c s IH]; [done|]. simpl.
  destruct (rstrip s) as [|a r] eqn:Hr.
  - destruct (is_space c); simpl; [done|]. intros Hlen.
    destruct s; [done|simpl in Hlen; lia].
  - simpl. intros Hlen. rewrite IH; [done|]. simpl. lia.
Qed.

Lemma rstrip_idem s : rstrip (rstrip s) = rstrip s.
Proof.
  induction s as [|c s IH]; [done|]. simpl.
  destruct (rstrip s) as [|a r] eqn:Hr.
  - destruct (is_space c) eqn:Hc; [done|]. simpl. by rewrite Hc.
  - change (rstrip (String c (String a r))) with
      (match rstrip (String a r) with
       | EmptyString => if is_space c then EmptyString else String c EmptyString
       | rest' => String c rest'
       end).
    by rewrite IH.
Qed.

Lemma lstrip_rstrip s : lstrip s = s → lstrip (rstrip s) = rstrip s.
Proof.
  destruct s as [|c s]; [done|]. simpl.
  destruct (is_space c) eqn:Hc.
  { intros Hs. pose proof (lstrip_length s) as Hlen. rewrite Hs in Hlen.
    simpl in Hlen. lia. }
  intros _. destruct (rstrip s); simpl; by rewrite Hc.
Qed.

Lemma strip_idem s : strip (strip s) = strip s.
Proof.
  unfold strip. rewrite (lstrip_rstrip (lstrip s)) by apply lstrip_idem.
  apply rstrip_idem.
Qed.

Lemma strip_fixed s : String.length (strip s) = String.length s → strip s = s.
Proof.
  unfold strip. intros Hlen.
  pose proof (rstrip_length (lstrip s)). pose proof (lstrip_length s).
  rewrite rstrip_fixed by lia. apply lstrip_fixed. lia.
Qed.

(** The normal form of a query is its own normal form. *)
Lemma normalized_lower s : lower (strip (lower s)) = lower (strip s).
Proof. by rewrite strip_lower, lower_idem. Qed.

Lemma normalized_strip s : lower (strip (strip s)) = lower (strip s).
Proof. by rewrite strip_idem. Qed.

(** A name that equals the normal form of a query, case apart, has no
    whitespace around it. *)
Lemma matches_unpadded name query :
  lower name = lower (strip query) → strip name = name.
Proof.
  intros Hm. apply strip_fixed. rewrite <- (lower_length (strip name)), <- strip_lower.
  rewrite Hm, strip_lower, strip_idem, <- Hm. apply lower_length.
Qed.

(** X17. The lookups of the inventory take the names in a query without
    regard to case or to whitespace around them: the flight options of a
    route, the hotels of a stay and the cities of a country are the same for
    a name, for its lower-case form and for its stripped form. *)
Theorem queries_ignore_case_and_padding flights σ metadata src dst wanted city
    country tier stay_start stay_end query :
  options_for flights (lower src) (lower dst) wanted
  = options_for flights src dst wanted
  ∧ options_for flights (strip src) (strip dst) wanted
    = options_for flights src dst wanted
  ∧ find_hotels_for_city (lower city) (Some (lower country)) (lower tier)
      stay_start stay_end σ
    = find_hotels_for_city city (Some country) tier stay_start stay_end σ
  ∧ find_hotels_for_city (strip city) (Some (strip country)) (strip tier)
      stay_start stay_end σ
    = find_hotels_for_city city (Some country) tier stay_start stay_end σ
  ∧ Metadata.get_cities_for_country metadata (lower query)
    = Metadata.get_cities_for_country metadata query
  ∧ Metadata.get_cities_for_country metadata (strip query)
    = Metadata.get_cities_for_country metadata query.
Proof.
  split_and!.
  - unfold options_for, on_route. by rewrite !normalized_lower.
  - unfold options_for, on_route. by rewrite !normalized_strip.
  - rewrite !find_hotels_for_city_some. unfold in_city, hotel_fits.
    by rewrite !normalized_lower.
  - rewrite !find_hotels_for_city_some. unfold in_city, hotel_fits.
    by rewrite !normalized_strip.
  - unfold Metadata.get_cities_for_country. by rewrite normalized_lower.
  - unfold Metadata.get_cities_for_country. by rewrite normalized_strip.
Qed.

(** X18. The records are compared as they are written, apart from case.  A
    flight whose origin or destination is written with whitespace around it
    is never among the options of a route, and a hotel whose city, country
    or category is written so is never among the hotels of a stay, whatever
    the query.  The country metadata is more lenient: an entry is returned
    exactly when its country, stripped and in lower case, is the normal form
    of the query. *)
Theorem padded_records_never_match flights σ metadata :
  (∀ src dst wanted f, f ∈ options_for flights src dst wanted →
     strip (default "" (fl_from f)) = default "" (fl_from f)
     ∧ strip (default "" (fl_to f)) = default "" (fl_to f))
  ∧ (∀ city country tier stay_start stay_end h,
       h ∈ hotel_matches σ city country tier stay_start stay_end →
       strip (default "" (ht_city h)) = default "" (ht_city h)
       ∧ strip (default "" (ht_country h)) = default "" (ht_country h)
       ∧ strip (default "" (ht_category h)) = default "" (ht_category h))
  ∧ (∀ query entry,
       entry ∈ Metadata.get_cities_for_country metadata query
       ↔ entry ∈ metadata
         ∧ lower (strip (default "" (Metadata.ce_country entry)))
           = lower (strip query)).
Proof.
  split_and!.
  - intros src dst wanted f (_ & Hroute & _)%options_for_elem.
    apply on_route_spec in Hroute as (Hfrom & Hto & _).
    split; by eapply matches_unpadded.
  - intros city country tier s e h (_ & Hc1 & Hc2 & Hc3 & _)%hotel_matches_elem.
    split_and!; by eapply matches_unpadded.
  - intros query entry. unfold Metadata.get_cities_for_country.
    rewrite list_elem_of_filter. tauto.
Qed.

(** A padded country is found in the metadata; a padded city hides the
    hotel. *)
Example padding_sample :
  let entry := {| Metadata.ce_country := Some " Japan "; Metadata.ce_city := Some "Tokyo" |} in
  let padded :=
    Sample.hotel "HT-9" " Tokyo" "Japan" "luxury" 100000 3 (Sample.day0 - 30)
      (Sample.day0 + 30) in
  Metadata.get_cities_for_country [entry] "JAPAN" = [entry]
  ∧ hotel_matches
      {| BOOKINGS_FILE := []; FLIGHTS_FILE := []; HOTELS_FILE := [padded] |}
      " Tokyo" "Japan" "luxury" Sample.day0 (Sample.day0 + 1) = [].
Proof. split; vm_compute; reflexivity. Qed.

(** * Styles and countries as the resolver reads them *)

Lemma hotel_matches_tier σ city country tier tier' stay_start stay_end :
  lower (strip tier) = lower (strip tier') →
  hotel_matches σ city country tier stay_start stay_end
  = hotel_matches σ city country tier' stay_start stay_end.
Proof. intros Htier. unfold hotel_matches, hotel_fits. by rewrite Htier. Qed.

(** X19. The downgrade needs the style spelled exactly.  The hotel lookup
    compares styles without case and surrounding whitespace, the downgrade
    compares the requested style with ["luxury"] and ["mid-range"] as
    written.  So a request whose style is one of the two in another
    spelling finds the same hotels as the plain spelling, but when there is
    none it raises [NoHotelsAvailable] where the plain spelling goes one
    tier down. *)
Theorem downgrade_needs_exact_style σ city country style tier below stay_start
    stay_end :
  fallback_style tier = Some below →
  lower (strip style) = lower (strip tier) →
  style ≠ "luxury" → style ≠ "mid-range" →
  hotel_matches σ city country style stay_start stay_end
  = hotel_matches σ city country tier stay_start stay_end
  ∧ (hotel_matches σ city country tier stay_start stay_end = [] →
     choose_hotel city (Some country) style stay_start stay_end σ
     = (Raise (BookerErr (NoHotelsAvailable city style)), σ)
     ∧ (hotel_matches σ city country below stay_start stay_end ≠ [] →
        ∃ h, choose_hotel city (Some country) tier stay_start stay_end σ = (Ok h, σ)
             ∧ h ∈ hotel_matches σ city country below stay_start stay_end)).
Proof.
  intros Hbelow Hsame Hlux Hmid.
  pose proof (hotel_matches_tier σ city country _ _ stay_start stay_end Hsame) as Heq.
  split; [done|]. intros Hnone. split.
  - apply choose_hotel_no_downgrade; [by rewrite Heq|].
    unfold fallback_style. by rewrite !bool_decide_eq_false_2.
  - intros Hsome. rewrite (choose_hotel_downgrade _ _ _ _ below) by done.
    destruct (min_by_is_Some hotel_price _ Hsome) as [h Hmin]. rewrite Hmin.
    exists h. split; [done|].
    apply min_by_first in Hmin as (i & Hi & _). by eapply list_elem_of_lookup_2.
Qed.

(** Tokyo in the sample catalog, asked for as ["Luxury"]. *)
Lemma downgrade_needs_exact_style_witness :
  hotel_matches Sample.store "Tokyo" "Japan" "Luxury" Sample.day0 (Sample.day0 + 2)
  = hotel_matches Sample.store "Tokyo" "Japan" "luxury" Sample.day0 (Sample.day0 + 2)
  ∧ (hotel_matches Sample.store "Tokyo" "Japan" "luxury" Sample.day0 (Sample.day0 + 2)
     = [] →
     choose_hotel "Tokyo" (Some "Japan") "Luxury" Sample.day0 (Sample.day0 + 2)
       Sample.store
     = (Raise (BookerErr (NoHotelsAvailable "Tokyo" "Luxury")), Sample.store)
     ∧ (hotel_matches Sample.store "Tokyo" "Japan" "mid-range" Sample.day0
          (Sample.day0 + 2) ≠ [] →
        ∃ h, choose_hotel "Tokyo" (Some "Japan") "luxury" Sample.day0
               (Sample.day0 + 2) Sample.store = (Ok h, Sample.store)
             ∧ h ∈ hotel_matches Sample.store "Tokyo" "Japan" "mid-range" Sample.day0
                     (Sample.day0 + 2))).
Proof.
  apply (downgrade_needs_exact_style Sample.store "Tokyo" "Japan" "Luxury" "luxury"
           "mid-range" Sample.day0 (Sample.day0 + 2)).
  - reflexivity.
  - vm_compute. reflexivity.
  - by intros [=].
  - by intros [=].
Defined.

(** X20. An itinerary without [destination_country] cannot get a hotel:
    for a city with a hotel record in the catalog the lookup raises
    [AttributeError], which is not a [BookerError]; for a city with none the
    resolver raises [NoHotelsAvailable].  A resolution of such an itinerary
    that succeeds has no stay at all. *)
Theorem missing_country_books_no_hotel env it prefs pay today σ :
  it_destination_country it = None →
  (∀ city style stay_start stay_end,
     choose_hotel city None style stay_start stay_end σ
     = (if existsb (in_city city) (HOTELS_FILE σ) then Raise AttributeError
        else Raise (BookerErr (NoHotelsAvailable city style)), σ))
  ∧ (∀ res σ', book_itinerary env it prefs pay today σ = (Ok res, σ') →
       stay_plan res = [] ∧ chosen_stays res = []
       ∧ accommodation (cost_breakdown res) = 0).
Proof.
  intros Hnone. split.
  - intros city style s e.
    unfold choose_hotel, bind at 1, find_hotels_for_city at 1, bind at 1, load_hotels,
      read_json.
    destruct (existsb (in_city city) (HOTELS_FILE σ)) eqn:Hex; [done|].
    unfold ret at 1. cbn [is_empty].
    destruct (fallback_style style) as [tier|]; [|done].
    unfold bind, find_hotels_for_city, bind, load_hotels, read_json.
    by rewrite Hex.
  - intros res σ' Hrun.
    apply book_itinerary_hotels in Hrun
      as (origin & style & budget & days & start & first & rest & hotels & _ & _
          & Hloop & -> & -> & -> & _).
    apply book_cities_schedule in Hloop as (new & -> & Hall).
    destruct Hall as [|copy [[city o] n] new sched (h & Hh & _) _]; [done|].
    apply choose_hotel_ok in Hh as (c & tier & Hc & _). by rewrite Hnone in Hc.
Qed.

(** The sample catalog, a trip of no days and an itinerary without its
    country: flights only. *)
Lemma missing_country_books_no_hotel_witness :
  (∀ city style stay_start stay_end,
     choose_hotel city None style stay_start stay_end Sample.store
     = (if existsb (in_city city) (HOTELS_FILE Sample.store) then Raise AttributeError
        else Raise (BookerErr (NoHotelsAvailable city style)), Sample.store))
  ∧ (∀ res σ',
       book_itinerary Sample.env Nameless.itinerary Nameless.prefs None 0 Sample.store
       = (Ok res, σ') →
       stay_plan res = [] ∧ chosen_stays res = []
       ∧ accommodation (cost_breakdown res) = 0).
Proof.
  apply (missing_country_books_no_hotel Sample.env Nameless.itinerary Nameless.prefs
           None 0 Sample.store).
  reflexivity.
Defined.

(** With five days the same itinerary stops at the first hotel lookup. *)
Example missing_country_sample :
  (book_itinerary Sample.env Nameless.itinerary Sample.prefs None 0 Sample.store).1
  = Raise AttributeError
  ∧ ∃ res,
      book_itinerary Sample.env Nameless.itinerary Nameless.prefs None 0 Sample.store
      = (Ok res, Sample.store).
Proof. split; [vm_compute; reflexivity|]. eexists. vm_compute. reflexivity. Qed.

(** * Trips of no length *)

(** Every share of a trip of zero days or less is zero or less. *)
Lemma split_nights_nonpositive (cities : list string) days c v :
  days ≤ 0 → _split_nights_across_cities cities days !! c = Some v → v ≤ 0.
Proof.
  intros Hneg Hv.
  assert (Hin : c ∈ cities).
  { assert (Hd : c ∈ dom (_split_nights_across_cities cities days))
      by (apply elem_of_dom; by eexists).
    rewrite split_nights_dom in Hd. set_solver. }
  destruct (split_nights_value cities days c Hin) as (i & Hi & _ & Hs).
  rewrite Hs in Hv. injection Hv as <-. apply share_nonpos; [done|].
  destruct cities; [done|simpl; lia].
Qed.

(** X3. A trip length of zero or less is not refused.  With readable
    preferences, an end date [start_date + trip_length_days - 1] that is
    still a date, an itinerary with a city, a flight option in each
    direction, fares of the catalog within [0, 2^51) and a budget within
    [0, 2^51), the resolution succeeds.  Whenever it succeeds it has no stay
    and no accommodation cost, it leaves the hotels as they were, and a
    committed booking records no hotel and, as its end date, the day
    [start_date + trip_length_days - 1], which lies before its start
    date. *)
Theorem nonpositive_trip_books_no_hotel env it prefs pay today σ days :
  trip_length_days prefs = Some days →
  days ≤ 0 →
  (∀ res σ',
     book_itinerary env it prefs pay today σ = (Ok res, σ') →
     stay_plan res = []
     ∧ chosen_stays res = []
     ∧ accommodation (cost_breakdown res) = 0
     ∧ (∀ record, booking_record res = Some record →
          bk_stays record = [] ∧ bk_hotel_ids record = []
          ∧ ∃ start, bk_start_date record = isoformat start
                     ∧ bk_end_date record = isoformat (start + days - 1)
                     ∧ start + days - 1 < start)
     ∧ HOTELS_FILE σ' = HOTELS_FILE σ)
  ∧ (∀ origin style budget start end_ first rest,
       origin_city prefs = Some origin →
       travel_style prefs = Some style →
       budget_idr prefs = Some budget →
       start_date prefs = Some (IsoDate start) →
       date_add start (days - 1) = Ok end_ →
       it_cities it = Some (first :: rest) →
       options_for (FLIGHTS_FILE σ) origin first start ≠ [] →
       options_for (FLIGHTS_FILE σ) (default first (last (first :: rest))) origin end_
       ≠ [] →
       (∀ f, f ∈ FLIGHTS_FILE σ → 0 ≤ flight_price f < 2 ^ 51) →
       0 ≤ budget < 2 ^ 51 →
       ∃ res σ', book_itinerary env it prefs pay today σ = (Ok res, σ')
                 ∧ total_price_idr res = grand_total (cost_breakdown res)
                 ∧ grand_total (cost_breakdown res)
                   = total_flights (cost_breakdown res)
                     + floor_times (total_flights (cost_breakdown res)) 2 10).
Proof.
  intros Hdays Hneg. split.
  - intros res σ' Hrun.
    pose proof Hrun as (origin & style & budget & days' & start & first & rest & hotels
          & Hp & Hc & Hloop & Hstays & Hplan & Hcost & Hrec)%book_itinerary_hotels.
    apply read_prefs_ok in Hp as (_ & _ & _ & Hd' & _).
    rewrite Hdays in Hd'. injection Hd' as <-.
    rewrite book_cities_no_nights in Hloop
      by (intros c v; by apply split_nights_nonpositive).
    injection Hloop as <-.
    split_and!; [done..| |].
    + intros record (-> & -> & -> & ->)%Hrec. split_and!; [done..|].
      exists start. split_and!; [done..|lia].
    + apply book_itinerary_ok in Hrun
        as (? & ? & ? & ? & ? & ? & ? & ? & ? & ? & hotels & ? & ? & _ & _ & _ & _ & _
            & _ & _ & _ & _ & _ & _ & _ & Hcommit).
      destruct Hcommit
        as [(_ & _ & _ & _ & -> & _)|(info & record & _ & _ & _ & Hr & _ & _ & Hcb)];
        [done|].
      destruct (Hrec record Hr) as (_ & Hids & _).
      rewrite create_booking_run in Hcb. injection Hcb as Hrecord <-. simpl.
      rewrite <- Hrecord in Hids. simpl in Hids. rewrite Hids.
      apply decrement_records_nil.
  - intros origin style budget start end_ first rest Horigin Hstyle Hbudget Hstart
      Hend Hcities Hout Hback Hfares Hb.
    assert (Hp : read_prefs prefs = Ok (origin, style, budget, days, start)).
    { unfold read_prefs. by rewrite Horigin, Hstyle, Hbudget, Hdays, Hstart. }
    destruct (min_by_is_Some flight_price _ Hout) as [outbound Hmo].
    destruct (min_by_is_Some flight_price _ Hback) as [returning Hmr].
    assert (Hprice : ∀ src dst wanted f,
              min_by flight_price (options_for (FLIGHTS_FILE σ) src dst wanted) = Some f →
              0 ≤ flight_price f < 2 ^ 51).
    { intros src dst wanted f (j & Hj & _)%min_by_first.
      apply list_elem_of_lookup_2, options_for_elem in Hj as (Hin & _).
      by apply Hfares. }
    pose proof (Hprice _ _ _ _ Hmo) as Hpo. pose proof (Hprice _ _ _ _ Hmr) as Hpr.
    assert (Hbase : 0 ≤ flight_price outbound + flight_price returning
                        + accommodation_cost [] < 2 ^ 52).
    { change (accommodation_cost []) with 0.
      change (2 ^ 52) with (2 ^ 51 + 2 ^ 51). lia. }
    unfold book_itinerary, bind, lift, throw. rewrite Hp, Hend, Hcities.
    cbn [default from_option id]. rewrite find_flights_for_trip_run.
    cbn [outbound_options return_options].
    destruct (options_for (FLIGHTS_FILE σ) origin first start) as [|o1 out'] eqn:Eo;
      [done|].
    destruct (options_for (FLIGHTS_FILE σ) (default first (last (first :: rest)))
                origin end_) as [|b1 back'] eqn:Eb; [done|].
    cbn [is_empty orb]. unfold py_min. rewrite Hmo, Hmr.
    rewrite book_cities_no_nights by (intros c v; by apply split_nights_nonpositive).
    rewrite (int_mul_float_0_2 _ Hbase), (int_mul_float_1_2 _ Hb).
    change (accommodation_cost []) with 0.
    destruct pay as [info|]; [case_bool_decide|].
    + rewrite create_booking_run. unfold ret. eexists _, _. split; [done|].
      simpl. split; [done|]. by rewrite !Z.add_0_r.
    + unfold ret. eexists _, _. split; [done|]. simpl. split; [done|].
      by rewrite !Z.add_0_r.
    + unfold ret. eexists _, _. split; [done|]. simpl. split; [done|].
      by rewrite !Z.add_0_r.
Qed.

(** The sample traveller with a trip length of zero days: the two flights
    and a fifth on top. *)
Lemma nonpositive_trip_books_no_hotel_witness :
  let prefs :=
    {| origin_city := Some "Jakarta"; travel_style := Some "luxury";
       budget_idr := Some 5000000; trip_length_days := Some 0;
       start_date := Some (IsoDate Sample.day0) |} in
  ∃ res σ',
    book_itinerary Sample.env Sample.itinerary prefs (Some Sample.payment) 0
      Sample.store = (Ok res, σ')
    ∧ total_price_idr res = 1320000
    ∧ stay_plan res = []
    ∧ chosen_stays res = []
    ∧ accommodation (cost_breakdown res) = 0
    ∧ (∀ record, booking_record res = Some record →
         bk_stays record = [] ∧ bk_hotel_ids record = []
         ∧ ∃ start, bk_start_date record = isoformat start
                    ∧ bk_end_date record = isoformat (start + 0 - 1)
                    ∧ start + 0 - 1 < start)
    ∧ HOTELS_FILE σ' = HOTELS_FILE Sample.store.
Proof.
  intros prefs.
  destruct (nonpositive_trip_books_no_hotel Sample.env Sample.itinerary prefs
              (Some Sample.payment) 0 Sample.store 0) as [Hall Hsucceeds];
    [reflexivity|lia|].
  destruct (Hsucceeds "Jakarta" "luxury" 5000000 Sample.day0 (Sample.day0 - 1)
              "Tokyo" ["Osaka"]) as (res & σ' & Hrun & Htotal & Hgrand);
    [reflexivity..|by vm_compute|by vm_compute| |by vm_compute|].
  { intros f Hf. repeat (apply elem_of_cons in Hf as [->|Hf]; [by vm_compute|]).
    by apply elem_of_nil in Hf. }
  exists res, σ'. split; [exact Hrun|]. split.
  { pose proof Hrun as Hrun'. vm_compute in Hrun'. injection Hrun' as <- _.
    reflexivity. }
  by apply Hall.
Defined.
